(** * Educational game generators: sanitizer, validator, retry loops, drivers

    A shallow embedding of the Python sources

      - [fixed_code_cleaner.py]        (FixedCodeCleaner)
      - [robust_game_generator.py]     (RobustCodeCleaner, RobustGameGeneratorAction,
                                        RobustGameGenerator)
      - [adaptive_game_generator.py]   (AdaptiveContentAnalyzer, EnhancedGameGenerator,
                                        AdaptiveGameSystem)
      - [multi_agent_game_system.py]   (parse_json_response, MultiAgentGameSystem)

    Conventions of the embedding.

    - A Python [str] is a [string]; each character is one of the 256 code
      points U+0000..U+00FF and is classified the way CPython classifies that
      code point ([str.isspace], [str.isalnum], [str.lower], [str.upper]).
    - [re] patterns are values of [regex], run by a backtracking matcher with
      Python's priorities (greedy quantifiers, leftmost match).
    - JSON data is a value of [json]; objects keep their key order.
    - Code that talks to the outside (the language model, [json.loads], the
      file system, the logger, [asyncio.sleep]) runs in the monad [M]: a state
      monad over [world] with Python exceptions as results. *)

From Stdlib Require Import Ascii String List ZArith NArith Bool Lia DecimalString DecimalNat.
From stdpp Require Import base option list gmap strings.

Import ListNotations.
Local Open Scope list_scope.

(* ===================================================================== *)
(** ** Characters *)
(* ===================================================================== *)

Module PyChar.

Definition code (c : ascii) : N := N_of_ascii c.

Definition between (lo hi n : N) : bool := (lo <=? n)%N && (n <=? hi)%N.

(** [Py_UNICODE_ISSPACE], shared by [str.isspace], [str.strip] and the
    [\s] class of [re] on [str] patterns. *)
Definition isspace (c : ascii) : bool :=
  let n := code c in
  between 9 13 n || between 28 32 n || (n =? 133)%N || (n =? 160)%N.

(** [str.lower] on one character. *)
Definition lower (c : ascii) : ascii :=
  let n := code c in
  if between 65 90 n || (between 192 222 n && negb (n =? 215)%N)
  then ascii_of_N (n + 32) else c.

(** [str.upper] on one character.  U+00DF uppercases to two characters.
    The uppercase forms of U+00B5 and U+00FF lie above U+00FF; they are
    left in place here, which cannot change a comparison against ASCII
    text, the only use [upper] is put to. *)
Definition upper (c : ascii) : string :=
  let n := code c in
  if between 97 122 n || (between 224 254 n && negb (n =? 247)%N)
  then String (ascii_of_N (n - 32)) EmptyString
  else if (n =? 223)%N then "SS"
  else String c EmptyString.

(** [str.isalnum] on one character: letters, decimal digits and the
    other numeric characters of the range. *)
Definition isalnum (c : ascii) : bool :=
  let n := code c in
  between 48 57 n || between 65 90 n || between 97 122 n
  || (n =? 170)%N || between 178 179 n || (n =? 181)%N
  || between 185 186 n || between 188 190 n
  || between 192 214 n || between 216 246 n || between 248 255 n.

Definition eqb (a b : ascii) : bool := Ascii.eqb a b.

Definition newline : ascii := ascii_of_N 10.

End PyChar.

(* ===================================================================== *)
(** ** Strings *)
(* ===================================================================== *)

Module PyStr.

Definition len (s : string) : nat := String.length s.

Fixpoint map (f : ascii -> ascii) (s : string) : string :=
  match s with
  | EmptyString => EmptyString
  | String c s' => String (f c) (map f s')
  end.

Definition lower (s : string) : string := map PyChar.lower s.

Fixpoint upper (s : string) : string :=
  match s with
  | EmptyString => EmptyString
  | String c s' => PyChar.upper c +:+ upper s'
  end.

(** [s.startswith(p)] *)
Fixpoint startswith (s p : string) : bool :=
  match p, s with
  | EmptyString, _ => true
  | String _ _, EmptyString => false
  | String a p', String b s' => PyChar.eqb a b && startswith s' p'
  end.

(** [sub in s] *)
Fixpoint contains (sub s : string) : bool :=
  startswith s sub ||
  match s with
  | EmptyString => false
  | String _ s' => contains sub s'
  end.

(** [s[n:]] *)
Fixpoint drop (n : nat) (s : string) : string :=
  match n, s with
  | O, _ => s
  | S _, EmptyString => EmptyString
  | S n', String _ s' => drop n' s'
  end.

(** [s.lstrip()] *)
Fixpoint lstrip (s : string) : string :=
  match s with
  | EmptyString => EmptyString
  | String c s' => if PyChar.isspace c then lstrip s' else s
  end.

(** [s.rstrip()] *)
Fixpoint rstrip (s : string) : string :=
  match s with
  | EmptyString => EmptyString
  | String c s' =>
      match rstrip s' with
      | EmptyString => if PyChar.isspace c then EmptyString else String c EmptyString
      | r => String c r
      end
  end.

(** [s.strip()] *)
Definition strip (s : string) : string := rstrip (lstrip s).

(** [s.split('\n')] *)
Fixpoint split_lines (s : string) : list string :=
  match s with
  | EmptyString => [EmptyString]
  | String c s' =>
      if PyChar.eqb c PyChar.newline then EmptyString :: split_lines s'
      else match split_lines s' with
           | l :: ls => String c l :: ls
           | [] => [String c EmptyString]
           end
  end.

(** ['\n'.join(ls)] *)
Fixpoint join_lines (ls : list string) : string :=
  match ls with
  | [] => EmptyString
  | [l] => l
  | l :: ls' => l +:+ String PyChar.newline (join_lines ls')
  end.

(** [''.join(ls)] *)
Fixpoint concat (ls : list string) : string :=
  match ls with
  | [] => EmptyString
  | l :: ls' => l +:+ concat ls'
  end.

(** [s.replace(a, b)] for one-character [a] and [b]. *)
Definition replace_char (a b : ascii) (s : string) : string :=
  map (fun c => if PyChar.eqb c a then b else c) s.

(** [''.join(c for c in s if keep(c))] *)
Fixpoint filter (keep : ascii -> bool) (s : string) : string :=
  match s with
  | EmptyString => EmptyString
  | String c s' => if keep c then String c (filter keep s') else filter keep s'
  end.

(** [s.isalnum()]: every character alphanumeric and at least one. *)
Fixpoint all (p : ascii -> bool) (s : string) : bool :=
  match s with
  | EmptyString => true
  | String c s' => p c && all p s'
  end.

Definition isalnum (s : string) : bool :=
  negb (String.eqb s EmptyString) && all PyChar.isalnum s.

(** Number of (possibly overlapping) places where [sub] starts in [s]. *)
Fixpoint count_at (sub s : string) : nat :=
  (if startswith s sub then 1 else 0) +
  match s with
  | EmptyString => 0
  | String _ s' => count_at sub s'
  end.

(** [repr(s)] for a text of letters, digits and underscores, as the keys
    of the sources are: the text between single quotes. *)
Definition repr (s : string) : string := "'" +:+ s +:+ "'".

End PyStr.

(* ===================================================================== *)
(** ** Regular expressions *)
(* ===================================================================== *)

Module PyRe.

(** The fragment of [re] syntax the sources use.  A starred item is always
    a one-character class there ([\s*], [[^>]*], [[a-zA-Z]*], [.*?]). *)
Inductive regex : Type :=
| Lit (c : ascii)                 (* a literal character *)
| Bol                             (* ^ *)
| Eol                             (* $ *)
| Star (p : ascii -> bool)        (* greedy [class]* *)
| Lazy (p : ascii -> bool)        (* non-greedy [class]*? *)
| Opt (r : regex)                 (* greedy r? *)
| Group (r : regex)               (* (r), the pattern's only group *)
| Cat (r1 r2 : regex).            (* r1 r2 *)

Record flags : Type := { IGNORECASE : bool; MULTILINE : bool }.

Definition no_flags : flags := {| IGNORECASE := false; MULTILINE := false |}.

(** A position in the subject: the character before it, if any, the text
    from it on, and what the group has captured so far. *)
Record pos : Type := Pos { before : option ascii; rest : string; group1 : option string }.

Definition cont : Type := pos -> option pos.

Definition lit_matches (fl : flags) (c x : ascii) : bool :=
  if IGNORECASE fl then PyChar.eqb (PyChar.lower x) (PyChar.lower c)
  else PyChar.eqb x c.

(** [^]: start of the subject, and with MULTILINE also after a newline. *)
Definition at_bol (fl : flags) (prev : option ascii) : bool :=
  match prev with
  | None => true
  | Some c => MULTILINE fl && PyChar.eqb c PyChar.newline
  end.

(** [$]: end of the subject or before a final newline, and with
    MULTILINE before every newline. *)
Definition at_eol (fl : flags) (s : string) : bool :=
  match s with
  | EmptyString => true
  | String c s' =>
      PyChar.eqb c PyChar.newline &&
      (MULTILINE fl || match s' with EmptyString => true | _ => false end)
  end.

(** Greedy star: take as many characters as possible, give them back
    one at a time while the rest of the pattern fails. *)
Fixpoint star (p : ascii -> bool) (prev : option ascii) (s : string)
         (g : option string) (k : cont) : option pos :=
  match s with
  | String c s' =>
      if p c then
        match star p (Some c) s' g k with
        | Some r => Some r
        | None => k (Pos prev s g)
        end
      else k (Pos prev s g)
  | EmptyString => k (Pos prev s g)
  end.

(** Non-greedy star: take as few characters as possible, one more each
    time the rest of the pattern fails. *)
Fixpoint lazy (p : ascii -> bool) (prev : option ascii) (s : string)
         (g : option string) (k : cont) : option pos :=
  match k (Pos prev s g) with
  | Some r => Some r
  | None =>
      match s with
      | String c s' => if p c then lazy p (Some c) s' g k else None
      | EmptyString => None
      end
  end.

(** The first [n] characters of [s]. *)
Fixpoint take (n : nat) (s : string) : string :=
  match n, s with
  | S n', String c s' => String c (take n' s')
  | _, _ => EmptyString
  end.

(** The text between two positions of the same subject. *)
Definition between (from to : string) : string :=
  take (String.length from - String.length to) from.

(** [exec fl r p k]: match [r] at the position [p], then continue with
    [k]; the result is the position after the whole match. *)
Fixpoint exec (fl : flags) (r : regex) (p : pos) (k : cont) : option pos :=
  match r with
  | Lit c =>
      match rest p with
      | String x s' => if lit_matches fl c x then k (Pos (Some x) s' (group1 p)) else None
      | EmptyString => None
      end
  | Bol => if at_bol fl (before p) then k p else None
  | Eol => if at_eol fl (rest p) then k p else None
  | Star cls => star cls (before p) (rest p) (group1 p) k
  | Lazy cls => lazy cls (before p) (rest p) (group1 p) k
  | Opt r' =>
      match exec fl r' p k with
      | Some q => Some q
      | None => k p
      end
  | Group r' =>
      exec fl r' p (fun q => k (Pos (before q) (rest q) (Some (between (rest p) (rest q)))))
  | Cat r1 r2 => exec fl r1 p (fun q => exec fl r2 q k)
  end.

(** A match object: the matched text [group(0)] and the group's text. *)
Record match_object : Type := Match { matched : string; captured : option string }.

(** The pattern matched at this position. *)
Definition match_here (fl : flags) (r : regex) (prev : option ascii)
           (s : string) : option match_object :=
  match exec fl r (Pos prev s None) Some with
  | Some q => Some (Match (between s (rest q)) (group1 q))
  | None => None
  end.

(** [re.search(r, s, flags)]: the leftmost match, with its start index. *)
Fixpoint search_from (fl : flags) (r : regex) (prev : option ascii)
         (s : string) (i : nat) : option (nat * match_object) :=
  match match_here fl r prev s with
  | Some m => Some (i, m)
  | None =>
      match s with
      | EmptyString => None
      | String c s' => search_from fl r (Some c) s' (S i)
      end
  end.

Definition search (fl : flags) (r : regex) (s : string) : option (nat * match_object) :=
  search_from fl r None s 0.

(** [re.sub(r, repl, s, flags=fl)]: every non-overlapping match, from
    the left, is replaced by [repl].  [skip] counts the characters of the
    current match still to be dropped.  After an empty match the scan
    moves on by one character. *)
Fixpoint sub_from (fl : flags) (r : regex) (repl : string)
         (prev : option ascii) (s : string) (skip : nat) : string :=
  match skip with
  | S n =>
      match s with
      | EmptyString => EmptyString
      | String c s' => sub_from fl r repl (Some c) s' n
      end
  | O =>
      match option_map (fun m => String.length (matched m)) (match_here fl r prev s) with
      | Some (S n) =>
          repl +:+
          match s with
          | EmptyString => EmptyString
          | String c s' => sub_from fl r repl (Some c) s' n
          end
      | Some O =>
          repl +:+
          match s with
          | EmptyString => EmptyString
          | String c s' => String c (sub_from fl r repl (Some c) s' 0)
          end
      | None =>
          match s with
          | EmptyString => EmptyString
          | String c s' => String c (sub_from fl r repl (Some c) s' 0)
          end
      end
  end.

Definition sub (fl : flags) (r : regex) (repl s : string) : string :=
  sub_from fl r repl None s 0.

(** Pattern syntax helpers: a literal word followed by [k]. *)
Fixpoint lits (s : string) (k : regex) : regex :=
  match s with
  | EmptyString => k
  | String c s' => Cat (Lit c) (lits s' k)
  end.

Definition ws : regex := Star PyChar.isspace.                 (* \s* *)
Definition opt_nl : regex := Opt (Lit PyChar.newline).        (* \n? *)
Definition fence (k : regex) : regex := lits "```" k.         (* ``` *)
Definition any (c : ascii) : bool := true.                    (* . with DOTALL *)

End PyRe.

(* ===================================================================== *)
(** ** Python exceptions *)
(* ===================================================================== *)

(** An exception: its class and its message.  Only classes that derive
    from [Exception] are modelled, so [except Exception] catches every
    [exn]; what passes such a handler in Python ([KeyboardInterrupt],
    [SystemExit], [asyncio.CancelledError]) has no counterpart here, and
    no statement below is about it. *)
Record exn : Type := Exn { exn_class : string; exn_msg : string }.

Inductive result (A : Type) : Type :=
| Ok (a : A)
| Raise (e : exn).
Arguments Ok {A} a.
Arguments Raise {A} e.

Definition TypeError (msg : string) : exn := Exn "TypeError" msg.
Definition AttributeError (msg : string) : exn := Exn "AttributeError" msg.
Definition KeyError (msg : string) : exn := Exn "KeyError" msg.
Definition ValueError (msg : string) : exn := Exn "ValueError" msg.
Definition Exception (msg : string) : exn := Exn "Exception" msg.

Definition rbind {A B} (r : result A) (f : A -> result B) : result B :=
  match r with
  | Ok a => f a
  | Raise e => Raise e
  end.

(* ===================================================================== *)
(** ** fixed_code_cleaner.py *)
(* ===================================================================== *)

Module FixedCodeCleaner.
Import PyRe.

Definition MI : flags := {| IGNORECASE := true; MULTILINE := true |}.
Definition I : flags := {| IGNORECASE := true; MULTILINE := false |}.

(** The five [patterns] of [clean_html_response], in order:
    [^```html\s*\n?], [^```\s*\n?], [\n?```\s*$], [```\s*$], [^html\s*\n?]. *)
Definition patterns : list regex :=
  [ Cat Bol (fence (lits "html" (Cat ws opt_nl)));
    Cat Bol (fence (Cat ws opt_nl));
    Cat opt_nl (fence (Cat ws Eol));
    fence (Cat ws Eol);
    Cat Bol (lits "html" (Cat ws opt_nl)) ].

(** [for pattern in patterns: cleaned = re.sub(pattern, '', cleaned, flags=M|I)] *)
Definition remove_markdown (cleaned : string) : string :=
  fold_left (fun acc pattern => sub MI pattern EmptyString acc) patterns cleaned.

(** [<html[^>]*>] *)
Definition html_tag : regex :=
  lits "<html" (Cat (Star (fun c => negb (PyChar.eqb c ">"%char))) (Lit ">"%char)).

(** [_lenient_html_validation] *)
Definition _lenient_html_validation (html : string) : bool :=
  let html_lower := PyStr.lower html in
  let html_indicators :=
    [ PyStr.contains "doctype" html_lower;
      PyStr.contains "<html" html_lower;
      PyStr.contains "<head" html_lower;
      PyStr.contains "<body" html_lower;
      PyStr.contains "<title" html_lower ] in
  let valid_indicators := length (List.filter (fun b : bool => b) html_indicators) in
  if valid_indicators <? 2 then false else true.

(** [_format_html] *)
Definition _format_html (html : string) : string :=
  let lines := PyStr.split_lines html in
  let formatted_lines :=
    List.map PyStr.rstrip
      (List.filter (fun line => negb (String.eqb (PyStr.strip line) EmptyString)) lines) in
  PyStr.join_lines formatted_lines.

Definition nl : string := String PyChar.newline EmptyString.
Definition dq : string := String (ascii_of_N 34) EmptyString.

(** Lines 37-48: the document-type step. *)
Definition add_doctype (cleaned : string) : string :=
  if negb (PyStr.startswith (PyStr.upper cleaned) "<!DOCTYPE") then
    match search I html_tag cleaned with
    | Some (start, _) => "<!DOCTYPE html>" +:+ nl +:+ PyStr.drop start cleaned
    | None =>
        if PyStr.contains "<head>" (PyStr.lower cleaned)
           || PyStr.contains "<body>" (PyStr.lower cleaned)
        then "<!DOCTYPE html>" +:+ nl +:+ "<html lang=" +:+ dq +:+ "en" +:+ dq +:+ ">" +:+ nl
             +:+ cleaned +:+ nl +:+ "</html>"
        else cleaned
    end
  else cleaned.

(** [```[a-zA-Z]*\s*\n?] and [\n?```\s*$], both without flags. *)
Definition ascii_letter (c : ascii) : bool :=
  PyChar.between 97 122 (PyChar.code c) || PyChar.between 65 90 (PyChar.code c).

Definition emergency_open : regex := fence (Cat (Star ascii_letter) (Cat ws opt_nl)).
Definition emergency_close : regex := Cat opt_nl (fence (Cat ws Eol)).

Definition emergency_shell (cleaned : string) : string :=
  "<!DOCTYPE html>" +:+ nl +:+
  "<html lang=" +:+ dq +:+ "en" +:+ dq +:+ ">" +:+ nl +:+
  "<head>" +:+ nl +:+
  "    <meta charset=" +:+ dq +:+ "UTF-8" +:+ dq +:+ ">" +:+ nl +:+
  "    <meta name=" +:+ dq +:+ "viewport" +:+ dq +:+ " content=" +:+ dq +:+ "width=device-width, initial-scale=1.0" +:+ dq +:+ ">" +:+ nl +:+
  "    <title>Educational Game</title>" +:+ nl +:+
  "</head>" +:+ nl +:+
  "<body>" +:+ nl +:+
  cleaned +:+ nl +:+
  "</body>" +:+ nl +:+
  "</html>".

(** [_emergency_cleanup] *)
Definition _emergency_cleanup (raw_response : string) : string :=
  let cleaned := PyStr.strip raw_response in
  let cleaned := sub no_flags emergency_open EmptyString cleaned in
  let cleaned := sub no_flags emergency_close EmptyString cleaned in
  if existsb (fun tag => PyStr.contains tag (PyStr.lower cleaned))
       ["<div"; "<p>"; "<h1"; "<script"; "<style"]
  then
    if negb (PyStr.startswith (PyStr.lower cleaned) "<!doctype")
    then emergency_shell cleaned
    else cleaned
  else cleaned.

(** The body of the [try] block of [clean_html_response].  On a [str]
    argument none of its steps raises, so it always ends in [Ok]. *)
Definition clean_html_try (raw_response : string) : result string :=
  let cleaned := PyStr.strip raw_response in
  let cleaned := remove_markdown cleaned in
  let cleaned := PyStr.strip cleaned in
  let cleaned := add_doctype cleaned in
  let _ := _lenient_html_validation cleaned in   (* only logs a warning *)
  let cleaned := _format_html cleaned in
  Ok cleaned.

(** [clean_html_response]: the [try] block, and on an exception the
    emergency path. *)
Definition clean_html_response (raw_response : string) : string :=
  match clean_html_try raw_response with
  | Ok cleaned => cleaned
  | Raise _ => _emergency_cleanup raw_response
  end.

End FixedCodeCleaner.

(* ===================================================================== *)
(** ** robust_game_generator.py: RobustCodeCleaner *)
(* ===================================================================== *)

Module RobustCodeCleaner.
Import PyRe.

Definition MI : flags := {| IGNORECASE := true; MULTILINE := true |}.

(** The same five patterns as in [FixedCodeCleaner]. *)
Definition patterns : list regex :=
  [ Cat Bol (fence (lits "html" (Cat ws opt_nl)));
    Cat Bol (fence (Cat ws opt_nl));
    Cat opt_nl (fence (Cat ws Eol));
    fence (Cat ws Eol);
    Cat Bol (lits "html" (Cat ws opt_nl)) ].

Definition remove_markdown (cleaned : string) : string :=
  fold_left (fun acc pattern => sub MI pattern EmptyString acc) patterns cleaned.

Definition nl : string := FixedCodeCleaner.nl.
Definition dq : string := FixedCodeCleaner.dq.

(** The document shell of lines 48-58. *)
Definition shell (cleaned : string) : string :=
  "<!DOCTYPE html>" +:+ nl +:+
  "<html lang=" +:+ dq +:+ "en" +:+ dq +:+ ">" +:+ nl +:+
  "<head>" +:+ nl +:+
  "    <meta charset=" +:+ dq +:+ "UTF-8" +:+ dq +:+ ">" +:+ nl +:+
  "    <meta name=" +:+ dq +:+ "viewport" +:+ dq +:+ " content=" +:+ dq +:+ "width=device-width, initial-scale=1.0" +:+ dq +:+ ">" +:+ nl +:+
  "    <title>Educational Game</title>" +:+ nl +:+
  "</head>" +:+ nl +:+
  "<body>" +:+ nl +:+
  cleaned +:+ nl +:+
  "</body>" +:+ nl +:+
  "</html>".

Definition clean_html_try (raw_response : string) : result string :=
  let cleaned := PyStr.strip raw_response in
  let cleaned := remove_markdown cleaned in
  let cleaned := PyStr.strip cleaned in
  let cleaned :=
    if negb (PyStr.startswith (PyStr.upper cleaned) "<!DOCTYPE") then
      if PyStr.contains "<html" (PyStr.lower cleaned)
      then "<!DOCTYPE html>" +:+ nl +:+ cleaned
      else if existsb (fun tag => PyStr.contains tag (PyStr.lower cleaned))
                ["<head>"; "<body>"; "<div>"; "<script>"]
      then shell cleaned
      else cleaned
    else cleaned in
  Ok cleaned.

Definition clean_html_response (raw_response : string) : string :=
  match clean_html_try raw_response with
  | Ok cleaned => cleaned
  | Raise _ => PyStr.strip raw_response
  end.

End RobustCodeCleaner.

(* ===================================================================== *)
(** ** JSON values as Python sees them *)
(* ===================================================================== *)

(** A Python [float]: not-a-number, an infinity, or the finite value
    [m * 2^e]. *)
Inductive pyfloat : Type :=
| FNan
| FInf (negative : bool)
| FFin (m e : Z).

#[local] Set Warnings "-register-all".

(** What [json.loads] returns.  A [dict] is the list of its items in
    insertion order. *)
Inductive json : Type :=
| JNull
| JBool (b : bool)
| JInt (n : Z)
| JFloat (f : pyfloat)
| JStr (s : string)
| JList (items : list json)
| JDict (items : list (string * json)).

Abbreviation dict := (list (string * json)).

Module Py.

#[global] Instance result_ret : MRet result := fun _ a => Ok a.
#[global] Instance result_bind : MBind result := fun _ _ f r => rbind r f.

(** [d.get(key)] on a dict: the value of the first item with that key. *)
Fixpoint lookup (key : string) (d : dict) : option json :=
  match d with
  | [] => None
  | (k, v) :: d' => if String.eqb k key then Some v else lookup key d'
  end.

(** [d.get(key, default)] *)
Definition get (d : dict) (key : string) (default : json) : json :=
  match lookup key d with
  | Some v => v
  | None => default
  end.

(** [key in x] for a [str] key. *)
Definition contains (key : string) (x : json) : result bool :=
  match x with
  | JDict d => Ok (bool_decide (is_Some (lookup key d)))
  | JList l => Ok (existsb (fun v => match v with JStr s => String.eqb s key | _ => false end) l)
  | JStr s => Ok (PyStr.contains key s)
  | _ => Raise (TypeError "argument is not iterable")
  end.

(** [x[key]] for a [str] key. *)
Definition getitem (x : json) (key : string) : result json :=
  match x with
  | JDict d =>
      match lookup key d with
      | Some v => Ok v
      | None => Raise (KeyError (PyStr.repr key))
      end
  | JList _ => Raise (TypeError "list indices must be integers or slices, not str")
  | JStr _ => Raise (TypeError "string indices must be integers")
  | _ => Raise (TypeError "object is not subscriptable")
  end.

(** [len(x)] *)
Definition len (x : json) : result Z :=
  match x with
  | JList l => Ok (Z.of_nat (length l))
  | JDict d => Ok (Z.of_nat (length d))
  | JStr s => Ok (Z.of_nat (String.length s))
  | _ => Raise (TypeError "object has no len()")
  end.

(** Exact comparison of an [int] with a finite float [m * 2^e]. *)
Definition int_le_fin (n m e : Z) : bool :=
  if (0 <=? e)%Z then (n <=? m * 2 ^ e)%Z else (n * 2 ^ (- e) <=? m)%Z.
Definition fin_le_int (m e n : Z) : bool :=
  if (0 <=? e)%Z then (m * 2 ^ e <=? n)%Z else (m <=? n * 2 ^ (- e))%Z.
Definition int_eq_fin (n m e : Z) : bool :=
  if (0 <=? e)%Z then (n =? m * 2 ^ e)%Z else (n * 2 ^ (- e) =? m)%Z.

(** [n <= x] for an [int] n. *)
Definition int_le (n : Z) (x : json) : result bool :=
  match x with
  | JInt v => Ok (n <=? v)%Z
  | JBool b => Ok (n <=? (if b then 1 else 0))%Z
  | JFloat FNan => Ok false
  | JFloat (FInf negative) => Ok (negb negative)
  | JFloat (FFin m e) => Ok (int_le_fin n m e)
  | _ => Raise (TypeError "'<=' not supported between instances")
  end.

(** [x <= n] for an [int] n. *)
Definition le_int (x : json) (n : Z) : result bool :=
  match x with
  | JInt v => Ok (v <=? n)%Z
  | JBool b => Ok ((if b then 1 else 0) <=? n)%Z
  | JFloat FNan => Ok false
  | JFloat (FInf negative) => Ok negative
  | JFloat (FFin m e) => Ok (fin_le_int m e n)
  | _ => Raise (TypeError "'<=' not supported between instances")
  end.

(** [n != x] for an [int] n; [!=] never raises. *)
Definition int_ne (n : Z) (x : json) : bool :=
  match x with
  | JInt v => negb (n =? v)%Z
  | JBool b => negb (n =? (if b then 1 else 0))%Z
  | JFloat (FFin m e) => negb (int_eq_fin n m e)
  | _ => true
  end.

(** Truth value of [x] in a condition. *)
Definition truthy (x : json) : bool :=
  match x with
  | JNull => false
  | JBool b => b
  | JInt n => negb (n =? 0)%Z
  | JFloat FNan => true
  | JFloat (FInf _) => true
  | JFloat (FFin m _) => negb (m =? 0)%Z
  | JStr s => negb (String.eqb s EmptyString)
  | JList l => match l with [] => false | _ => true end
  | JDict d => match d with [] => false | _ => true end
  end.

End Py.

(* ===================================================================== *)
(** ** adaptive_game_generator.py: the analyzer's pure parts *)
(* ===================================================================== *)

Module AnalyzerPure.
Import PyRe.

Definition MI : flags := {| IGNORECASE := true; MULTILINE := true |}.

(** [^```json\s*\n?], [^```\s*\n?], [\n?```\s*$], [```\s*$] *)
Definition patterns : list regex :=
  [ Cat Bol (fence (lits "json" (Cat ws opt_nl)));
    Cat Bol (fence (Cat ws opt_nl));
    Cat opt_nl (fence (Cat ws Eol));
    fence (Cat ws Eol) ].

(** [_clean_json_response] *)
Definition _clean_json_response (response : string) : string :=
  let cleaned := PyStr.strip response in
  let cleaned :=
    fold_left (fun acc pattern => sub MI pattern EmptyString acc) patterns cleaned in
  PyStr.strip cleaned.

(** The body of the [try] block of [_validate_analysis]. *)
Definition validate_try (data : json) : result bool :=
  (* all(key in data for key in required_keys) *)
  has_all ← (b ← Py.contains "content_analysis" data;
             if b : bool then Py.contains "game_specifications" data else mret false);
  if negb has_all then mret false else
  content_analysis ← Py.getitem data "content_analysis";
  has_count ← Py.contains "optimal_game_count" content_analysis;
  if negb has_count then mret false else
  game_count ← Py.getitem content_analysis "optimal_game_count";
  (* 3 <= game_count <= 15 *)
  in_range ← (b ← Py.int_le 3 game_count;
              if b : bool then Py.le_int game_count 15 else mret false);
  if negb in_range then mret false else
  games ← Py.getitem data "game_specifications";
  n ← Py.len games;
  if Py.int_ne n game_count then mret false else
  mret true.

(** [_validate_analysis]: [except Exception: return False]. *)
Definition _validate_analysis (data : json) : bool :=
  match validate_try data with
  | Ok b => b
  | Raise _ => false
  end.

(** The validation clauses of the specification, in its own terms.

    The result "contains" a section when it is an object with that key; a
    game count is "declared" when the content-analysis section is an
    object with the key [optimal_game_count]; [denotes gc n] says that the
    declared count is the number [n]; the length of the game-specification
    sequence is Python's [len]. *)
Inductive denotes : json -> Z -> Prop :=
| denotes_int n : denotes (JInt n) n
| denotes_bool b : denotes (JBool b) (if b then 1 else 0)
| denotes_float_pos m e n : (0 <= e)%Z -> n = (m * 2 ^ e)%Z -> denotes (JFloat (FFin m e)) n
| denotes_float_neg m e n : (e < 0)%Z -> m = (n * 2 ^ (- e))%Z -> denotes (JFloat (FFin m e)) n.

Inductive has_length : json -> Z -> Prop :=
| length_list l : has_length (JList l) (Z.of_nat (length l))
| length_dict d : has_length (JDict d) (Z.of_nat (length d))
| length_str s : has_length (JStr s) (Z.of_nat (String.length s)).

Definition section (data : json) (key : string) (v : json) : Prop :=
  exists d, data = JDict d /\ Py.lookup key d = Some v.

Definition spec_accepts (data : json) : Prop :=
  exists analysis games declared count,
    section data "content_analysis" analysis /\
    section data "game_specifications" games /\
    section analysis "optimal_game_count" declared /\
    denotes declared count /\
    (3 <= count <= 15)%Z /\
    has_length games count.

End AnalyzerPure.

(* ===================================================================== *)
(** ** The outside world *)
(* ===================================================================== *)

(** A prompt is a fixed template around these values; only the values are
    kept. *)
Inductive prompt : Type :=
| AnalysisPrompt (content : string)
| EnhancedGamePrompt (game_spec : dict) (total_games : json) (game_position : nat)
| RobustGamePrompt (game_spec : dict).

Inductive level : Type := INFO | WARNING | ERROR.

(** A page rendered from a list of game entries: the text is a fixed
    template with one card per entry, in order, whose button opens the
    entry's [filename]. *)
Inductive document : Type :=
| Text (s : string)
| IndexPage (games : list dict)
| AnalysisReport (content_analysis : json) (games : list dict).

(** What a run does that can be seen from outside.  Log messages are
    given without their pictographs, and with the interpolated values
    beside the text. *)
Inductive event : Type :=
| Ask (p : prompt)                         (* await llm.aask(prompt) *)
| Sleep (seconds : nat)                    (* await asyncio.sleep(seconds) *)
| Log (lv : level) (msg : string) (args : list json)
                                           (* logger.info / warning / error:
                                              [msg] with [args] put in its {} *)
| Mkdir (path : string)
| Written (path : string) (doc : document).

(** The collaborators: the language model (its answer may depend on how
    many calls came before), [json.loads], [int], and the file system
    calls that can fail. *)
Record env : Type := {
  llm : nat -> prompt -> result string;
  json_loads : string -> result json;
  int_of_str : string -> result Z;
  read_text : string -> result string;
  mkdir_ok : string -> bool;
  open_ok : nat -> string -> bool
}.

Record world : Type := {
  asks : nat;                         (* calls of the language model so far *)
  opens : nat;                        (* files opened for writing so far *)
  trace : list event;
  fs : gmap string document
}.

Definition world0 : world := {| asks := 0; opens := 0; trace := []; fs := ∅ |}.

(** Computations: state over [world], exceptions as results. *)
Record M (A : Type) : Type := MkM { run : env -> world -> result A * world }.
Arguments MkM {A} run.
Arguments run {A} m e w.

#[global] Instance M_ret : MRet M := fun _ a => MkM (fun _ w => (Ok a, w)).
#[global] Instance M_bind : MBind M := fun _ _ f m =>
  MkM (fun e w =>
         match run m e w with
         | (Ok a, w') => run (f a) e w'
         | (Raise x, w') => (Raise x, w')
         end).

Definition raise {A} (x : exn) : M A := MkM (fun _ w => (Raise x, w)).

(** [try: body except Exception as e: handler(e)] *)
Definition try_except {A} (body : M A) (handler : exn -> M A) : M A :=
  MkM (fun e w =>
         match run body e w with
         | (Ok a, w') => (Ok a, w')
         | (Raise x, w') => run (handler x) e w'
         end).

Definition lift {A} (r : result A) : M A := MkM (fun _ w => (r, w)).

Definition emit (ev : event) (w : world) : world :=
  {| asks := asks w; opens := opens w; trace := trace w ++ [ev]; fs := fs w |}.

Definition log (lv : level) (msg : string) (args : list json) : M unit :=
  MkM (fun _ w => (Ok tt, emit (Log lv msg args) w)).

Definition sleep (seconds : nat) : M unit :=
  MkM (fun _ w => (Ok tt, emit (Sleep seconds) w)).

Definition aask (p : prompt) : M string :=
  MkM (fun e w =>
         (llm e (asks w) p,
          {| asks := S (asks w); opens := opens w;
             trace := trace w ++ [Ask p]; fs := fs w |})).

Definition loads (s : string) : M json := MkM (fun e w => (json_loads e s, w)).

Definition to_int (s : string) : M Z := MkM (fun e w => (int_of_str e s, w)).

Definition read_file (path : string) : M string :=
  MkM (fun e w => (read_text e path, w)).

Definition OSError (msg : string) : exn := Exn "OSError" msg.

Definition mkdir (path : string) : M unit :=
  MkM (fun e w =>
         if mkdir_ok e path then (Ok tt, emit (Mkdir path) w)
         else (Raise (OSError path), w)).

(** [with open(path, 'w') as f: f.write(doc)] *)
Definition write_file (path : string) (doc : document) : M unit :=
  MkM (fun e w =>
         if open_ok e (opens w) path then
           (Ok tt, {| asks := asks w; opens := S (opens w);
                      trace := trace w ++ [Written path doc];
                      fs := <[path := doc]> (fs w) |})
         else
           (Raise (OSError path),
            {| asks := asks w; opens := S (opens w); trace := trace w; fs := fs w |})).

(** [with open(path, 'w') as f: f.write(data)] where [data] comes from
    JSON: the file is created empty by [open], and [write] raises on
    anything but a [str]. *)
Definition write_json (path : string) (data : json) : M unit :=
  match data with
  | JStr s => write_file path (Text s)
  | _ =>
      _ ← write_file path (Text EmptyString);
      raise (TypeError "write() argument must be str")
  end.

(* ===================================================================== *)
(** ** Formatting numbers, titles and file names *)
(* ===================================================================== *)

Module Fmt.

(** [str(n)] for a natural number. *)
Definition str_nat (n : nat) : string := NilZero.string_of_uint (Nat.to_uint n).

(** [f"{n:02d}"] for a natural number. *)
Definition pad2 (n : nat) : string :=
  if n <? 10 then "0" +:+ str_nat n else str_nat n.

(** [str(n)] for an [int]. *)
Definition str_int (n : Z) : string :=
  if (n <? 0)%Z then "-" +:+ str_nat (Z.to_nat (- n)) else str_nat (Z.to_nat n).

(** [f"{n:02d}"] for an [int]: the sign counts in the width. *)
Definition pad2_int (n : Z) : string :=
  if (n <? 0)%Z then "-" +:+ str_nat (Z.to_nat (- n)) else pad2 (Z.to_nat n).

(** [f"{x:02d}"] for a JSON value. *)
Definition format_02d (x : json) : result string :=
  match x with
  | JInt n => Ok (pad2_int n)
  | JBool b => Ok (if b then "01" else "00")
  | JFloat _ => Raise (ValueError "Unknown format code 'd' for object of type 'float'")
  | JStr _ => Raise (ValueError "Unknown format code 'd' for object of type 'str'")
  | _ => Raise (TypeError "unsupported format string")
  end.

(** [f"{x}"] where it decides a file name: exact on integers, booleans,
    strings and [None].  On the other values the text is not modelled;
    the only caller formats the same value with [:02d] right after, which
    raises on them. *)
Definition str_json (x : json) : string :=
  match x with
  | JInt n => str_int n
  | JBool b => if b then "True" else "False"
  | JStr s => s
  | JNull => "None"
  | _ => EmptyString
  end.

(** [c.isalnum() or c in (' ', '-', '_')] for a character of the title. *)
Definition keep_char (c : ascii) : bool :=
  PyChar.isalnum c
  || PyChar.eqb c " "%char || PyChar.eqb c "-"%char || PyChar.eqb c "_"%char.

(** The same test on an item when the title is not a [str] but a list or
    a dict, whose items are what the loop sees. *)
Definition keep_item (x : json) : result (option string) :=
  match x with
  | JStr c =>
      if PyStr.isalnum c || String.eqb c " " || String.eqb c "-" || String.eqb c "_"
      then Ok (Some c) else Ok None
  | _ => Raise (AttributeError "object has no attribute 'isalnum'")
  end.

Fixpoint keep_items (xs : list json) : result string :=
  match xs with
  | [] => Ok EmptyString
  | x :: xs' =>
      k ← keep_item x;
      r ← keep_items xs';
      mret (match k with Some c => c +:+ r | None => r end)
  end.

(** ["".join(c for c in title if c.isalnum() or c in (' ', '-', '_')).strip()] *)
Definition safe_title_of (title : json) : result string :=
  match title with
  | JStr s => Ok (PyStr.strip (PyStr.filter keep_char s))
  | JList xs => r ← keep_items xs; mret (PyStr.strip r)
  | JDict d => r ← keep_items (List.map (fun kv => JStr (fst kv)) d); mret (PyStr.strip r)
  | _ => Raise (TypeError "object is not iterable")
  end.

(** [f"game_{number}_{safe_title.replace(' ', '_')}.html"], [number]
    already formatted. *)
Definition filename_of (number safe_title : string) : string :=
  "game_" +:+ number +:+ "_" +:+ PyStr.replace_char " "%char "_"%char safe_title +:+ ".html".

(** [output_path / filename] *)
Definition path_join (dir name : string) : string := dir +:+ "/" +:+ name.

(** [x.get(key, default)]: only a dict has the method. *)
Definition get_method (x : json) (key : string) (default : json) : result json :=
  match x with
  | JDict d => Ok (Py.get d key default)
  | _ => Raise (AttributeError "object has no attribute 'get'")
  end.

(** The items a [for] loop over [x] sees. *)
Definition iter_items (x : json) : result (list json) :=
  match x with
  | JList xs => Ok xs
  | JDict d => Ok (List.map (fun kv => JStr (fst kv)) d)
  | JStr s => Ok (List.map (fun c => JStr (String c EmptyString)) (list_ascii_of_string s))
  | _ => Raise (TypeError "object is not iterable")
  end.

End Fmt.

(* ===================================================================== *)
(** ** Retry loops *)
(* ===================================================================== *)

(** How one pass through the body of a [for attempt in range(...)] loop
    ends: with [return] or by going on to the next attempt ([continue],
    or reaching the end of the body). *)
Inductive step (A : Type) : Type :=
| Return (a : A)
| Continue.
Arguments Return {A} a.
Arguments Continue {A}.

(** [for attempt in attempts: body(attempt)], then [after]. *)
Fixpoint for_attempts {A} (body : nat -> M (step A)) (attempts : list nat)
         (after : M A) : M A :=
  match attempts with
  | [] => after
  | attempt :: attempts' =>
      r ← body attempt;
      match r with
      | Return a => mret a
      | Continue => for_attempts body attempts' after
      end
  end.

Definition max_retries : nat := 3.

Definition jnat (n : nat) : json := JInt (Z.of_nat n).

Module AdaptiveContentAnalyzer.
Import AnalyzerPure.

(** One attempt of [run] (lines 86-104). *)
Definition attempt_body (analysis_prompt : prompt) (attempt : nat) : M (step json) :=
  try_except
    (response ← aask analysis_prompt;
     let cleaned_response := _clean_json_response response in
     analysis_data ← loads cleaned_response;
     if _validate_analysis analysis_data then
       content_analysis ← lift (Py.getitem analysis_data "content_analysis");
       optimal ← lift (Py.getitem content_analysis "optimal_game_count");
       _ ← log INFO "Content analysis complete: {} games recommended" [optimal];
       mret (Return analysis_data)
     else
       _ ← log WARNING "Analysis validation failed on attempt {}" [jnat (attempt + 1)];
       mret Continue)
    (fun e =>
       _ ← log WARNING "Analysis attempt {} failed: {}" [jnat (attempt + 1); JStr (exn_msg e)];
       if attempt =? max_retries - 1 then
         raise (Exception "Failed to analyze content after 3 attempts")
       else
         _ ← sleep 1;
         mret Continue).

(** [run] (lines 84-106). *)
Definition run (content : string) : M json :=
  for_attempts (attempt_body (AnalysisPrompt content)) (seq 0 max_retries)
    (raise (Exception "All content analysis attempts failed")).

End AdaptiveContentAnalyzer.

Section EnhancedGameGenerator.

(** [self._create_enhanced_fallback]: what the call at line 220 does. *)
Variable _create_enhanced_fallback : dict -> M string.

(** One attempt of [EnhancedGameGenerator.run] (lines 212-237). *)
Definition enhanced_attempt (game_spec : dict) (p : prompt) (attempt : nat)
  : M (step string) :=
  try_except
    (response ← aask p;
     if String.eqb response EmptyString
        || (String.length (PyStr.strip response) <? 100) then
       _ ← log WARNING "Short response on attempt {}" [jnat (attempt + 1)];
       if attempt <? max_retries - 1 then mret Continue
       else
         fallback ← _create_enhanced_fallback game_spec;
         mret (Return fallback)
     else
       let cleaned_html := FixedCodeCleaner.clean_html_response response in
       if String.length cleaned_html <? 200 then
         _ ← log WARNING "Cleaned HTML too short: {} chars" [jnat (String.length cleaned_html)];
         if attempt <? max_retries - 1 then mret Continue
         else mret (Return cleaned_html)
       else mret (Return cleaned_html))
    (fun e =>
       _ ← log WARNING "Generation attempt {} failed: {}" [jnat (attempt + 1); JStr (exn_msg e)];
       if attempt =? max_retries - 1 then
         raise (Exception "Failed to generate game after 3 attempts")
       else
         _ ← sleep 1;
         mret Continue).

(** [EnhancedGameGenerator.run] (lines 210-239). *)
Definition enhanced_run (game_spec : dict) (total_games : json) (game_position : nat)
  : M string :=
  for_attempts
    (enhanced_attempt game_spec (EnhancedGamePrompt game_spec total_games game_position))
    (seq 0 max_retries)
    (raise (Exception "All game generation attempts failed")).

End EnhancedGameGenerator.

(** The class body of [EnhancedGameGenerator] (lines 151-239) defines
    [name] and [run] only, and its base class has no
    [_create_enhanced_fallback]: looking the attribute up raises. *)
Definition missing_fallback (game_spec : dict) : M string :=
  raise (AttributeError
    "'EnhancedGameGenerator' object has no attribute '_create_enhanced_fallback'").

Module RobustGameGeneratorAction.

(** One attempt of [run] (lines 117-145). *)
Definition attempt_body (p : prompt) (attempt : nat) : M (step string) :=
  try_except
    (response ← aask p;
     if String.eqb response EmptyString
        || (String.length (PyStr.strip response) <? 100) then
       _ ← log WARNING "Short response on attempt {}" [jnat (attempt + 1)];
       if attempt <? max_retries - 1 then mret Continue
       else raise (Exception "Generated HTML is too short")
     else
       let cleaned_html := RobustCodeCleaner.clean_html_response response in
       if String.length cleaned_html <? 200 then
         _ ← log WARNING "Cleaned HTML seems too short: {} chars" [jnat (String.length cleaned_html)];
         if attempt <? max_retries - 1 then mret Continue
         else mret (Return cleaned_html)
       else mret (Return cleaned_html))
    (fun e =>
       _ ← log WARNING "Attempt {} failed: {}" [jnat (attempt + 1); JStr (exn_msg e)];
       if attempt =? max_retries - 1 then
         _ ← log ERROR "All attempts failed" [];
         raise (Exception "Failed to generate game after 3 attempts")
       else
         _ ← sleep 1;
         mret Continue).

(** [run] (lines 115-147). *)
Definition run (game_spec : dict) : M string :=
  for_attempts (attempt_body (RobustGamePrompt game_spec)) (seq 0 max_retries)
    (raise (Exception "All game generation attempts failed")).

End RobustGameGeneratorAction.

(* ===================================================================== *)
(** ** Pipeline drivers *)
(* ===================================================================== *)

(** [for i, game_spec in enumerate(specs, start)] with the body of lines
    284-313 (adaptive) and 181-207 (robust): the log line that reads
    [game_spec.get('title', 'Untitled')] is outside the inner [try]; the
    rest, [one_game], is inside it. *)
Fixpoint games_loop (one_game : nat -> dict -> M dict) (total : json)
         (i : nat) (specs : list json) (successful_games : list dict)
  : M (list dict) :=
  match specs with
  | [] => mret successful_games
  | JDict game_spec :: specs' =>
      _ ← log INFO "Generating {}/{}: {}"
            [jnat i; total; Py.get game_spec "title" (JStr "Untitled")];
      successful_games' ←
        try_except
          (entry ← one_game i game_spec;
           mret (successful_games ++ [entry]))
          (fun e =>
             _ ← log ERROR "Failed to generate game {}: {}" [jnat i; JStr (exn_msg e)];
             mret successful_games);
      games_loop one_game total (S i) specs' successful_games'
  | _ :: _ => raise (AttributeError "object has no attribute 'get'")
  end.

Section AdaptiveGameSystem.

Variable _create_enhanced_fallback : dict -> M string.

(** The body of the inner [try] (lines 288-310). *)
Definition adaptive_game (output_dir : string) (optimal_games : json)
           (i : nat) (game_spec : dict) : M dict :=
  html_code ← enhanced_run _create_enhanced_fallback game_spec optimal_games i;
  let title := Py.get game_spec "title" (JStr ("Game " +:+ Fmt.str_nat i)) in
  safe_title ← lift (Fmt.safe_title_of title);
  let filename := Fmt.filename_of (Fmt.pad2 i) safe_title in
  let game_file := Fmt.path_join output_dir filename in
  _ ← write_file game_file (Text html_code);
  let entry : dict :=
    [ ("number", jnat i);
      ("title", title);
      ("filename", JStr filename);
      ("concept", Py.get game_spec "concept" (JStr "Learning"));
      ("difficulty", Py.get game_spec "difficulty" (JStr "Medium"));
      ("learning_objective", Py.get game_spec "learning_objective" (JStr "Educational goal"));
      ("estimated_time", Py.get game_spec "estimated_time" (JStr "3 minutes"));
      ("status", JStr "success") ] in
  _ ← log INFO "Generated successfully: {}" [JStr filename];
  mret entry.

(** [s.split()[0]]: the first run of non-blank characters. *)
Fixpoint until_space (s : string) : string :=
  match s with
  | EmptyString => EmptyString
  | String c s' => if PyChar.isspace c then EmptyString else String c (until_space s')
  end.

Definition first_word (s : string) : result string :=
  match PyStr.lstrip s with
  | EmptyString => Raise (Exn "IndexError" "list index out of range")
  | t => Ok (until_space t)
  end.

(** [int(game.get('estimated_time', '3').split()[0])] *)
Definition minutes_of (game : dict) : M Z :=
  match Py.get game "estimated_time" (JStr "3") with
  | JStr s => w ← lift (first_word s); to_int w
  | _ => raise (AttributeError "object has no attribute 'split'")
  end.

Fixpoint sum_minutes (games : list dict) : M Z :=
  match games with
  | [] => mret 0%Z
  | game :: games' =>
      m ← minutes_of game;
      t ← sum_minutes games';
      mret (m + t)%Z
  end.

(** [game['difficulty'].lower()] in the card of each game. *)
Fixpoint difficulty_classes (games : list dict) : result unit :=
  match games with
  | [] => Ok tt
  | game :: games' =>
      d ← Py.getitem (JDict game) "difficulty";
      match d with
      | JStr _ => difficulty_classes games'
      | _ => Raise (AttributeError "object has no attribute 'lower'")
      end
  end.

(** [_create_enhanced_index]: the values the page template reads, in the
    order it reads them, then the file. *)
Definition _create_enhanced_index (games : list dict) (analysis : json)
           (output_dir : string) : M unit :=
  total_time ← sum_minutes games;
  content_analysis ← lift (Py.getitem analysis "content_analysis");
  _ ← lift (Py.getitem content_analysis "total_concepts");
  _ ← lift (Py.getitem content_analysis "reasoning");
  breakdown ← lift (Py.getitem content_analysis "complexity_breakdown");
  _ ← lift (Py.getitem breakdown "simple");
  _ ← lift (Py.getitem breakdown "medium");
  _ ← lift (Py.getitem breakdown "complex");
  _ ← lift (difficulty_classes games);
  let index_file := Fmt.path_join output_dir "index.html" in
  _ ← write_file index_file (IndexPage games);
  log INFO "Enhanced index page created: {}" [JStr index_file].

(** [_save_analysis_report] *)
Definition _save_analysis_report (analysis : json) (games : list dict)
           (output_dir : string) : M unit :=
  content_analysis ← lift (Py.getitem analysis "content_analysis");
  _ ← lift (Py.getitem content_analysis "optimal_game_count");
  let report_file := Fmt.path_join output_dir "analysis_report.json" in
  _ ← write_file report_file (AnalysisReport content_analysis games);
  log INFO "Analysis report saved: {}" [JStr report_file].

(** [generate_adaptive_games] (lines 250-326). *)
Definition generate_adaptive_games (content_file output_dir : string) : M unit :=
  _ ← log INFO "Starting adaptive game generation" [];
  try_except
    (_ ← log INFO "Stage 1: Loading content" [];
     content ← read_file content_file;
     if String.length (PyStr.strip content) <? 50 then
       log ERROR "Content too short for analysis" []
     else
       _ ← log INFO "Stage 2: Analyzing content complexity" [];
       analysis ← AdaptiveContentAnalyzer.run content;
       content_analysis ← lift (Py.getitem analysis "content_analysis");
       optimal_games ← lift (Py.getitem content_analysis "optimal_game_count");
       _ ← log INFO "Analysis complete: {} games recommended" [optimal_games];
       learning_time ← lift (Py.getitem content_analysis "estimated_learning_time");
       _ ← log INFO "Estimated learning time: {}" [learning_time];
       _ ← log INFO "Stage 3: Setting up output directory" [];
       _ ← mkdir output_dir;
       _ ← log INFO "Stage 4-7: Generating {} adaptive games" [optimal_games];
       specs_json ← lift (Py.getitem analysis "game_specifications");
       specs ← lift (Fmt.iter_items specs_json);
       successful_games ←
         games_loop (adaptive_game output_dir optimal_games) optimal_games 1 specs [];
       _ ← log INFO "Stage 8: Creating index and reports" [];
       _ ← _create_enhanced_index successful_games analysis output_dir;
       _ ← _save_analysis_report analysis successful_games output_dir;
       _ ← log INFO "Adaptive generation complete!" [];
       _ ← log INFO "Generated {}/{} games" [jnat (length successful_games); optimal_games];
       _ ← log INFO "Files saved to: {}" [JStr output_dir];
       log INFO "Perfectly adapted to content complexity!" [])
    (fun e => log ERROR "Critical error in adaptive system: {}" [JStr (exn_msg e)]).

End AdaptiveGameSystem.

Module RobustGameGenerator.

(** The body of the inner [try] (lines 185-204). *)
Definition robust_game (output_dir : string) (i : nat) (game_spec : dict) : M dict :=
  html_code ← RobustGameGeneratorAction.run game_spec;
  let title := Py.get game_spec "title" (JStr ("Game " +:+ Fmt.str_nat i)) in
  safe_title ← lift (Fmt.safe_title_of title);
  let filename := Fmt.filename_of (Fmt.pad2 i) safe_title in
  let game_file := Fmt.path_join output_dir filename in
  _ ← write_file game_file (Text html_code);
  let entry : dict :=
    [ ("number", jnat i);
      ("title", title);
      ("filename", JStr filename);
      ("concept", Py.get game_spec "concept" (JStr "Learning"));
      ("status", JStr "success") ] in
  _ ← log INFO "Generated successfully: {}" [JStr filename];
  mret entry.

(** [_create_simple_index] *)
Definition _create_simple_index (games : list dict) (output_dir : string) : M unit :=
  let index_file := Fmt.path_join output_dir "index.html" in
  _ ← write_file index_file (IndexPage games);
  log INFO "Index page created: {}" [JStr index_file].

(** [generate_games_from_json] (lines 158-216). *)
Definition generate_games_from_json (json_file output_dir : string) : M unit :=
  _ ← log INFO "Starting robust game generation" [];
  try_except
    (text ← read_file json_file;
     system_data ← loads text;
     mini_games ← lift (Fmt.get_method system_data "mini_games" (JList []));
     if negb (Py.truthy mini_games) then
       log ERROR "No games found in JSON file" []
     else
       _ ← mkdir output_dir;
       specs ← lift (Fmt.iter_items mini_games);
       total ← lift (Py.len mini_games);
       successful_games ← games_loop (robust_game output_dir) (JInt total) 1 specs [];
       _ ← _create_simple_index successful_games output_dir;
       _ ← log INFO "Generation complete! {}/{} games created"
             [jnat (length successful_games); JInt total];
       log INFO "Files saved to: {}" [JStr output_dir])
    (fun e => log ERROR "Critical error: {}" [JStr (exn_msg e)]).

End RobustGameGenerator.

(* ===================================================================== *)
(** ** multi_agent_game_system.py *)
(* ===================================================================== *)

Module MultiAgent.
Import PyRe.

Definition I : flags := {| IGNORECASE := true; MULTILINE := false |}.

(** [```json\s*\n?(.*?)\n?```] with DOTALL *)
Definition json_block : regex :=
  fence (lits "json" (Cat ws (Cat opt_nl (Cat (Group (Lazy any))
    (Cat opt_nl (lits "``" (Lit "`"%char))))))).

(** [\{.*?\}] with DOTALL *)
Definition json_object : regex :=
  Cat (Lit "{"%char) (Cat (Lazy any) (Lit "}"%char)).

(** The text handed to [json.loads] (lines 24-32). *)
Definition json_text_of (rsp : string) : string :=
  match search I json_block rsp with
  | Some (_, m) => default EmptyString (captured m)
  | None =>
      match search no_flags json_object rsp with
      | Some (_, m) => matched m
      | None => rsp
      end
  end.

(** [parse_json_response]: [except json.JSONDecodeError] catches that
    class only. *)
Definition parse_json_response (rsp : string) : M json :=
  let json_text := json_text_of rsp in
  try_except (loads json_text)
    (fun e =>
       if String.eqb (exn_class e) "JSONDecodeError" then
         mret (JDict [("error", JStr "Failed to parse JSON"); ("raw_response", JStr rsp)])
       else raise e).

(** The body of the loop of [_save_games] (lines 406-425). *)
Definition save_one (output_dir : string) (result : json)
           (successful_games : list dict) : M (list dict) :=
  game_data ← lift (Fmt.get_method result "game_data" (JDict []));
  validation ← lift (Fmt.get_method result "validation" (JDict []));
  passes ← lift (Fmt.get_method validation "passes_validation" (JBool true));
  if Py.truthy passes then
    number ← lift (Fmt.get_method game_data "game_number" (JInt 1));
    title ← lift (Fmt.get_method game_data "title" (JStr ("Game " +:+ Fmt.str_json number)));
    safe_title ← lift (Fmt.safe_title_of title);
    number ← lift (Fmt.get_method game_data "game_number" (JInt 1));
    formatted ← lift (Fmt.format_02d number);
    let filename := Fmt.filename_of formatted safe_title in
    let game_file := Fmt.path_join output_dir filename in
    html ← lift (Fmt.get_method game_data "html" (JStr EmptyString));
    _ ← write_json game_file html;
    score ← lift (Fmt.get_method validation "validation_score" (JInt 0));
    let entry : dict :=
      [ ("title", title); ("filename", JStr filename); ("validation_score", score) ] in
    score ← lift (Fmt.get_method validation "validation_score" (JInt 0));
    _ ← log INFO "Saved: {} (Score: {}/10)" [JStr filename; score];
    mret (successful_games ++ [entry])
  else mret successful_games.

Fixpoint save_loop (output_dir : string) (results : list json)
         (successful_games : list dict) : M (list dict) :=
  match results with
  | [] => mret successful_games
  | result :: results' =>
      successful_games' ← save_one output_dir result successful_games;
      save_loop output_dir results' successful_games'
  end.

(** [_create_index] *)
Definition _create_index (games : list dict) (output_dir : string) : M unit :=
  let index_file := Fmt.path_join output_dir "index.html" in
  _ ← write_file index_file (IndexPage games);
  log INFO "Index page created: {}" [JStr index_file].

(** [_save_games] (lines 397-431). *)
Definition _save_games (results_json output_dir : string) : M unit :=
  try_except
    (results ← loads results_json;
     _ ← mkdir output_dir;
     items ← lift (Fmt.iter_items results);
     successful_games ← save_loop output_dir items [];
     _create_index successful_games output_dir)
    (fun e => log ERROR "Error saving games: {}" [JStr (exn_msg e)]).

End MultiAgent.



(* ===================================================================== *)
(** ** The specification's wording, where it is compared with the code *)
(* ===================================================================== *)

Module Claimed.

(** The title part of a file name as the specification words it: every
    character that is not alphanumeric, a space, a hyphen or an
    underscore removed, and spaces turned into underscores. *)
Definition slug (title : string) : string :=
  PyStr.replace_char " "%char "_"%char (PyStr.filter Fmt.keep_char title).

Definition filename (i : nat) (title : string) : string :=
  "game_" +:+ Fmt.pad2 i +:+ "_" +:+ slug title +:+ ".html".

(** Leading and trailing blanks (the character U+0020 only) cut off. *)
Fixpoint ltrim (s : string) : string :=
  match s with
  | EmptyString => EmptyString
  | String c s' => if PyChar.eqb c " "%char then ltrim s' else s
  end.

Fixpoint rtrim (s : string) : string :=
  match s with
  | EmptyString => EmptyString
  | String c s' =>
      match rtrim s' with
      | EmptyString => if PyChar.eqb c " "%char then EmptyString else String c EmptyString
      | r => String c r
      end
  end.

Definition trim (s : string) : string := rtrim (ltrim s).

(** What may stand in the title part of a file name. *)
Definition slug_char (c : ascii) : bool :=
  PyChar.isalnum c || PyChar.eqb c "-"%char || PyChar.eqb c "_"%char.

(** The number of non-whitespace characters of a text. *)
Definition nonspace_count (s : string) : nat :=
  String.length (PyStr.filter (fun c => negb (PyChar.isspace c)) s).

End Claimed.

(* ===================================================================== *)
(** ** Scenarios: concrete collaborators and inputs *)
(* ===================================================================== *)

Module Scenario.

Fixpoint replicate_char (n : nat) (c : ascii) : string :=
  match n with
  | O => EmptyString
  | S n' => String c (replicate_char n' c)
  end.

Definition NoSuchFile : exn := Exn "FileNotFoundError" "No such file or directory".
Definition NotJson : exn := Exn "JSONDecodeError" "Expecting value".
Definition NotInt : exn := Exn "ValueError" "invalid literal for int()".

(** A language model that gives the same answer to every call. *)
Definition constant_llm (answer : result string) : nat -> prompt -> result string :=
  fun _ _ => answer.

(** [json.loads] as far as a scenario needs it: a table of texts and
    their values; anything else is rejected. *)
Fixpoint loads_table (table : list (string * json)) (s : string) : result json :=
  match table with
  | [] => Raise NotJson
  | (text, v) :: table' => if String.eqb text s then Ok v else loads_table table' s
  end.

(** A collaborator set with the given model answers, JSON table and input
    files, and a file system on which every write succeeds. *)
Definition make_env (model : nat -> prompt -> result string)
           (table : list (string * json)) (files : list (string * string)) : env :=
  {| llm := model;
     json_loads := loads_table table;
     int_of_str := fun _ => Raise NotInt;
     read_text := fun path =>
       match List.find (fun kv => String.eqb (fst kv) path) files with
       | Some kv => Ok (snd kv)
       | None => Raise NoSuchFile
       end;
     mkdir_ok := fun _ => true;
     open_ok := fun _ _ => true |}.

(** The model answers [{}] every time: JSON that parses and fails
    validation. *)
Definition env_empty_object : env :=
  make_env (constant_llm (Ok "{}")) [("{}", JDict [])] [].

(** The model is unreachable. *)
Definition env_offline : env :=
  make_env (constant_llm (Raise (Exn "ConnectionError" "connection refused"))) [] [].

(** The model answers with 120 letters: long enough as a response, too
    short as a page. *)
Definition thin_page : string := replicate_char 120 "a"%char.
Definition env_thin : env := make_env (constant_llm (Ok thin_page)) [] [].

(** The model answers with three letters. *)
Definition env_short : env := make_env (constant_llm (Ok "abc")) [] [].

(** The model answers with 240 letters. *)
Definition full_page : string := replicate_char 240 "a"%char.
Definition env_full : env := make_env (constant_llm (Ok full_page)) [] [].

(** An input file with two letters and 48 blanks between them, and a
    model that cannot be reached. *)
Definition sparse_text : string :=
  String "a"%char (replicate_char 48 " "%char +:+ "b").
Definition env_sparse : env :=
  make_env (constant_llm (Raise (Exn "ConnectionError" "connection refused")))
    [] [("extract.txt", sparse_text)].

(** An input file with the single word [short]. *)
Definition env_short_input : env :=
  make_env (constant_llm (Ok "{}")) [("{}", JDict [])] [("extract.txt", "short")].

(** A plan of four games with the titles One, Two, Three and Four. *)
Definition game_titled (title : string) : dict := [("title", JStr title)].

Definition four_games : list dict :=
  [ game_titled "One"; game_titled "Two"; game_titled "Three"; game_titled "Four" ].

Definition four_game_analysis : dict :=
  [ ("content_analysis",
     JDict [ ("total_concepts", JInt 4);
             ("complexity_breakdown",
              JDict [("simple", JInt 4); ("medium", JInt 0); ("complex", JInt 0)]);
             ("estimated_learning_time", JStr "12 minutes");
             ("optimal_game_count", JInt 4);
             ("reasoning", JStr "one game per concept") ]);
    ("game_specifications", JList (List.map JDict four_games)) ].



(** Two validated games as the validator role hands them on: for the
    first the validation answer was not JSON, so its validation is the
    error object of [parse_json_response]; the second was rejected. *)
Definition unparsed_result : json :=
  JDict [ ("game_number", JInt 1);
          ("title", JStr "Shapes");
          ("validation",
           JDict [ ("error", JStr "Failed to parse JSON");
                   ("raw_response", JStr "Looks like a great game!") ]);
          ("game_data",
           JDict [ ("game_number", JInt 1);
                   ("title", JStr "Shapes");
                   ("html", JStr "<html><body>Shapes</body></html>");
                   ("spec", JDict [("title", JStr "Shapes")]) ]) ].

Definition rejected_result : json :=
  JDict [ ("game_number", JInt 2);
          ("title", JStr "Angles");
          ("validation",
           JDict [ ("validation_score", JInt 2); ("passes_validation", JBool false) ]);
          ("game_data",
           JDict [ ("game_number", JInt 2);
                   ("title", JStr "Angles");
                   ("html", JStr "<html><body>Angles</body></html>");
                   ("spec", JDict [("title", JStr "Angles")]) ]) ].

Definition env_results : env :=
  make_env (constant_llm (Ok "unused"))
    [("RESULTS", JList [unparsed_result; rejected_result])] [].

Definition is_sleep (ev : event) : bool :=
  match ev with Sleep _ => true | _ => false end.

Definition is_ask (ev : event) : bool :=
  match ev with Ask _ => true | _ => false end.

End Scenario.

(** The delays of a run, in order. *)
Definition sleeps (w : world) : list event := List.filter Scenario.is_sleep (trace w).

(* ===================================================================== *)
(** ** How attempts end *)
(* ===================================================================== *)

Module RetryFacts.

(** How one attempt of the analysis ends, read off the collaborators:
    the [n]-th call of the model, then [json.loads], then the validator. *)
Inductive outcome : Type := Succeeds | Invalid | Raises.

Definition analysis_outcome (e : env) (content : string) (n : nat) : outcome :=
  match llm e n (AnalysisPrompt content) with
  | Raise _ => Raises
  | Ok response =>
      match json_loads e (AnalyzerPure._clean_json_response response) with
      | Raise _ => Raises
      | Ok data => if AnalyzerPure._validate_analysis data then Succeeds else Invalid
      end
  end.

(** How one attempt of the robust generator ends. *)
Inductive gen_outcome : Type :=
| Good (html : string)      (* long enough before and after cleaning *)
| Thin (html : string)      (* cleaned text under 200 characters *)
| Short                     (* response empty or under 100 characters *)
| Fails.                    (* the call raised *)

Definition robust_outcome (e : env) (game_spec : dict) (n : nat) : gen_outcome :=
  match llm e n (RobustGamePrompt game_spec) with
  | Raise _ => Fails
  | Ok response =>
      if String.eqb response EmptyString
         || (String.length (PyStr.strip response) <? 100)
      then Short
      else
        let html := RobustCodeCleaner.clean_html_response response in
        if String.length html <? 200 then Thin html else Good html
  end.

(** The same for the adaptive variant's generator, which cleans with
    [FixedCodeCleaner]. *)
Definition enhanced_outcome (e : env) (p : prompt) (n : nat) : gen_outcome :=
  match llm e n p with
  | Raise _ => Fails
  | Ok response =>
      if String.eqb response EmptyString
         || (String.length (PyStr.strip response) <? 100)
      then Short
      else
        let html := FixedCodeCleaner.clean_html_response response in
        if String.length html <? 200 then Thin html else Good html
  end.

Definition is_good (o : gen_outcome) : bool :=
  match o with Good _ => true | _ => false end.

(** The delay that follows a failed attempt which is not the last. *)
Definition delay_after (raised : bool) : list event :=
  if raised then [Sleep 1] else [].

Definition raised (o : outcome) : bool :=
  match o with Raises => true | _ => false end.

Definition gen_raised (o : gen_outcome) : bool :=
  match o with Fails => true | _ => false end.

End RetryFacts.

(* ===================================================================== *)
(** ** How the games of a run end *)
(* ===================================================================== *)

Module Replay.

(** The games of a plan taken one after the other, outside any loop:
    game [i] is announced in the log and synthesised in the world its
    predecessors left; when it raises, the failure is logged.  The
    result lists every game with its number and with the entry it
    produced or the exception that ended it, and gives the world after
    the last game. *)
Fixpoint play (one_game : nat -> dict -> M dict) (total : json) (e : env)
         (i : nat) (specs : list dict) (w : world)
  : list (nat * result dict) * world :=
  match specs with
  | [] => ([], w)
  | game_spec :: specs' =>
      let w0 := emit (Log INFO "Generating {}/{}: {}"
                        [jnat i; total; Py.get game_spec "title" (JStr "Untitled")]) w in
      let (r, w1) := run (one_game i game_spec) e w0 in
      let w2 := match r with
                | Ok _ => w1
                | Raise x =>
                    emit (Log ERROR "Failed to generate game {}: {}"
                            [jnat i; JStr (exn_msg x)]) w1
                end in
      let (rest, w3) := play one_game total e (S i) specs' w2 in
      ((i, r) :: rest, w3)
  end.




End Replay.

(** A later world of the same run: the trace has only grown. *)
Definition extends (w w' : world) : Prop := exists evs, trace w' = trace w ++ evs.

(** A computation that never rewrites the trace. *)
Definition monotone {A} (m : M A) : Prop :=
  forall e w, extends w (snd (run m e w)).

(** A validation result without a verdict: the result item is a dict
    whose [validation] is a dict with no [passes_validation] key. *)
Definition lacks_verdict (result : json) : Prop :=
  exists item validation,
    result = JDict item
    /\ Py.get item "validation" (JDict []) = JDict validation
    /\ Py.lookup "passes_validation" validation = None.

(** The game of a result item was saved under [filename] with the text
    [html] and is listed among [games]. *)
Definition saved_and_listed (output_dir : string) (result : json)
           (games : list dict) (tr : list event) : Prop :=
  exists item game_data entry filename html,
    result = JDict item
    /\ Py.get item "game_data" (JDict []) = JDict game_data
    /\ Py.get game_data "html" (JStr EmptyString) = JStr html
    /\ In entry games
    /\ Py.lookup "filename" entry = Some (JStr filename)
    /\ Py.lookup "title" entry
       = Some (Py.get game_data "title"
                 (JStr ("Game " +:+ Fmt.str_json (Py.get game_data "game_number" (JInt 1)))))
    /\ In (Written (Fmt.path_join output_dir filename) (Text html)) tr.

(* ===================================================================== *)
(** ** What line formatting does to a text *)
(* ===================================================================== *)

Module Lines.

(** A text of blanks only. *)
Definition blank (s : string) : Prop := PyStr.all PyChar.isspace s = true.

Definition not_newline (c : ascii) : bool := negb (PyChar.eqb c PyChar.newline).

(** A text within one line. *)
Definition one_line (s : string) : Prop := PyStr.all not_newline s = true.

(** A text without any blank. *)
Definition solid (s : string) : Prop :=
  PyStr.all (fun c => negb (PyChar.isspace c)) s = true.

(** [squeezed x y]: [y] is [x] without some runs of blanks, each run
    standing right before a line end that is kept, or at the end of the
    text.  Characters that stand next to each other within a line of
    [y] stand next to each other in [x]. *)
Inductive squeezed : string -> string -> Prop :=
| squeezed_end ws : blank ws -> squeezed ws EmptyString
| squeezed_keep c x y : squeezed x y -> squeezed (String c x) (String c y)
| squeezed_drop ws x y :
    blank ws -> squeezed x y ->
    squeezed (ws +:+ String PyChar.newline x) (String PyChar.newline y).

(** The lines after the first, each with the line end before it. *)
Fixpoint tail_text (ls : list string) : string :=
  match ls with
  | [] => EmptyString
  | l :: ls' => String PyChar.newline (l +:+ tail_text ls')
  end.

(** The lines [_format_html] keeps, as it keeps them. *)
Definition kept (ls : list string) : list string :=
  List.map PyStr.rstrip
    (List.filter (fun line => negb (String.eqb (PyStr.strip line) EmptyString)) ls).

(** What every kept line is like: within one line, not blank, and
    without blanks at its end. *)
Definition tidy (l : string) : Prop :=
  one_line l /\ PyStr.rstrip l = l /\ String.eqb (PyStr.strip l) EmptyString = false.

(** A text that is empty or starts with a non-blank character. *)
Definition trimmed_left (s : string) : Prop :=
  match s with
  | EmptyString => True
  | String c _ => PyChar.isspace c = false
  end.

(** [c] occurs in [s]. *)
Fixpoint has (c : ascii) (s : string) : bool :=
  match s with
  | EmptyString => false
  | String x s' => PyChar.eqb x c || has c s'
  end.

(** [s] starts with [w], letter case aside (the comparison of
    IGNORECASE). *)
Fixpoint starts_ci (w s : string) : bool :=
  match w, s with
  | EmptyString, _ => true
  | String _ _, EmptyString => false
  | String a w', String x s' =>
      PyChar.eqb (PyChar.lower x) (PyChar.lower a) && starts_ci w' s'
  end.

(** An [<html ...>] tag starts here: the word, then a [>] somewhere. *)
Definition tag_here (s : string) : bool :=
  starts_ci "<html" s && has ">"%char (PyStr.drop 5 s).

(** The uppercase form of [s] starts with [w], character by character. *)
Fixpoint starts_upper (w s : string) : bool :=
  match w, s with
  | EmptyString, _ => true
  | String _ _, EmptyString => false
  | String d w', String c s' =>
      String.eqb (PyChar.upper c) (String d EmptyString) && starts_upper w' s'
  end.

End Lines.

(* ===================================================================== *)
(** ** fixed_code_cleaner.py: the script check *)
(* ===================================================================== *)

Module JsCheck.
Import PyRe.

(** [re.findall(r, s, flags)] for a pattern with one group: the group's
    text of every non-overlapping match, from the left.  [skip] counts
    the characters of the current match still to be passed. *)
Fixpoint findall_from (fl : flags) (r : regex) (prev : option ascii)
         (s : string) (skip : nat) : list string :=
  match skip with
  | S n =>
      match s with
      | EmptyString => []
      | String c s' => findall_from fl r (Some c) s' n
      end
  | O =>
      match match_here fl r prev s with
      | Some m =>
          default EmptyString (captured m) ::
          match s with
          | EmptyString => []
          | String c s' => findall_from fl r (Some c) s' (String.length (matched m) - 1)
          end
      | None =>
          match s with
          | EmptyString => []
          | String c s' => findall_from fl r (Some c) s' 0
          end
      end
  end.

Definition findall (fl : flags) (r : regex) (s : string) : list string :=
  findall_from fl r None s 0.

Definition not_gt (c : ascii) : bool := negb (PyChar.eqb c ">"%char).

(** [<script[^>]*>(.*?)</script>] with DOTALL *)
Definition script_block : regex :=
  lits "<script" (Cat (Star not_gt) (Cat (Lit ">"%char)
    (Cat (Group (Lazy any)) (lits "</script" (Lit ">"%char))))).

(** [abs(opened - closed) > 2] *)
Definition mismatched (opened closed : nat) : bool :=
  (2 <? Z.abs (Z.of_nat opened - Z.of_nat closed))%Z.

(** The body of the loop (lines 140-150) for the block at index [i]. *)
Definition block_issues (i : nat) (js_block : string) : list string :=
  (if mismatched (PyStr.count_at "{" js_block) (PyStr.count_at "}" js_block)
   then ["Script block " +:+ Fmt.str_nat (i + 1) +:+ ": Significantly mismatched braces"]
   else [])
  ++
  (if mismatched (PyStr.count_at "(" js_block) (PyStr.count_at ")" js_block)
   then ["Script block " +:+ Fmt.str_nat (i + 1) +:+ ": Significantly mismatched parentheses"]
   else []).

(** [for i, js_block in enumerate(js_blocks)] from index [i] on. *)
Fixpoint issues_from (i : nat) (js_blocks : list string) : list string :=
  match js_blocks with
  | [] => []
  | js_block :: js_blocks' => block_issues i js_block ++ issues_from (S i) js_blocks'
  end.

(** [validate_javascript_basics] (lines 130-156).  On a [str] argument no
    step of the [try] block raises, so the handler never runs. *)
Definition validate_javascript_basics (html : string) : list string :=
  let js_blocks := findall FixedCodeCleaner.I script_block html in
  issues_from 0 js_blocks.

(** A block the check lets pass. *)
Definition tolerated (js_block : string) : Prop :=
  (Z.abs (Z.of_nat (PyStr.count_at "{" js_block)
          - Z.of_nat (PyStr.count_at "}" js_block)) <= 2)%Z
  /\ (Z.abs (Z.of_nat (PyStr.count_at "(" js_block)
             - Z.of_nat (PyStr.count_at ")" js_block)) <= 2)%Z.

End JsCheck.

(* ===================================================================== *)
(** ** multi_agent_game_system.py: parse_html_response *)
(* ===================================================================== *)

Module MultiAgentHtml.
Import PyRe.

(** [```html\s*\n?(.*?)\n?```] with DOTALL *)
Definition html_block : regex :=
  fence (lits "html" (Cat ws (Cat opt_nl (Cat (Group (Lazy any))
    (Cat opt_nl (lits "``" (Lit "`"%char))))))).

(** [parse_html_response] (lines 41-53). *)
Definition parse_html_response (rsp : string) : string :=
  match search MultiAgent.I html_block rsp with
  | Some (_, m) => PyStr.strip (default EmptyString (captured m))
  | None =>
      if PyStr.startswith (PyStr.strip rsp) "<!DOCTYPE html>"
         || PyStr.startswith (PyStr.strip rsp) "<html"
      then PyStr.strip rsp
      else rsp
  end.

End MultiAgentHtml.

(* ===================================================================== *)
(** ** Notions used in the statements below *)
(* ===================================================================== *)

Definition nonspace (c : ascii) : bool := negb (PyChar.isspace c).

(** The non-blank characters of all lines, one line after the other. *)
Fixpoint solid_text (ls : list string) : string :=
  match ls with
  | [] => EmptyString
  | l :: ls' => PyStr.filter nonspace l +:+ solid_text ls'
  end.

(** What a run does to the files. *)
Definition is_file_event (ev : event) : bool :=
  match ev with
  | Mkdir _ | Written _ _ => true
  | _ => false
  end.

Definition file_events (w : world) : list event := List.filter is_file_event (trace w).

(** Between [w] and [w'] no directory was made and no file was opened. *)
Definition same_files (w w' : world) : Prop :=
  fs w' = fs w /\ opens w' = opens w /\ file_events w' = file_events w.

(** A computation that leaves the files alone. *)
Definition hands_off {A} (m : M A) : Prop :=
  forall e w, same_files w (snd (run m e w)).

(** The delays of the first [k] attempts of an analysis whose first call
    is call number [n]. *)
Definition delays_before (e : env) (content : string) (n k : nat) : list event :=
  flat_map
    (fun j => RetryFacts.delay_after
                (RetryFacts.raised (RetryFacts.analysis_outcome e content (n + j))))
    (seq 0 k).

(* ===================================================================== *)
(** ** Further scenarios *)
(* ===================================================================== *)

Module Cases.

(** A model whose first answer is [{}] and which answers with the plan
    of four games from then on. *)
Definition plan_on_second (n : nat) (p : prompt) : result string :=
  if n =? 0 then Ok "{}" else Ok "PLAN".

Definition env_second_plan : env :=
  Scenario.make_env plan_on_second
    [("{}", JDict []); ("PLAN", JDict Scenario.four_game_analysis)] [].

(** A model whose first answer has three letters and which answers with
    240 letters from then on. *)
Definition full_on_second (n : nat) (p : prompt) : result string :=
  if n =? 0 then Ok "abc" else Ok Scenario.full_page.

Definition env_second_full : env := Scenario.make_env full_on_second [] [].

(** An input file of 60 letters and a model that answers [{}] every
    time. *)
Definition env_rejected_plan : env :=
  Scenario.make_env (Scenario.constant_llm (Ok "{}")) [("{}", JDict [])]
    [("extract.txt", Scenario.replicate_char 60 "x"%char)].

(** A plan of the four games that passes the validator and gives no
    learning time, an input file of 60 letters, and a model that
    answers with that plan. *)
Definition plan_without_time : dict :=
  [ ("content_analysis", JDict [("optimal_game_count", JInt 4)]);
    ("game_specifications", JList (List.map JDict Scenario.four_games)) ].

Definition env_plan_without_time : env :=
  Scenario.make_env (Scenario.constant_llm (Ok "PLAN"))
    [("PLAN", JDict plan_without_time)]
    [("extract.txt", Scenario.replicate_char 60 "x"%char)].

(** A plan file that parses to an object without [mini_games]. *)
Definition env_no_games : env :=
  Scenario.make_env (Scenario.constant_llm (Ok "unused"))
    [("GAMES", JDict [("title", JStr "Plan")])] [("games.json", "GAMES")].

(** Two result lists: both results of [Scenario.env_results], and the
    first of them alone. *)
Definition env_two_lists : env :=
  Scenario.make_env (Scenario.constant_llm (Ok "unused"))
    [ ("RESULTS", JList [Scenario.unparsed_result; Scenario.rejected_result]);
      ("KEPT", JList [Scenario.unparsed_result]) ] [].

(** A plan file whose second item is a string, and a model that answers
    with 240 letters. *)
Definition env_bad_item : env :=
  Scenario.make_env (Scenario.constant_llm (Ok Scenario.full_page))
    [("GAMES", JDict [("mini_games",
                       JList [JDict [("title", JStr "One")]; JStr "Two";
                              JDict [("title", JStr "Three")]])])]
    [("games.json", "GAMES")].




End Cases.

(** The delays of the first [k] attempts of a generator whose attempts
    end as [o] says, the first call being call number [n]. *)
Definition gen_delays_before (o : nat -> RetryFacts.gen_outcome) (n k : nat) : list event :=
  flat_map (fun j => RetryFacts.delay_after (RetryFacts.gen_raised (o (n + j)))) (seq 0 k).

(** The world in which [generate_adaptive_games] starts the analysis. *)
Definition at_analysis (w : world) : world :=
  emit (Log INFO "Stage 2: Analyzing content complexity" [])
    (emit (Log INFO "Stage 1: Loading content" [])
       (emit (Log INFO "Starting adaptive game generation" []) w)).

(** A result item that [_save_games] passes over: its validation is a
    dict whose [passes_validation] is there and false in a condition. *)
Definition is_rejected (result : json) : bool :=
  match result with
  | JDict item =>
      match Py.get item "validation" (JDict []) with
      | JDict validation =>
          negb (Py.truthy (Py.get validation "passes_validation" (JBool true)))
      | _ => false
      end
  | _ => false
  end.

Definition is_dict (x : json) : bool :=
  match x with JDict _ => true | _ => false end.


(** The number a text of decimal digits stands for. *)
Definition number_of (s : string) : option nat :=
  option_map Nat.of_uint (NilEmpty.uint_of_string s).

Definition isdigit (c : ascii) : bool := PyChar.between 48 57 (PyChar.code c).
(* ===================================================================== *)
(** * Properties *)
(* ===================================================================== *)

(** ** The analysis validator *)

Section ValidatorFacts.
Import AnalyzerPure.

Lemma section_lookup (d : dict) (key : string) (v : json) :
  section (JDict d) key v <-> Py.lookup key d = Some v.
Proof.
  split.
  - intros (d' & Heq & Hl). now inversion Heq; subst.
  - intros Hl. now exists d.
Qed.

Lemma int_ne_false_denotes (n : Z) (x : json) :
  Py.int_ne n x = false <-> denotes x n.
Proof.
  split.
  - destruct x as [ | b | v | [ | neg | m e] | | | ]; simpl; try discriminate.
    + intros H. apply negb_false_iff, Z.eqb_eq in H. subst. constructor.
    + intros H. apply negb_false_iff, Z.eqb_eq in H. subst. constructor.
    + unfold Py.int_eq_fin. intros H. apply negb_false_iff in H.
      destruct (Z.leb_spec 0 e); apply Z.eqb_eq in H.
      * now apply denotes_float_pos.
      * now apply denotes_float_neg.
  - intros H. destruct H; simpl; unfold Py.int_eq_fin.
    + now rewrite Z.eqb_refl.
    + now rewrite Z.eqb_refl.
    + apply negb_false_iff. destruct (Z.leb_spec 0 e); [ | lia ]. now apply Z.eqb_eq.
    + apply negb_false_iff. destruct (Z.leb_spec 0 e); [ lia | ]. now apply Z.eqb_eq.
Qed.

(** On a value that denotes [n], the two comparisons of the range test
    are the comparisons of [n]. *)
Lemma range_of_denotes (x : json) (n : Z) :
  denotes x n ->
  Py.int_le 3 x = Ok (3 <=? n)%Z /\ Py.le_int x 15 = Ok (n <=? 15)%Z.
Proof.
  intros H. destruct H; simpl; try (split; reflexivity).
  - subst. unfold Py.int_le_fin, Py.fin_le_int.
    destruct (Z.leb_spec 0 e); [ | lia ]. split; reflexivity.
  - subst. unfold Py.int_le_fin, Py.fin_le_int.
    destruct (Z.leb_spec 0 e); [ lia | ].
    assert (Hp : (0 < 2 ^ (- e))%Z) by (apply Z.pow_pos_nonneg; lia).
    split; f_equal; apply eq_iff_eq_true; rewrite !Z.leb_le; nia.
Qed.

Lemma len_has_length (x : json) (n : Z) :
  Py.len x = Ok n <-> has_length x n.
Proof.
  split.
  - destruct x; simpl; try discriminate; intros [= <-]; constructor.
  - intros []; reflexivity.
Qed.

End ValidatorFacts.

Section ValidatorTheorem.
Import AnalyzerPure.

Lemma validate_dict_unfold (d : dict) :
  _validate_analysis (JDict d) = true ->
  exists analysis games declared n,
    Py.lookup "content_analysis" d = Some analysis /\
    Py.lookup "game_specifications" d = Some games /\
    Py.contains "optimal_game_count" analysis = Ok true /\
    Py.getitem analysis "optimal_game_count" = Ok declared /\
    Py.int_le 3 declared = Ok true /\
    Py.le_int declared 15 = Ok true /\
    Py.len games = Ok n /\
    Py.int_ne n declared = false.
Proof.
  unfold _validate_analysis, validate_try. simpl.
  destruct (Py.lookup "content_analysis" d) as [analysis | ] eqn:Ha; simpl;
    [ | discriminate ].
  destruct (Py.lookup "game_specifications" d) as [games | ] eqn:Hg; simpl;
    [ | discriminate ].
  destruct (Py.contains "optimal_game_count" analysis) as [[] | ] eqn:Hc; simpl;
    try discriminate.
  destruct (Py.getitem analysis "optimal_game_count") as [declared | ] eqn:Hd; simpl;
    try discriminate.
  destruct (Py.int_le 3 declared) as [[] | ] eqn:Hlo; simpl; try discriminate.
  destruct (Py.le_int declared 15) as [[] | ] eqn:Hhi; simpl; try discriminate.
  destruct (Py.len games) as [n | ] eqn:Hn; simpl; try discriminate.
  destruct (Py.int_ne n declared) eqn:Hne; simpl; try discriminate.
  intros _. exists analysis, games, declared, n. tauto.
Qed.

(** C2.  The validator accepts a structured result exactly when the result
    has a content-analysis section and a game-specification sequence, the
    content-analysis section declares a game count, the count lies
    between 3 and 15, and the game-specification sequence has as many
    items as the count says; every other result is rejected. *)
Theorem validate_analysis_iff_spec (data : json) :
  _validate_analysis data = true <-> spec_accepts data.
Proof.
  split.
  - destruct data as [ | b | v | f | s | l | d ];
      try (unfold _validate_analysis, validate_try; simpl; discriminate).
    + (* a str: the subscript raises *)
      unfold _validate_analysis, validate_try. simpl.
      destruct (PyStr.contains _ s); simpl; [ | discriminate ].
      destruct (PyStr.contains _ s); simpl; discriminate.
    + (* a list: the subscript raises *)
      unfold _validate_analysis, validate_try. simpl.
      destruct (existsb _ l); simpl; [ | discriminate ].
      destruct (existsb _ l); simpl; discriminate.
    + intros H. apply validate_dict_unfold in H
        as (analysis & games & declared & n & Ha & Hg & Hc & Hd & Hlo & Hhi & Hn & Hne).
      assert (Hsec : section analysis "optimal_game_count" declared).
      { destruct analysis; simpl in Hd; try discriminate.
        destruct (Py.lookup _ _) eqn:Hl in Hd; [ | discriminate ].
        injection Hd as <-. now apply section_lookup. }
      apply int_ne_false_denotes in Hne.
      destruct (range_of_denotes _ _ Hne) as [Hlo' Hhi'].
      rewrite Hlo' in Hlo. rewrite Hhi' in Hhi.
      injection Hlo as Hlo. injection Hhi as Hhi.
      apply Z.leb_le in Hlo, Hhi.
      exists analysis, games, declared, n.
      repeat split; try (now apply section_lookup); try assumption.
      now apply len_has_length.
  - intros (analysis & games & declared & n & Ha & Hg & Hd & Hden & Hrange & Hlen).
    destruct Ha as (d & -> & Ha). apply section_lookup in Hg.
    destruct Hd as (d' & -> & Hd).
    destruct (range_of_denotes _ _ Hden) as [Hlo Hhi].
    apply len_has_length in Hlen. apply int_ne_false_denotes in Hden.
    unfold _validate_analysis, validate_try. simpl.
    rewrite Ha, Hg. simpl.
    rewrite Hd. simpl.
    rewrite Hlo. simpl.
    replace (3 <=? n)%Z with true by (symmetry; apply Z.leb_le; lia). simpl.
    rewrite Hhi. simpl.
    replace (n <=? 15)%Z with true by (symmetry; apply Z.leb_le; lia). simpl.
    rewrite Hlen. simpl. now rewrite Hden.
Qed.

End ValidatorTheorem.

(** ** Running computations *)

Section RunFacts.
Context (e : env).

Lemma run_ret {A} (a : A) (w : world) : run (mret a) e w = (Ok a, w).
Proof. reflexivity. Qed.

Lemma run_bind {A B} (m : M A) (f : A -> M B) (w : world) :
  run (m ≫= f) e w =
  match run m e w with
  | (Ok a, w') => run (f a) e w'
  | (Raise x, w') => (Raise x, w')
  end.
Proof. reflexivity. Qed.

Lemma run_bind_ok {A B} (m : M A) (f : A -> M B) (w w' : world) (a : A) :
  run m e w = (Ok a, w') -> run (m ≫= f) e w = run (f a) e w'.
Proof. intros H. now rewrite run_bind, H. Qed.

Lemma run_bind_raise {A B} (m : M A) (f : A -> M B) (w w' : world) (x : exn) :
  run m e w = (Raise x, w') -> run (m ≫= f) e w = (Raise x, w').
Proof. intros H. now rewrite run_bind, H. Qed.

Lemma run_try {A} (body : M A) (handler : exn -> M A) (w : world) :
  run (try_except body handler) e w =
  match run body e w with
  | (Ok a, w') => (Ok a, w')
  | (Raise x, w') => run (handler x) e w'
  end.
Proof. reflexivity. Qed.

Lemma run_raise {A} (x : exn) (w : world) : run (raise x : M A) e w = (Raise x, w).
Proof. reflexivity. Qed.

Lemma run_lift {A} (r : result A) (w : world) : run (lift r) e w = (r, w).
Proof. reflexivity. Qed.

Lemma run_log (lv : level) (msg : string) (args : list json) (w : world) :
  run (log lv msg args) e w = (Ok tt, emit (Log lv msg args) w).
Proof. reflexivity. Qed.

Lemma run_sleep (n : nat) (w : world) :
  run (sleep n) e w = (Ok tt, emit (Sleep n) w).
Proof. reflexivity. Qed.

Lemma run_aask (p : prompt) (w : world) :
  run (aask p) e w =
  (llm e (asks w) p,
   {| asks := S (asks w); opens := opens w; trace := trace w ++ [Ask p]; fs := fs w |}).
Proof. reflexivity. Qed.

Lemma run_loads (s : string) (w : world) : run (loads s) e w = (json_loads e s, w).
Proof. reflexivity. Qed.

End RunFacts.

Lemma sleeps_emit_log (lv : level) (msg : string) (args : list json) (w : world) :
  sleeps (emit (Log lv msg args) w) = sleeps w.
Proof.
  unfold sleeps, emit. simpl. rewrite List.filter_app. simpl. apply app_nil_r.
Qed.

Lemma sleeps_emit_sleep (n : nat) (w : world) :
  sleeps (emit (Sleep n) w) = sleeps w ++ [Sleep n].
Proof.
  unfold sleeps, emit. simpl. now rewrite List.filter_app.
Qed.

Lemma sleeps_ask (p : prompt) (w : world) :
  sleeps {| asks := S (asks w); opens := opens w; trace := trace w ++ [Ask p]; fs := fs w |}
  = sleeps w.
Proof.
  unfold sleeps. simpl. rewrite List.filter_app. simpl. apply app_nil_r.
Qed.

Lemma for_attempts_cons {A} (body : nat -> M (step A)) (k : nat) (ks : list nat)
      (after : M A) :
  for_attempts body (k :: ks) after =
  body k ≫= (fun r => match r with
                       | Return a => mret a
                       | Continue => for_attempts body ks after
                       end).
Proof. reflexivity. Qed.

Lemma attempts_three : seq 0 max_retries = [0; 1; 2].
Proof. reflexivity. Qed.

Lemma run_write_file (e : env) (path : string) (doc : document) (w : world) :
  run (write_file path doc) e w =
  if open_ok e (opens w) path then
    (Ok tt, {| asks := asks w; opens := S (opens w);
               trace := trace w ++ [Written path doc];
               fs := <[path := doc]> (fs w) |})
  else
    (Raise (OSError path),
     {| asks := asks w; opens := S (opens w); trace := trace w; fs := fs w |}).
Proof. reflexivity. Qed.

Lemma run_mkdir (e : env) (path : string) (w : world) :
  run (mkdir path) e w =
  if mkdir_ok e path then (Ok tt, emit (Mkdir path) w) else (Raise (OSError path), w).
Proof. reflexivity. Qed.

Lemma run_read_file (e : env) (path : string) (w : world) :
  run (read_file path) e w = (read_text e path, w).
Proof. reflexivity. Qed.



(** ** Traces only grow *)

Lemma extends_refl (w : world) : extends w w.
Proof. exists []. now rewrite app_nil_r. Qed.

Lemma extends_trans (w1 w2 w3 : world) : extends w1 w2 -> extends w2 w3 -> extends w1 w3.
Proof.
  intros [evs1 H1] [evs2 H2]. exists (evs1 ++ evs2). now rewrite H2, H1, app_assoc.
Qed.

Lemma extends_emit (ev : event) (w : world) : extends w (emit ev w).
Proof. now exists [ev]. Qed.

Lemma extends_In (w w' : world) (ev : event) :
  extends w w' -> In ev (trace w) -> In ev (trace w').
Proof. intros [evs ->] H. apply in_or_app. now left. Qed.

Lemma monotone_ret {A} (a : A) : monotone (mret a).
Proof. intros e w. apply extends_refl. Qed.

Lemma monotone_raise {A} (x : exn) : monotone (raise x : M A).
Proof. intros e w. apply extends_refl. Qed.

Lemma monotone_lift {A} (r : result A) : monotone (lift r).
Proof. intros e w. apply extends_refl. Qed.

Lemma monotone_log (lv : level) (msg : string) (args : list json) :
  monotone (log lv msg args).
Proof. intros e w. apply extends_emit. Qed.

Lemma monotone_sleep (n : nat) : monotone (sleep n).
Proof. intros e w. apply extends_emit. Qed.

Lemma monotone_aask (p : prompt) : monotone (aask p).
Proof. intros e w. now exists [Ask p]. Qed.

Lemma monotone_loads (s : string) : monotone (loads s).
Proof. intros e w. apply extends_refl. Qed.

Lemma monotone_to_int (s : string) : monotone (to_int s).
Proof. intros e w. apply extends_refl. Qed.

Lemma monotone_read_file (path : string) : monotone (read_file path).
Proof. intros e w. apply extends_refl. Qed.

Lemma monotone_mkdir (path : string) : monotone (mkdir path).
Proof.
  intros e w. rewrite run_mkdir.
  destruct (mkdir_ok e path); [ apply extends_emit | apply extends_refl ].
Qed.

Lemma monotone_write_file (path : string) (doc : document) :
  monotone (write_file path doc).
Proof.
  intros e w. rewrite run_write_file.
  destruct (open_ok e (opens w) path); simpl.
  - now exists [Written path doc].
  - exists []. simpl. now rewrite app_nil_r.
Qed.

Lemma monotone_bind {A B} (m : M A) (f : A -> M B) :
  monotone m -> (forall a, monotone (f a)) -> monotone (m ≫= f).
Proof.
  intros Hm Hf e w. rewrite run_bind. specialize (Hm e w).
  destruct (run m e w) as [[a | x] w1]; simpl in *; [ | assumption ].
  eapply extends_trans; [ eassumption | apply Hf ].
Qed.

Lemma monotone_try {A} (body : M A) (handler : exn -> M A) :
  monotone body -> (forall x, monotone (handler x)) -> monotone (try_except body handler).
Proof.
  intros Hm Hf e w. rewrite run_try. specialize (Hm e w).
  destruct (run body e w) as [[a | x] w1]; simpl in *; [ assumption | ].
  eapply extends_trans; [ eassumption | apply Hf ].
Qed.

Lemma monotone_for_attempts {A} (body : nat -> M (step A)) (ks : list nat) (after : M A) :
  (forall k, monotone (body k)) -> monotone after -> monotone (for_attempts body ks after).
Proof.
  intros Hb Ha. induction ks as [ | k ks IH]; [ exact Ha | ].
  rewrite for_attempts_cons. apply monotone_bind; [ apply Hb | ].
  intros [a | ]; [ apply monotone_ret | exact IH ].
Qed.

Lemma monotone_write_json (path : string) (data : json) : monotone (write_json path data).
Proof.
  destruct data; simpl;
    try (apply monotone_bind; [ apply monotone_write_file | intros; apply monotone_raise ]).
  apply monotone_write_file.
Qed.

Create HintDb monotone.
#[export] Hint Resolve monotone_ret monotone_raise monotone_lift monotone_log
  monotone_sleep monotone_aask monotone_loads monotone_to_int monotone_read_file
  monotone_mkdir monotone_write_file monotone_write_json : monotone.

(** Walks through a computation built from the steps above. *)
Ltac monotone_steps :=
  repeat first
    [ progress auto with monotone
    | apply monotone_bind; [ | intros ]
    | apply monotone_try; [ | intros ]
    | apply monotone_for_attempts; [ intros | ]
    | match goal with
      | |- monotone (if ?b then _ else _) => destruct b
      | |- monotone (match ?x with _ => _ end) => destruct x
      end ].

(** One step of a computation that starts with a pure Python operation:
    the operation either raised, which the goal rules out, or gave a
    value. *)
Ltac lift_step :=
  rewrite run_bind, run_lift; cbv beta iota;
  try lazymatch goal with
      | |- context [ match ?r with Ok _ => _ | Raise _ => _ end ] =>
          lazymatch r with
          | Ok _ => idtac
          | _ => destruct r; [ | discriminate ]
          end
      end.

(** ** The sanitizer on a bare body *)

(** C5.  On the input [<body><h1>Hi</h1></body>] the sanitizer returns the
    input between a document-type line with an opening [<html ...>] tag
    and a closing [</html>] tag: the output starts with the document-type
    declaration, [<html] and [</html>] each occur once in it, and the
    body text stands unchanged between them.  The robust variant's
    cleaner does the same with its larger shell. *)
Theorem clean_html_wraps_bare_body :
  let input := "<body><h1>Hi</h1></body>" in
  let nl := FixedCodeCleaner.nl in
  let dq := FixedCodeCleaner.dq in
  let out := FixedCodeCleaner.clean_html_response input in
  let out' := RobustCodeCleaner.clean_html_response input in
  out = "<!DOCTYPE html>" +:+ nl +:+ "<html lang=" +:+ dq +:+ "en" +:+ dq +:+ ">" +:+ nl
        +:+ input +:+ nl +:+ "</html>"
  /\ PyStr.startswith out "<!DOCTYPE html>" = true
  /\ PyStr.count_at "<html" out = 1
  /\ PyStr.count_at "</html>" out = 1
  /\ out' = RobustCodeCleaner.shell input
  /\ PyStr.startswith out' "<!DOCTYPE html>" = true
  /\ PyStr.count_at "<html" out' = 1
  /\ PyStr.count_at "</html>" out' = 1
  /\ PyStr.count_at input out' = 1.
Proof.
  vm_compute. repeat split; reflexivity.
Qed.

(** ** Trimming and line formatting *)

Section StringFacts.

Lemma newline_is_space : PyChar.isspace PyChar.newline = true.
Proof. reflexivity. Qed.

Lemma eqb_newline_space (c : ascii) :
  PyChar.eqb c PyChar.newline = true -> PyChar.isspace c = true.
Proof. intros H. apply Ascii.eqb_eq in H. now subst. Qed.

Lemma lstrip_head (s : string) (c : ascii) (t : string) :
  PyStr.lstrip s = String c t -> PyChar.isspace c = false.
Proof.
  induction s as [ | a s IH]; simpl; [ discriminate | ].
  destruct (PyChar.isspace a) eqn:Ha; [ exact IH | ].
  intros [= <- <-]. exact Ha.
Qed.

Lemma rstrip_head (s : string) (c : ascii) (t : string) :
  PyStr.rstrip s = String c t -> exists t', s = String c t'.
Proof.
  destruct s as [ | a s]; simpl; [ discriminate | ].
  destruct (PyStr.rstrip s).
  - destruct (PyChar.isspace a); [ discriminate | ]. intros [= <- <-]. eauto.
  - intros [= <- <-]. eauto.
Qed.

Lemma strip_head (s : string) (c : ascii) (t : string) :
  PyStr.strip s = String c t -> PyChar.isspace c = false.
Proof.
  unfold PyStr.strip. intros H.
  destruct (rstrip_head _ _ _ H) as (t' & Hl). eapply lstrip_head. exact Hl.
Qed.

(** A text that starts with a non-blank character keeps it through
    [rstrip]. *)
Lemma rstrip_cons_nonspace (c : ascii) (t : string) :
  PyChar.isspace c = false -> exists r, PyStr.rstrip (String c t) = String c r.
Proof.
  intros Hc. simpl. destruct (PyStr.rstrip t); [ rewrite Hc | ]; eauto.
Qed.

Lemma strip_cons_nonspace (c : ascii) (t : string) :
  PyChar.isspace c = false -> exists r, PyStr.strip (String c t) = String c r.
Proof.
  intros Hc. unfold PyStr.strip. simpl PyStr.lstrip. rewrite Hc.
  now apply rstrip_cons_nonspace.
Qed.

Lemma split_lines_cons_nonspace (c : ascii) (t : string) :
  PyChar.isspace c = false ->
  exists l ls, PyStr.split_lines (String c t) = String c l :: ls.
Proof.
  intros Hc. simpl.
  destruct (PyChar.eqb c PyChar.newline) eqn:Hnl.
  - apply eqb_newline_space in Hnl. congruence.
  - destruct (PyStr.split_lines t); eauto.
Qed.

Lemma join_lines_cons_head (c : ascii) (r : string) (ls : list string) :
  exists t, PyStr.join_lines (String c r :: ls) = String c t.
Proof. destruct ls; simpl; eauto. Qed.

(** Formatting keeps the first character of a text that starts with a
    non-blank one. *)
Lemma format_html_head (c : ascii) (t : string) :
  PyChar.isspace c = false ->
  exists t', FixedCodeCleaner._format_html (String c t) = String c t'.
Proof.
  intros Hc. unfold FixedCodeCleaner._format_html.
  destruct (split_lines_cons_nonspace c t Hc) as (l & ls & ->).
  cbn [List.filter].
  destruct (strip_cons_nonspace c l Hc) as (r & ->). cbn [String.eqb negb List.map].
  destruct (rstrip_cons_nonspace c l Hc) as (r' & ->).
  apply join_lines_cons_head.
Qed.

End StringFacts.

(** ** Line formatting only removes blanks before line ends *)

Section FormatFacts.
Import Lines.

Lemma append_cons (x : ascii) (a b : string) : String x a +:+ b = String x (a +:+ b).
Proof. reflexivity. Qed.

Lemma append_nil_l (b : string) : EmptyString +:+ b = b.
Proof. reflexivity. Qed.

Lemma append_assoc (a b c : string) : (a +:+ b) +:+ c = a +:+ (b +:+ c).
Proof.
  induction a as [ | x a IH]; [ reflexivity | ].
  now rewrite !append_cons, IH.
Qed.

Lemma append_nil_r (a : string) : a +:+ EmptyString = a.
Proof.
  induction a as [ | x a IH]; [ reflexivity | ]. now rewrite append_cons, IH.
Qed.

Lemma all_app (p : ascii -> bool) (a b : string) :
  PyStr.all p (a +:+ b) = PyStr.all p a && PyStr.all p b.
Proof.
  induction a as [ | x a IH]; [ reflexivity | ].
  rewrite append_cons. simpl. now rewrite IH, andb_assoc.
Qed.

Lemma blank_app (a b : string) : blank a -> blank b -> blank (a +:+ b).
Proof. unfold blank. intros Ha Hb. now rewrite all_app, Ha, Hb. Qed.

Lemma blank_cons (c : ascii) (s : string) :
  PyChar.isspace c = true -> blank s -> blank (String c s).
Proof. unfold blank. simpl. now intros -> ->. Qed.

(** ** [rstrip], [lstrip], [strip] *)

Lemma rstrip_blank (s : string) : blank s -> PyStr.rstrip s = EmptyString.
Proof.
  unfold blank. induction s as [ | c s IH]; simpl; [ reflexivity | ].
  intros H. apply andb_prop in H as [Hc Hs]. now rewrite (IH Hs), Hc.
Qed.

Lemma rstrip_empty_blank (s : string) : PyStr.rstrip s = EmptyString -> blank s.
Proof.
  unfold blank. induction s as [ | c s IH]; simpl; [ reflexivity | ].
  destruct (PyStr.rstrip s); [ | discriminate ].
  destruct (PyChar.isspace c); [ | discriminate ]. intros _. now rewrite IH.
Qed.

Lemma lstrip_blank (s : string) : blank s -> PyStr.lstrip s = EmptyString.
Proof.
  unfold blank. induction s as [ | c s IH]; simpl; [ reflexivity | ].
  intros H. apply andb_prop in H as [Hc Hs]. now rewrite Hc, (IH Hs).
Qed.

Lemma lstrip_empty_blank (s : string) : PyStr.lstrip s = EmptyString -> blank s.
Proof.
  unfold blank. induction s as [ | c s IH]; simpl; [ reflexivity | ].
  destruct (PyChar.isspace c); [ | discriminate ]. intros H. now rewrite IH.
Qed.

Lemma lstrip_suffix (s : string) :
  exists ws, blank ws /\ s = ws +:+ PyStr.lstrip s.
Proof.
  induction s as [ | c s (ws & Hws & IH)]; simpl.
  - exists EmptyString. now split.
  - destruct (PyChar.isspace c) eqn:Hc.
    + exists (String c ws). split; [ now apply blank_cons | ].
      now rewrite append_cons, <- IH.
    + exists EmptyString. now split.
Qed.

(** A text is what [rstrip] leaves of it, then blanks. *)
Lemma rstrip_prefix (s : string) :
  exists ws, blank ws /\ s = PyStr.rstrip s +:+ ws.
Proof.
  induction s as [ | c s (ws & Hws & IH)]; simpl.
  - exists EmptyString. now split.
  - destruct (PyStr.rstrip s) as [ | c' r] eqn:Hr.
    + destruct (PyChar.isspace c) eqn:Hc.
      * exists (String c s). split; [ | reflexivity ].
        apply blank_cons; [ assumption | now apply rstrip_empty_blank ].
      * exists ws. split; [ assumption | ].
        rewrite append_cons. f_equal. exact IH.
    + exists ws. split; [ assumption | ]. rewrite append_cons. f_equal. exact IH.
Qed.

Lemma strip_empty_iff_blank (s : string) : PyStr.strip s = EmptyString <-> blank s.
Proof.
  unfold PyStr.strip. split.
  - intros H. apply rstrip_empty_blank in H.
    destruct (lstrip_suffix s) as (ws & Hws & Heq). rewrite Heq. now apply blank_app.
  - intros H. now rewrite (lstrip_blank s H).
Qed.

Lemma rstrip_app_fixed (a b : string) :
  PyStr.rstrip b = b -> b <> EmptyString -> PyStr.rstrip (a +:+ b) = a +:+ b.
Proof.
  intros Hb Hne. induction a as [ | c a IH]; [ assumption | ].
  rewrite append_cons. simpl. rewrite IH.
  destruct (a +:+ b) eqn:Hab; [ | reflexivity ].
  destruct a; [ rewrite append_nil_l in Hab; congruence | discriminate ].
Qed.

Lemma rstrip_idempotent (s : string) : PyStr.rstrip (PyStr.rstrip s) = PyStr.rstrip s.
Proof.
  induction s as [ | c s IH]; simpl; [ reflexivity | ].
  destruct (PyStr.rstrip s) as [ | c' r] eqn:Hr.
  - destruct (PyChar.isspace c) eqn:Hc; simpl; [ reflexivity | now rewrite Hc ].
  - change (PyStr.rstrip (String c (String c' r)) = String c (String c' r)).
    cbn [PyStr.rstrip] in *. now rewrite IH.
Qed.

(** ** Lines *)

Lemma join_tail (l : string) (ls : list string) :
  PyStr.join_lines (l :: ls) = l +:+ tail_text ls.
Proof.
  revert l. induction ls as [ | l' ls IH]; intros l.
  - simpl. now rewrite append_nil_r.
  - change (PyStr.join_lines (l :: l' :: ls))
      with (l +:+ String PyChar.newline (PyStr.join_lines (l' :: ls))).
    now rewrite IH.
Qed.

Lemma split_lines_nonempty (s : string) : PyStr.split_lines s <> [].
Proof.
  destruct s as [ | c s]; simpl; [ discriminate | ].
  destruct (PyChar.eqb c PyChar.newline); [ discriminate | ].
  destruct (PyStr.split_lines s); discriminate.
Qed.

Lemma join_split (s : string) : PyStr.join_lines (PyStr.split_lines s) = s.
Proof.
  induction s as [ | c s IH]; [ reflexivity | ].
  simpl. destruct (PyChar.eqb c PyChar.newline) eqn:Hc.
  - apply Ascii.eqb_eq in Hc. subst c.
    destruct (PyStr.split_lines s) as [ | l ls] eqn:Hs;
      [ now apply split_lines_nonempty in Hs | ].
    change (PyStr.join_lines (EmptyString :: l :: ls))
      with (String PyChar.newline (PyStr.join_lines (l :: ls))).
    now rewrite IH.
  - destruct (PyStr.split_lines s) as [ | l ls] eqn:Hs;
      [ now apply split_lines_nonempty in Hs | ].
    rewrite join_tail, append_cons, <- join_tail. now rewrite IH.
Qed.

(** ** The relation [squeezed] *)

Lemma squeezed_refl (x : string) : squeezed x x.
Proof.
  induction x as [ | c x IH]; [ now apply squeezed_end | now apply squeezed_keep ].
Qed.

Lemma squeezed_app_keep (p x y : string) :
  squeezed x y -> squeezed (p +:+ x) (p +:+ y).
Proof.
  intros H. induction p as [ | c p IH]; [ exact H | ].
  rewrite !append_cons. now apply squeezed_keep.
Qed.

(** What follows a kept line: pending blanks, then the remaining lines;
    formatting leaves the kept ones. *)
Lemma tail_squeezed (ls : list string) (ws : string) :
  blank ws -> squeezed (ws +:+ tail_text ls) (tail_text (kept ls)).
Proof.
  revert ws. induction ls as [ | l ls IH]; intros ws Hws.
  - simpl. rewrite append_nil_r. now apply squeezed_end.
  - unfold kept. cbn [List.filter tail_text].
    destruct (String.eqb (PyStr.strip l) EmptyString) eqn:Hl; cbn [negb List.map].
    + (* a blank line goes, with its line end *)
      apply String.eqb_eq, strip_empty_iff_blank in Hl.
      replace (ws +:+ String PyChar.newline (l +:+ tail_text ls))
        with ((ws +:+ String PyChar.newline l) +:+ tail_text ls)
        by now rewrite append_assoc, append_cons.
      apply IH. apply blank_app; [ assumption | now apply blank_cons ].
    + (* a kept line loses its trailing blanks *)
      cbn [tail_text]. apply squeezed_drop; [ assumption | ].
      destruct (rstrip_prefix l) as (tws & Htws & Heq).
      rewrite Heq at 1. rewrite append_assoc.
      apply squeezed_app_keep. now apply IH.
Qed.

(** Formatting a text that starts with a non-blank character squeezes it. *)
Lemma format_html_squeezed (c : ascii) (t : string) :
  PyChar.isspace c = false ->
  squeezed (String c t) (FixedCodeCleaner._format_html (String c t)).
Proof.
  intros Hc. unfold FixedCodeCleaner._format_html.
  rewrite <- (join_split (String c t)) at 1.
  destruct (split_lines_cons_nonspace c t Hc) as (l & ls & ->).
  cbn [List.filter].
  destruct (strip_cons_nonspace c l Hc) as (r & ->). cbn [String.eqb negb List.map].
  change (List.map PyStr.rstrip (List.filter _ ls)) with (kept ls).
  rewrite !join_tail.
  destruct (rstrip_prefix (String c l)) as (tws & Htws & Heq).
  rewrite Heq at 1. rewrite append_assoc.
  apply squeezed_app_keep. now apply tail_squeezed.
Qed.

(** A stretch within one line of the squeezed text stands, unbroken, at
    the matching place of the full text. *)
Lemma squeezed_prefix (w b x : string) :
  squeezed x (w +:+ b) -> one_line w ->
  exists b', x = w +:+ b' /\ squeezed b' b.
Proof.
  revert x. induction w as [ | a w IH]; intros x H Hw.
  - exists x. now split.
  - unfold one_line in Hw. simpl in Hw. apply andb_prop in Hw as [Ha Hw].
    rewrite append_cons in H. inversion H as [ | c x1 y1 H1 | ws x1 y1 Hws H1 ]; subst.
    + destruct (IH _ H1 Hw) as (b' & -> & Hb'). exists b'. now split.
    + unfold not_newline in Ha. now rewrite Ascii.eqb_refl in Ha.
Qed.

Lemma squeezed_suffix (a y x : string) :
  squeezed x (a +:+ y) -> exists a' x', x = a' +:+ x' /\ squeezed x' y.
Proof.
  revert x. induction a as [ | c a IH]; intros x H.
  - exists EmptyString, x. now split.
  - rewrite append_cons in H. inversion H as [ | c' x1 y1 H1 | ws x1 y1 Hws H1 ]; subst.
    + destruct (IH _ H1) as (a' & x' & -> & Hx'). exists (String c a'), x'. now split.
    + destruct (IH _ H1) as (a' & x' & -> & Hx').
      exists (ws +:+ String PyChar.newline a'), x'. split; [ | assumption ].
      now rewrite append_assoc, append_cons.
Qed.

Lemma has_app (c : ascii) (a b : string) : has c (a +:+ b) = has c a || has c b.
Proof.
  induction a as [ | x a IH]; [ reflexivity | ].
  rewrite append_cons. simpl. now rewrite IH, orb_assoc.
Qed.

(** Squeezing removes characters only. *)
Lemma squeezed_has (c : ascii) (x y : string) :
  squeezed x y -> has c y = true -> has c x = true.
Proof.
  induction 1 as [ ws Hws | c' x y H IH | ws x y Hws H IH ]; simpl.
  - discriminate.
  - intros Hc. apply orb_prop in Hc as [Hc | Hc]; [ now rewrite Hc | ].
    rewrite (IH Hc). apply orb_true_r.
  - intros Hc. rewrite has_app. simpl.
    apply orb_prop in Hc as [Hc | Hc]; [ rewrite Hc | rewrite (IH Hc) ];
      now rewrite ?orb_true_r.
Qed.

(** A stretch without blanks at the start of the full text stands at
    the start of the squeezed text. *)
Lemma squeezed_solid_prefix (h t y : string) :
  squeezed (h +:+ t) y -> solid h -> exists t', y = h +:+ t' /\ squeezed t t'.
Proof.
  revert y. induction h as [ | a h IH]; intros y H Hh.
  - exists y. now split.
  - unfold solid in Hh. simpl in Hh. apply andb_prop in Hh as [Ha Hh].
    apply negb_true_iff in Ha.
    rewrite append_cons in H.
    inversion H as [ ws Hws Hx | c x1 y1 H1 | ws x1 y1 Hws H1 Hx ]; subst.
    + unfold blank in Hws. simpl in Hws. now rewrite Ha in Hws.
    + destruct (IH _ H1 Hh) as (t' & -> & Ht'). exists t'. now split.
    + destruct ws as [ | w0 ws].
      * rewrite append_nil_l in Hx. injection Hx as <- _.
        now rewrite newline_is_space in Ha.
      * rewrite append_cons in Hx. injection Hx as <- _.
        unfold blank in Hws. simpl in Hws. now rewrite Ha in Hws.
Qed.

End FormatFacts.

(** ** The sanitizer returns, and when it returns the empty text *)

Section CleanNonEmpty.
Import FixedCodeCleaner.

(** The document-type step keeps a non-blank first character, or puts
    its own [<] first. *)
Lemma add_doctype_head (c : ascii) (t : string) :
  PyChar.isspace c = false ->
  exists c' t', add_doctype (String c t) = String c' t' /\ PyChar.isspace c' = false.
Proof.
  intros Hc. unfold add_doctype.
  destruct (negb _); [ | eauto ].
  destruct (PyRe.search I html_tag (String c t)) as [[start m] | ].
  - eexists _, _. split; reflexivity.
  - destruct (_ || _).
    + eexists _, _. split; reflexivity.
    + eauto.
Qed.

Lemma clean_html_try_empty (raw : string) :
  PyStr.strip (remove_markdown (PyStr.strip raw)) = EmptyString ->
  clean_html_try raw = Ok EmptyString.
Proof. unfold clean_html_try. intros ->. reflexivity. Qed.

Lemma clean_html_try_nonempty (raw : string) (c : ascii) (t : string) :
  PyStr.strip (remove_markdown (PyStr.strip raw)) = String c t ->
  exists c' t', clean_html_try raw = Ok (String c' t').
Proof.
  intros H. unfold clean_html_try. rewrite H.
  destruct (add_doctype_head c t (strip_head _ _ _ H)) as (c' & t' & -> & Hc').
  destruct (format_html_head c' t' Hc') as (t'' & ->). eauto.
Qed.

End CleanNonEmpty.

(** C1, as the code has it.  On every input string the sanitizer returns
    a string: the [try] block ends normally and the emergency path is
    never taken.  The string returned is empty exactly when nothing is
    left of the input once it is trimmed and its markdown fences are
    removed; every other input gives a non-empty string. *)
Theorem clean_html_returns (raw : string) :
  FixedCodeCleaner.clean_html_try raw = Ok (FixedCodeCleaner.clean_html_response raw)
  /\ (FixedCodeCleaner.clean_html_response raw = EmptyString
      <-> PyStr.strip (FixedCodeCleaner.remove_markdown (PyStr.strip raw)) = EmptyString).
Proof.
  split; [ reflexivity | ].
  unfold FixedCodeCleaner.clean_html_response.
  destruct (PyStr.strip (FixedCodeCleaner.remove_markdown (PyStr.strip raw)))
    as [ | c t] eqn:Hs.
  - rewrite (clean_html_try_empty raw Hs). tauto.
  - destruct (clean_html_try_nonempty raw c t Hs) as (c' & t' & ->).
    split; discriminate.
Qed.

(** C1 as stated fails on non-empty inputs that hold nothing but blanks
    or fences: a blank, a bare fence and the bare word [html] all give
    the empty string. *)
Lemma clean_html_can_return_empty :
  FixedCodeCleaner.clean_html_response " " = EmptyString
  /\ FixedCodeCleaner.clean_html_response "```" = EmptyString
  /\ FixedCodeCleaner.clean_html_response "html" = EmptyString
  /\ " " <> EmptyString /\ "```" <> EmptyString /\ "html" <> EmptyString.
Proof.
  repeat split; try (vm_compute; reflexivity); discriminate.
Qed.

(** ** Idempotence of the sanitizer *)

Section SearchFacts.
Import Lines.

(** *** Substrings *)

Lemma startswith_iff (s w : string) :
  PyStr.startswith s w = true <-> exists b, s = w +:+ b.
Proof.
  revert s. induction w as [ | a w IH]; intros s.
  - simpl. split; [ intros _; now exists s | now destruct s ].
  - destruct s as [ | x s]; simpl.
    + split; [ discriminate | intros (b & Hb); discriminate ].
    + rewrite andb_true_iff, IH. unfold PyChar.eqb. rewrite Ascii.eqb_eq. split.
      * intros (-> & b & ->). now exists b.
      * intros (b & Hb). rewrite append_cons in Hb. injection Hb as -> ->. eauto.
Qed.

Lemma contains_iff (w s : string) :
  PyStr.contains w s = true <-> exists a b, s = a +:+ w +:+ b.
Proof.
  induction s as [ | x s IH].
  - cbn [PyStr.contains]. rewrite orb_false_r, startswith_iff. split.
    + intros (b & Hb). now exists EmptyString, b.
    + intros (a & b & Hab). destruct a; [ now exists b | discriminate ].
  - cbn [PyStr.contains]. rewrite orb_true_iff, startswith_iff, IH. split.
    + intros [(b & Hb) | (a & b & ->)].
      * now exists EmptyString, b.
      * now exists (String x a), b.
    + intros (a & b & Hab). destruct a as [ | y a].
      * left. now exists b.
      * right. rewrite append_cons in Hab. injection Hab as _ ->. now exists a, b.
Qed.

Lemma map_app (f : ascii -> ascii) (a b : string) :
  PyStr.map f (a +:+ b) = PyStr.map f a +:+ PyStr.map f b.
Proof.
  induction a as [ | x a IH]; [ reflexivity | ].
  rewrite append_cons. simpl. now rewrite IH.
Qed.

(** A mapped text splits where its image splits. *)
Lemma map_app_inv (f : ascii -> ascii) (y a b : string) :
  PyStr.map f y = a +:+ b ->
  exists a0 b0, y = a0 +:+ b0 /\ PyStr.map f a0 = a /\ PyStr.map f b0 = b.
Proof.
  revert y. induction a as [ | x a IH]; intros y H.
  - exists EmptyString, y. now repeat split.
  - destruct y as [ | c y]; [ discriminate | ].
    rewrite append_cons in H. simpl in H. injection H as Hx H.
    destruct (IH _ H) as (a0 & b0 & -> & Ha & Hb).
    exists (String c a0), b0. repeat split; [ | assumption ].
    simpl. now rewrite Hx, Ha.
Qed.

Lemma lower_newline (c : ascii) :
  not_newline (PyChar.lower c) = true -> not_newline c = true.
Proof.
  unfold not_newline. destruct (PyChar.eqb c PyChar.newline) eqn:Hc; [ | reflexivity ].
  apply Ascii.eqb_eq in Hc. now subst.
Qed.

Lemma one_line_of_lower (s : string) : one_line (PyStr.lower s) -> one_line s.
Proof.
  unfold one_line, PyStr.lower. induction s as [ | c s IH]; simpl; [ reflexivity | ].
  intros H. apply andb_prop in H as [Hc Hs]. now rewrite (lower_newline c Hc), (IH Hs).
Qed.

(** A word of one line found in the lowercase form of the squeezed text
    is found in the lowercase form of the full text. *)
Lemma squeezed_contains_lower (w x y : string) :
  squeezed x y -> one_line w ->
  PyStr.contains w (PyStr.lower y) = true -> PyStr.contains w (PyStr.lower x) = true.
Proof.
  intros Hsq Hw Hc. apply contains_iff in Hc as (a & b & Hab).
  unfold PyStr.lower in Hab.
  apply map_app_inv in Hab as (a0 & r0 & -> & Ha & Hr).
  apply map_app_inv in Hr as (w0 & b0 & -> & Hw0 & Hb).
  apply squeezed_suffix in Hsq as (a' & x' & -> & Hsq).
  apply squeezed_prefix in Hsq as (b' & -> & _).
  - apply contains_iff. exists (PyStr.lower a'), (PyStr.lower b').
    unfold PyStr.lower. now rewrite !map_app, Hw0.
  - apply one_line_of_lower. unfold PyStr.lower. now rewrite Hw0.
Qed.

(** *** The search for an [<html ...>] tag *)

Lemma lower_gt (c : ascii) :
  PyChar.eqb (PyChar.lower c) (PyChar.lower ">"%char) = PyChar.eqb c ">"%char.
Proof. destruct c as [[] [] [] [] [] [] [] []]; reflexivity. Qed.

(** After the word: [[^>]*>] matches exactly when a [>] follows. *)
Lemma tag_tail_matches (s : string) (prev : option ascii) (g : option string) :
  PyRe.star (fun c => negb (PyChar.eqb c ">"%char)) prev s g
    (fun q => PyRe.exec FixedCodeCleaner.I (PyRe.Lit ">"%char) q Some) = None
  <-> has ">"%char s = false.
Proof.
  revert prev. induction s as [ | c s IH]; intros prev; [ now simpl | ].
  cbn [PyRe.star has].
  destruct (PyChar.eqb c ">"%char) eqn:Hc; cbn [negb orb].
  - simpl. unfold PyRe.lit_matches. simpl. rewrite lower_gt, Hc. split; discriminate.
  - destruct (PyRe.star _ (Some c) s g _) eqn:Hs.
    + split; [ discriminate | ]. intros H.
      apply (proj2 (IH (Some c))) in H. congruence.
    + simpl. unfold PyRe.lit_matches. simpl. rewrite lower_gt, Hc.
      split; [ intros _; now apply (proj1 (IH (Some c))) | reflexivity ].
Qed.

Lemma match_here_tag (prev : option ascii) (s : string) :
  PyRe.match_here FixedCodeCleaner.I FixedCodeCleaner.html_tag prev s = None
  <-> tag_here s = false.
Proof.
  unfold PyRe.match_here, tag_here.
  assert (H : PyRe.exec FixedCodeCleaner.I FixedCodeCleaner.html_tag
                (PyRe.Pos prev s None) Some = None
              <-> starts_ci "<html" s && has ">"%char (PyStr.drop 5 s) = false).
  { unfold FixedCodeCleaner.html_tag. cbn [PyRe.lits].
    destruct s as [ | c1 [ | c2 [ | c3 [ | c4 [ | c5 t]]]]];
      cbn [PyRe.exec PyRe.rest PyRe.group1 PyRe.before starts_ci PyStr.drop];
      unfold PyRe.lit_matches; cbn [PyRe.IGNORECASE FixedCodeCleaner.I];
      repeat match goal with
             | |- context [ PyChar.eqb (PyChar.lower ?x) (PyChar.lower ?a) ] =>
                 destruct (PyChar.eqb (PyChar.lower x) (PyChar.lower a));
                 cbn [andb]
             end;
      try tauto.
    apply tag_tail_matches. }
  destruct (PyRe.exec _ _ _ _); [ | tauto ].
  split; [ discriminate | ]. intros Hf. apply H in Hf. discriminate.
Qed.

(** The search finds nothing exactly when no place of the text starts a
    tag. *)
Lemma search_tag_none (s : string) (prev : option ascii) (i : nat) :
  PyRe.search_from FixedCodeCleaner.I FixedCodeCleaner.html_tag prev s i = None
  <-> forall a s', s = a +:+ s' -> tag_here s' = false.
Proof.
  revert prev i. induction s as [ | c s IH]; intros prev i.
  - cbn [PyRe.search_from].
    destruct (PyRe.match_here _ _ prev EmptyString) eqn:Hm.
    + split; [ discriminate | ]. intros H.
      specialize (H EmptyString EmptyString eq_refl).
      apply (proj2 (match_here_tag prev _)) in H. rewrite Hm in H. discriminate.
    + split; [ | reflexivity ]. intros _ a s' Heq.
      destruct a; [ | discriminate ]. rewrite append_nil_l in Heq. subst s'.
      apply (proj1 (match_here_tag prev _)). exact Hm.
  - cbn [PyRe.search_from].
    destruct (PyRe.match_here _ _ prev (String c s)) eqn:Hm.
    + split; [ discriminate | ]. intros H.
      specialize (H EmptyString (String c s) eq_refl).
      apply (proj2 (match_here_tag prev _)) in H. rewrite Hm in H. discriminate.
    + rewrite IH. split.
      * intros H a s' Heq. destruct a as [ | x a].
        -- rewrite append_nil_l in Heq. subst s'. apply (proj1 (match_here_tag prev _)). exact Hm.
        -- rewrite append_cons in Heq. injection Heq as _ ->. now apply (H a).
      * intros H a s' ->. apply (H (String c a)). now rewrite append_cons.
Qed.

Lemma drop_app (h t : string) : PyStr.drop (String.length h) (h +:+ t) = t.
Proof. induction h as [ | c h IH]; [ reflexivity | exact IH ]. Qed.

Lemma ci_match_one_line (x a : ascii) :
  PyChar.eqb (PyChar.lower x) (PyChar.lower a) = true ->
  not_newline (PyChar.lower a) = true -> not_newline x = true.
Proof.
  intros Hx Ha. apply Ascii.eqb_eq in Hx. apply lower_newline. now rewrite Hx.
Qed.

(** A tag start is five characters of one line, then the rest. *)
Lemma tag_here_split (s : string) :
  tag_here s = true ->
  exists h t, s = h +:+ t /\ one_line h /\ has ">"%char t = true
              /\ forall t', has ">"%char t' = true -> tag_here (h +:+ t') = true.
Proof.
  unfold tag_here.
  destruct s as [ | c1 [ | c2 [ | c3 [ | c4 [ | c5 t]]]]];
    cbn [starts_ci andb]; rewrite ?andb_false_r; try discriminate.
  intros H. apply andb_prop in H as [Hci H]. cbn [PyStr.drop] in H.
  repeat (apply andb_prop in Hci as [? Hci]). clear Hci.
  exists (String c1 (String c2 (String c3 (String c4 (String c5 EmptyString))))), t.
  split; [ reflexivity | ]. split; [ | split; [ exact H | ] ].
  - unfold one_line. cbn [PyStr.all].
    repeat match goal with
           | Hm : PyChar.eqb (PyChar.lower ?x) (PyChar.lower ?a) = true |- _ =>
               rewrite (ci_match_one_line x a Hm eq_refl); clear Hm
           end.
    reflexivity.
  - intros t' Ht'. rewrite !append_cons, append_nil_l. cbn [starts_ci PyStr.drop].
    repeat match goal with
           | Hm : PyChar.eqb _ _ = true |- _ => rewrite Hm; clear Hm
           end.
    exact Ht'.
Qed.

(** A tag found in the squeezed text is found in the full text. *)
Lemma squeezed_search_none (x y : string) :
  squeezed x y ->
  PyRe.search FixedCodeCleaner.I FixedCodeCleaner.html_tag x = None ->
  PyRe.search FixedCodeCleaner.I FixedCodeCleaner.html_tag y = None.
Proof.
  unfold PyRe.search. intros Hsq Hx. rewrite search_tag_none in *.
  intros a s' ->. destruct (tag_here s') eqn:Htag; [ exfalso | reflexivity ].
  apply tag_here_split in Htag as (h & t & -> & Hh & Ht & Hany).
  apply squeezed_suffix in Hsq as (a' & x' & -> & Hsq).
  apply squeezed_prefix in Hsq as (b' & -> & Hsq); [ | assumption ].
  specialize (Hx a' (h +:+ b') eq_refl).
  rewrite Hany in Hx; [ discriminate | ].
  eapply squeezed_has; eassumption.
Qed.

End SearchFacts.

Section DoctypeFacts.
Import Lines.

Lemma upper_shape (c : ascii) :
  (exists u, PyChar.upper c = String u EmptyString) \/ PyChar.upper c = "SS".
Proof.
  unfold PyChar.upper.
  destruct (_ || _); [ left; eauto | ].
  destruct (_ =? _)%N; [ now right | left; eauto ].
Qed.

Lemma upper_space (c : ascii) :
  PyChar.isspace c = true -> PyChar.upper c = String c EmptyString.
Proof. destruct c as [[] [] [] [] [] [] [] []]; vm_compute; congruence. Qed.

(** Against a word without the letter S, the test on the uppercase form
    goes character by character. *)
Lemma startswith_upper (w x : string) :
  PyStr.all (fun d => negb (PyChar.eqb d "S"%char)) w = true ->
  PyStr.startswith (PyStr.upper x) w = starts_upper w x.
Proof.
  revert x. induction w as [ | d w IH]; intros x Hw.
  - now destruct (PyStr.upper x).
  - simpl in Hw. apply andb_prop in Hw as [Hd Hw]. apply negb_true_iff in Hd.
    destruct x as [ | c t]; [ reflexivity | ].
    cbn [PyStr.upper starts_upper].
    destruct (upper_shape c) as [(u & ->) | ->].
    + rewrite append_cons, append_nil_l. cbn [PyStr.startswith String.eqb].
      rewrite (IH t Hw). unfold PyChar.eqb.
      rewrite (Ascii.eqb_sym d u). now destruct (Ascii.eqb u d).
    + rewrite !append_cons. cbn [PyStr.startswith String.eqb].
      rewrite Hd. cbn [andb]. unfold PyChar.eqb in Hd.
      rewrite (Ascii.eqb_sym "S"%char d), Hd. reflexivity.
Qed.

Lemma starts_upper_split (w x : string) :
  starts_upper w x = true ->
  PyStr.all (fun d => negb (PyChar.isspace d)) w = true ->
  exists h t, x = h +:+ t /\ solid h /\ forall t', starts_upper w (h +:+ t') = true.
Proof.
  revert x. induction w as [ | d w IH]; intros x H Hw.
  - exists EmptyString, x. now repeat split.
  - simpl in Hw. apply andb_prop in Hw as [Hd Hw]. apply negb_true_iff in Hd.
    destruct x as [ | c t]; [ discriminate | ].
    cbn [starts_upper] in H. apply andb_prop in H as [Hc H].
    apply String.eqb_eq in Hc.
    destruct (IH t H Hw) as (h & t0 & -> & Hh & Hany).
    exists (String c h), t0. split; [ reflexivity | ]. split.
    + unfold solid. simpl. rewrite Hh.
      destruct (PyChar.isspace c) eqn:Hsp; [ | reflexivity ].
      rewrite (upper_space c Hsp) in Hc. injection Hc as ->. congruence.
    + intros t'. rewrite append_cons. cbn [starts_upper].
      rewrite Hc, String.eqb_refl. apply Hany.
Qed.

(** A text that starts with the document-type declaration still does
    after squeezing. *)
Lemma squeezed_doctype (x y : string) :
  squeezed x y ->
  PyStr.startswith (PyStr.upper x) "<!DOCTYPE" = true ->
  PyStr.startswith (PyStr.upper y) "<!DOCTYPE" = true.
Proof.
  intros Hsq. rewrite !startswith_upper by reflexivity. intros Hx.
  apply starts_upper_split in Hx as (h & t & -> & Hh & Hany); [ | reflexivity ].
  apply squeezed_solid_prefix in Hsq as (t' & -> & _); [ | assumption ].
  apply Hany.
Qed.

End DoctypeFacts.

Section FormatIdempotent.
Import Lines.

Lemma split_lines_one_line (s : string) : Forall one_line (PyStr.split_lines s).
Proof.
  induction s as [ | c s IH]; simpl.
  - constructor; [ reflexivity | constructor ].
  - destruct (PyChar.eqb c PyChar.newline) eqn:Hc.
    + constructor; [ reflexivity | assumption ].
    + destruct (PyStr.split_lines s) as [ | l ls].
      * constructor; [ | constructor ]. unfold one_line, not_newline. simpl. now rewrite Hc.
      * inversion IH; subst. constructor; [ | assumption ].
        unfold one_line, not_newline in *. simpl. now rewrite Hc.
Qed.

Lemma kept_tidy (ls : list string) : Forall one_line ls -> Forall tidy (kept ls).
Proof.
  induction 1 as [ | l ls Hl Hls IH]; [ constructor | ].
  unfold kept. cbn [List.filter].
  destruct (String.eqb (PyStr.strip l) EmptyString) eqn:Hb; cbn [negb List.map];
    [ exact IH | ].
  constructor; [ | exact IH ].
  split; [ | split ].
  - destruct (rstrip_prefix l) as (ws & _ & Heq). unfold one_line in *.
    rewrite Heq, all_app in Hl. now apply andb_prop in Hl as [Hl _].
  - apply rstrip_idempotent.
  - destruct (String.eqb (PyStr.strip (PyStr.rstrip l)) EmptyString) eqn:Hr;
      [ | reflexivity ].
    apply String.eqb_eq, strip_empty_iff_blank, rstrip_blank in Hr.
    rewrite rstrip_idempotent in Hr.
    apply rstrip_empty_blank, strip_empty_iff_blank in Hr.
    rewrite Hr in Hb. discriminate.
Qed.

Lemma tidy_nonempty (l : string) : tidy l -> l <> EmptyString.
Proof. intros (_ & _ & H) ->. discriminate. Qed.

Lemma split_lines_line (l : string) : one_line l -> PyStr.split_lines l = [l].
Proof.
  unfold one_line, not_newline. induction l as [ | c l IH]; simpl; [ reflexivity | ].
  intros H. apply andb_prop in H as [Hc Hl]. apply negb_true_iff in Hc.
  now rewrite Hc, (IH Hl).
Qed.

Lemma split_lines_app (l r : string) :
  one_line l ->
  PyStr.split_lines (l +:+ String PyChar.newline r) = l :: PyStr.split_lines r.
Proof.
  unfold one_line, not_newline. induction l as [ | c l IH]; intros H.
  - reflexivity.
  - simpl in H. apply andb_prop in H as [Hc Hl]. apply negb_true_iff in Hc.
    rewrite append_cons. cbn [PyStr.split_lines]. now rewrite Hc, (IH Hl).
Qed.

Lemma split_join (ls : list string) :
  ls <> [] -> Forall one_line ls -> PyStr.split_lines (PyStr.join_lines ls) = ls.
Proof.
  induction ls as [ | l ls IH]; [ congruence | ].
  intros _ H. inversion H as [ | ? ? Hl Hls ]; subst.
  destruct ls as [ | l2 ls]; [ now apply split_lines_line | ].
  change (PyStr.join_lines (l :: l2 :: ls))
    with (l +:+ String PyChar.newline (PyStr.join_lines (l2 :: ls))).
  rewrite split_lines_app by assumption. f_equal. now apply IH.
Qed.

Lemma kept_fixed (ls : list string) : Forall tidy ls -> kept ls = ls.
Proof.
  induction 1 as [ | l ls (Hone & Hr & Hb) Hls IH]; [ reflexivity | ].
  unfold kept in *. cbn [List.filter]. rewrite Hb. cbn [negb List.map].
  now rewrite Hr, IH.
Qed.

Lemma tidy_one_line (ls : list string) : Forall tidy ls -> Forall one_line ls.
Proof.
  induction 1 as [ | l ls (Hl & _) _ IH]; constructor; assumption.
Qed.

(** Formatting a formatted text changes nothing. *)
Lemma format_html_idempotent (x : string) :
  FixedCodeCleaner._format_html (FixedCodeCleaner._format_html x)
  = FixedCodeCleaner._format_html x.
Proof.
  unfold FixedCodeCleaner._format_html.
  change (List.map PyStr.rstrip (List.filter _ (PyStr.split_lines x)))
    with (kept (PyStr.split_lines x)).
  pose proof (kept_tidy _ (split_lines_one_line x)) as Htidy.
  destruct (kept (PyStr.split_lines x)) as [ | l ls] eqn:Hk; [ reflexivity | ].
  rewrite split_join; [ | discriminate | now apply tidy_one_line ].
  change (List.map PyStr.rstrip (List.filter _ (l :: ls))) with (kept (l :: ls)).
  now rewrite kept_fixed.
Qed.

Lemma join_tidy_rstrip (ls : list string) :
  Forall tidy ls -> PyStr.rstrip (PyStr.join_lines ls) = PyStr.join_lines ls.
Proof.
  induction 1 as [ | l ls Hl Hls IH]; [ reflexivity | ].
  destruct ls as [ | l2 ls]; [ now destruct Hl as (_ & Hr & _) | ].
  change (PyStr.join_lines (l :: l2 :: ls))
    with (l +:+ String PyChar.newline (PyStr.join_lines (l2 :: ls))).
  assert (Hne : PyStr.join_lines (l2 :: ls) <> EmptyString).
  { inversion Hls as [ | ? ? Hl2 _ ]; subst. apply tidy_nonempty in Hl2.
    rewrite join_tail. destruct l2; [ congruence | discriminate ]. }
  apply rstrip_app_fixed; [ | discriminate ].
  cbn [PyStr.rstrip]. rewrite IH.
  destruct (PyStr.join_lines (l2 :: ls)); [ congruence | reflexivity ].
Qed.

(** A formatted text has no blanks at its end. *)
Lemma format_html_rstrip (x : string) :
  PyStr.rstrip (FixedCodeCleaner._format_html x) = FixedCodeCleaner._format_html x.
Proof.
  unfold FixedCodeCleaner._format_html.
  apply join_tidy_rstrip. apply (kept_tidy _ (split_lines_one_line x)).
Qed.

End FormatIdempotent.

Section CleanIdempotent.
Import Lines FixedCodeCleaner.

Lemma strip_trimmed_left (s : string) : trimmed_left (PyStr.strip s).
Proof.
  destruct (PyStr.strip s) as [ | c t] eqn:H; [ exact Logic.I | ].
  simpl. eapply strip_head. exact H.
Qed.

Lemma add_doctype_trimmed_left (x : string) :
  trimmed_left x -> trimmed_left (add_doctype x).
Proof.
  destruct x as [ | c t]; [ intros _; exact Logic.I | ].
  simpl. intros Hc. destruct (add_doctype_head c t Hc) as (c' & t' & -> & Hc').
  exact Hc'.
Qed.

(** What the document-type step returns starts with the declaration, or
    is its argument, in which the step has found nothing. *)
Lemma add_doctype_cases (x : string) :
  PyStr.startswith (PyStr.upper (add_doctype x)) "<!DOCTYPE" = true
  \/ (add_doctype x = x
      /\ PyStr.startswith (PyStr.upper x) "<!DOCTYPE" = false
      /\ PyRe.search I html_tag x = None
      /\ PyStr.contains "<head>" (PyStr.lower x) = false
      /\ PyStr.contains "<body>" (PyStr.lower x) = false).
Proof.
  unfold add_doctype.
  destruct (PyStr.startswith (PyStr.upper x) "<!DOCTYPE") eqn:Hd; cbn [negb];
    [ now left | ].
  destruct (PyRe.search I html_tag x) as [[start m] | ]; [ now left | ].
  destruct (PyStr.contains "<head>" (PyStr.lower x)); [ now left | ].
  destruct (PyStr.contains "<body>" (PyStr.lower x)); [ now left | ].
  right. repeat split.
Qed.

(** The document-type step leaves a formatted result of its own alone. *)
Lemma add_doctype_format (x : string) :
  trimmed_left x ->
  add_doctype (_format_html (add_doctype x)) = _format_html (add_doctype x).
Proof.
  intros Hx. apply add_doctype_trimmed_left in Hx.
  destruct (add_doctype x) as [ | c t] eqn:Hc1; [ reflexivity | ].
  simpl in Hx. pose proof (format_html_squeezed c t Hx) as Hsq.
  rewrite <- Hc1 in Hsq |- *.
  destruct (add_doctype_cases x) as [Hdoc | (Hsame & Hd & Hs & Hh & Hb)].
  - unfold add_doctype at 1.
    now rewrite (squeezed_doctype _ _ Hsq Hdoc).
  - rewrite Hsame in *. unfold add_doctype at 1.
    destruct (PyStr.startswith (PyStr.upper (_format_html x)) "<!DOCTYPE");
      [ reflexivity | ].
    cbn [negb]. rewrite (squeezed_search_none _ _ Hsq Hs).
    destruct (PyStr.contains "<head>" (PyStr.lower (_format_html x))) eqn:Hh'.
    { apply (squeezed_contains_lower _ _ _ Hsq) in Hh'; [ congruence | reflexivity ]. }
    destruct (PyStr.contains "<body>" (PyStr.lower (_format_html x))) eqn:Hb'.
    { apply (squeezed_contains_lower _ _ _ Hsq) in Hb'; [ congruence | reflexivity ]. }
    reflexivity.
Qed.

(** Trimming leaves a formatted text that starts with a non-blank
    character alone. *)
Lemma strip_format (x : string) :
  trimmed_left x -> PyStr.strip (_format_html x) = _format_html x.
Proof.
  intros Hx. unfold PyStr.strip.
  assert (Hl : PyStr.lstrip (_format_html x) = _format_html x).
  { destruct x as [ | c t]; [ reflexivity | ].
    destruct (format_html_head c t Hx) as (t' & ->). simpl. now rewrite Hx. }
  rewrite Hl. apply format_html_rstrip.
Qed.

End CleanIdempotent.

(** C4, as the code has it.  Applying the sanitizer to its own output
    gives that output again whenever the fence patterns find nothing
    left to remove in it: the second pass then neither trims, nor adds a
    document-type declaration or a wrapper, nor reformats. *)
Theorem clean_html_idempotent (raw : string) :
  let out := FixedCodeCleaner.clean_html_response raw in
  FixedCodeCleaner.remove_markdown out = out ->
  FixedCodeCleaner.clean_html_response out = out.
Proof.
  intros out Hfences.
  set (c0 := PyStr.strip (FixedCodeCleaner.remove_markdown (PyStr.strip raw))).
  assert (Hout : out = FixedCodeCleaner._format_html (FixedCodeCleaner.add_doctype c0))
    by reflexivity.
  pose proof (strip_trimmed_left (FixedCodeCleaner.remove_markdown (PyStr.strip raw))) as H0.
  fold c0 in H0.
  assert (Hstrip : PyStr.strip out = out).
  { rewrite Hout. apply strip_format. now apply add_doctype_trimmed_left. }
  unfold FixedCodeCleaner.clean_html_response, FixedCodeCleaner.clean_html_try.
  rewrite Hstrip, Hfences, Hstrip.
  rewrite Hout, (add_doctype_format c0 H0).
  apply format_html_idempotent.
Qed.

(** A run of [clean_html_idempotent]: the bare body of C5. *)
Lemma clean_html_idempotent_bare_body :
  FixedCodeCleaner.clean_html_response
    (FixedCodeCleaner.clean_html_response "<body><h1>Hi</h1></body>")
  = FixedCodeCleaner.clean_html_response "<body><h1>Hi</h1></body>".
Proof.
  apply (clean_html_idempotent "<body><h1>Hi</h1></body>").
  vm_compute. reflexivity.
Defined.

(** C4 as stated fails where removing a fence uncovers another one: the
    word [html] at the start of a line is removed once per pass. *)
Lemma clean_html_not_idempotent :
  FixedCodeCleaner.clean_html_response "htmlhtml" = "html"
  /\ FixedCodeCleaner.clean_html_response "html" = EmptyString
  /\ FixedCodeCleaner.clean_html_response
       (FixedCodeCleaner.clean_html_response "htmlhtml")
     <> FixedCodeCleaner.clean_html_response "htmlhtml".
Proof.
  repeat split; try (vm_compute; reflexivity).
  vm_compute. discriminate.
Qed.

(** ** File names *)

Section FilenameFacts.

Lemma all_filter (p : ascii -> bool) (s : string) :
  PyStr.all p (PyStr.filter p s) = true.
Proof.
  induction s as [ | c s IH]; simpl; [ reflexivity | ].
  destruct (p c) eqn:Hc; simpl; [ now rewrite Hc | assumption ].
Qed.

Lemma all_lstrip (p : ascii -> bool) (s : string) :
  PyStr.all p s = true -> PyStr.all p (PyStr.lstrip s) = true.
Proof.
  induction s as [ | c s IH]; simpl; [ reflexivity | ].
  intros H. apply andb_prop in H as [Hc Hs].
  destruct (PyChar.isspace c); [ now apply IH | simpl; now rewrite Hc, Hs ].
Qed.

Lemma all_rstrip (p : ascii -> bool) (s : string) :
  PyStr.all p s = true -> PyStr.all p (PyStr.rstrip s) = true.
Proof.
  induction s as [ | c s IH]; simpl; [ reflexivity | ].
  intros H. apply andb_prop in H as [Hc Hs]. specialize (IH Hs).
  destruct (PyStr.rstrip s) as [ | c' r].
  - destruct (PyChar.isspace c); simpl; [ reflexivity | now rewrite Hc ].
  - change (PyStr.all p (String c (String c' r)) = true).
    simpl in *. now rewrite Hc, IH.
Qed.

(** Among the characters the title filter keeps, the blank is the only
    one that [strip] removes. *)
Lemma kept_space_is_blank (c : ascii) :
  Fmt.keep_char c = true -> PyChar.isspace c = PyChar.eqb c " "%char.
Proof.
  destruct c as [[] [] [] [] [] [] [] []]; vm_compute; congruence.
Qed.

Lemma lstrip_kept (s : string) :
  PyStr.all Fmt.keep_char s = true -> PyStr.lstrip s = Claimed.ltrim s.
Proof.
  induction s as [ | c s IH]; simpl; [ reflexivity | ].
  intros H. apply andb_prop in H as [Hc Hs].
  rewrite (kept_space_is_blank c Hc).
  destruct (PyChar.eqb c " "%char); [ now apply IH | reflexivity ].
Qed.

Lemma rstrip_kept (s : string) :
  PyStr.all Fmt.keep_char s = true -> PyStr.rstrip s = Claimed.rtrim s.
Proof.
  induction s as [ | c s IH]; simpl; [ reflexivity | ].
  intros H. apply andb_prop in H as [Hc Hs].
  rewrite (kept_space_is_blank c Hc), (IH Hs). reflexivity.
Qed.

Lemma strip_kept (s : string) :
  PyStr.all Fmt.keep_char s = true -> PyStr.strip s = Claimed.trim s.
Proof.
  intros H. unfold PyStr.strip, Claimed.trim.
  rewrite (lstrip_kept s H).
  apply rstrip_kept. rewrite <- (lstrip_kept s H). now apply all_lstrip.
Qed.

Lemma slug_char_of_kept (c : ascii) :
  Fmt.keep_char c = true ->
  Claimed.slug_char (if PyChar.eqb c " "%char then "_"%char else c) = true.
Proof.
  destruct c as [[] [] [] [] [] [] [] []]; vm_compute; congruence.
Qed.

Lemma all_replace_blank (s : string) :
  PyStr.all Fmt.keep_char s = true ->
  PyStr.all Claimed.slug_char (PyStr.replace_char " "%char "_"%char s) = true.
Proof.
  unfold PyStr.replace_char.
  induction s as [ | c s IH]; simpl; [ reflexivity | ].
  intros H. apply andb_prop in H as [Hc Hs].
  now rewrite (slug_char_of_kept c Hc), (IH Hs).
Qed.

Lemma pad2_two_digits (i : nat) : i < 100 -> String.length (Fmt.pad2 i) = 2.
Proof.
  intros H.
  assert (Hall : forallb (fun k => String.length (Fmt.pad2 k) =? 2) (seq 0 100) = true)
    by (vm_compute; reflexivity).
  rewrite forallb_forall in Hall.
  apply Nat.eqb_eq, (Hall i), in_seq. lia.
Qed.

End FilenameFacts.

(** C9, as the code has it.  For every title that is a string and every
    sequence number, the file name is [game_], the number zero-padded to
    two digits (exactly two below 100), an underscore, the title part and
    [.html]; the title part is the title with every character that is not
    alphanumeric, a blank, a hyphen or an underscore removed, then the
    blanks at both ends cut off, then the remaining blanks turned into
    underscores.  Only alphanumerics, hyphens and underscores are left in
    it; the title "Fractions: Part/Whole!" gives
    [game_01_Fractions_PartWhole.html]. *)
Theorem filename_of_title (i : nat) (title : string) :
  exists safe_title slug,
    Fmt.safe_title_of (JStr title) = Ok safe_title
    /\ safe_title = Claimed.trim (PyStr.filter Fmt.keep_char title)
    /\ slug = PyStr.replace_char " "%char "_"%char safe_title
    /\ Fmt.filename_of (Fmt.pad2 i) safe_title
       = "game_" +:+ Fmt.pad2 i +:+ "_" +:+ slug +:+ ".html"
    /\ PyStr.all Claimed.slug_char slug = true
    /\ (i < 100 -> String.length (Fmt.pad2 i) = 2)
    /\ (title = "Fractions: Part/Whole!" ->
        Fmt.filename_of (Fmt.pad2 1) safe_title = "game_01_Fractions_PartWhole.html").
Proof.
  pose proof (all_filter Fmt.keep_char title) as Hkept.
  exists (Claimed.trim (PyStr.filter Fmt.keep_char title)).
  eexists. split; [ | split; [ reflexivity | split; [ reflexivity | ] ] ].
  - simpl. now rewrite strip_kept.
  - split; [ reflexivity | ].
    split; [ | split; [ apply pad2_two_digits | intros ->; vm_compute; reflexivity ] ].
    apply all_replace_blank.
    rewrite <- strip_kept by assumption.
    unfold PyStr.strip. now apply all_rstrip, all_lstrip.
Qed.

(** C9 as stated fails where the cleaned title begins or ends with a
    blank: the code cuts the blank off, the wording turns it into an
    underscore. *)
Lemma filename_drops_outer_blanks :
  Fmt.safe_title_of (JStr "! Intro") = Ok "Intro"
  /\ Fmt.filename_of (Fmt.pad2 1) "Intro" = "game_01_Intro.html"
  /\ Claimed.filename 1 "! Intro" = "game_01__Intro.html"
  /\ Fmt.filename_of (Fmt.pad2 1) "Intro" <> Claimed.filename 1 "! Intro".
Proof.
  repeat split; try (vm_compute; reflexivity).
  vm_compute. discriminate.
Qed.

(** ** Exhausted retries *)

Section AnalyzerRetry.
Import RetryFacts.
Context (e : env) (content : string).

Local Abbreviation body := (AdaptiveContentAnalyzer.attempt_body (AnalysisPrompt content)).

(** A failed attempt that is not the last: the loop goes on, after a
    delay when the attempt raised. *)
Lemma analysis_attempt_retry (k : nat) (w : world) :
  analysis_outcome e content (asks w) <> Succeeds ->
  k < 2 ->
  exists w',
    run (body k) e w = (Ok Continue, w')
    /\ asks w' = S (asks w)
    /\ sleeps w' = sleeps w ++ delay_after (raised (analysis_outcome e content (asks w))).
Proof.
  intros Hfail Hk. unfold analysis_outcome in *.
  unfold AdaptiveContentAnalyzer.attempt_body.
  rewrite run_try, run_bind, run_aask.
  assert (Hlast : (k =? 2) = false) by (apply Nat.eqb_neq; lia).
  destruct (llm e (asks w) (AnalysisPrompt content)) as [response | x]; simpl.
  - destruct (json_loads e _) as [data | x]; simpl.
    + destruct (AnalyzerPure._validate_analysis data); [ congruence | ].
      simpl. eexists. split; [ reflexivity | ]. split; [ reflexivity | ].
      simpl. now rewrite sleeps_emit_log, sleeps_ask, app_nil_r.
    + rewrite Hlast. simpl. eexists. split; [ reflexivity | ]. split; [ reflexivity | ].
      now rewrite sleeps_emit_sleep, sleeps_emit_log, sleeps_ask.
  - rewrite Hlast. simpl. eexists. split; [ reflexivity | ]. split; [ reflexivity | ].
    now rewrite sleeps_emit_sleep, sleeps_emit_log, sleeps_ask.
Qed.

(** The last attempt: an exception ends the run with the error that
    names the attempt count; a rejected result lets the loop run out. *)
Lemma analysis_attempt_last (w : world) :
  analysis_outcome e content (asks w) <> Succeeds ->
  exists w',
    run (body 2) e w =
      (if raised (analysis_outcome e content (asks w))
       then Raise (Exception "Failed to analyze content after 3 attempts")
       else Ok Continue, w')
    /\ asks w' = S (asks w)
    /\ sleeps w' = sleeps w.
Proof.
  intros Hfail. unfold analysis_outcome in *.
  unfold AdaptiveContentAnalyzer.attempt_body.
  rewrite run_try, run_bind, run_aask.
  destruct (llm e (asks w) (AnalysisPrompt content)) as [response | x]; simpl.
  - destruct (json_loads e _) as [data | x]; simpl.
    + destruct (AnalyzerPure._validate_analysis data); [ congruence | ].
      simpl. eexists. split; [ reflexivity | ]. split; [ reflexivity | ].
      now rewrite sleeps_emit_log, sleeps_ask.
    + eexists. split; [ reflexivity | ]. split; [ reflexivity | ].
      now rewrite sleeps_emit_log, sleeps_ask.
  - eexists. split; [ reflexivity | ]. split; [ reflexivity | ].
    now rewrite sleeps_emit_log, sleeps_ask.
Qed.

Lemma analysis_exhausted (w : world) :
  let n := asks w in
  analysis_outcome e content n <> Succeeds ->
  analysis_outcome e content (S n) <> Succeeds ->
  analysis_outcome e content (S (S n)) <> Succeeds ->
  exists w',
    run (AdaptiveContentAnalyzer.run content) e w =
      (Raise (Exception
                (if raised (analysis_outcome e content (S (S n)))
                 then "Failed to analyze content after 3 attempts"
                 else "All content analysis attempts failed")), w')
    /\ asks w' = 3 + n
    /\ sleeps w' = sleeps w
                   ++ delay_after (raised (analysis_outcome e content n))
                   ++ delay_after (raised (analysis_outcome e content (S n))).
Proof.
  intros n H0 H1 H2. subst n.
  unfold AdaptiveContentAnalyzer.run. rewrite attempts_three, !for_attempts_cons.
  destruct (analysis_attempt_retry 0 w H0) as (w1 & R1 & A1 & S1); [ lia | ].
  rewrite <- A1 in H1.
  destruct (analysis_attempt_retry 1 w1 H1) as (w2 & R2 & A2 & S2); [ lia | ].
  rewrite A1 in *. rewrite <- A2 in H2.
  destruct (analysis_attempt_last w2 H2) as (w3 & R3 & A3 & S3).
  rewrite A2 in *.
  rewrite (run_bind_ok _ _ _ _ _ _ R1). rewrite (run_bind_ok _ _ _ _ _ _ R2).
  rewrite run_bind, R3.
  exists w3. split.
  - destruct (raised (analysis_outcome e content (S (S (asks w))))); reflexivity.
  - split; [ lia | ]. rewrite S3, S2, S1. now rewrite <- app_assoc.
Qed.

End AnalyzerRetry.

Section RobustRetry.
Import RetryFacts.
Context (e : env) (game_spec : dict).

Local Abbreviation body := (RobustGameGeneratorAction.attempt_body (RobustGamePrompt game_spec)).

Lemma robust_attempt_retry (k : nat) (w : world) :
  is_good (robust_outcome e game_spec (asks w)) = false ->
  k < 2 ->
  exists w',
    run (body k) e w = (Ok Continue, w')
    /\ asks w' = S (asks w)
    /\ sleeps w' = sleeps w ++ delay_after (gen_raised (robust_outcome e game_spec (asks w))).
Proof.
  intros Hfail Hk. unfold robust_outcome in *.
  unfold RobustGameGeneratorAction.attempt_body.
  rewrite run_try, run_bind, run_aask.
  assert (Hlast : (k =? 2) = false) by (apply Nat.eqb_neq; lia).
  assert (Hlt : (k <? 2) = true) by (apply Nat.ltb_lt; lia).
  destruct (llm e (asks w) (RobustGamePrompt game_spec)) as [response | x]; simpl.
  - destruct (String.eqb response EmptyString || _) eqn:Hshort; simpl.
    + rewrite Hlt. simpl. eexists. split; [ reflexivity | ]. split; [ reflexivity | ].
      now rewrite sleeps_emit_log, sleeps_ask, app_nil_r.
    + destruct (String.length (RobustCodeCleaner.clean_html_response response) <? 200)
        eqn:Hthin; simpl in *; [ | discriminate ].
      rewrite Hlt. simpl. eexists. split; [ reflexivity | ]. split; [ reflexivity | ].
      now rewrite sleeps_emit_log, sleeps_ask, app_nil_r.
  - rewrite Hlast. simpl. eexists. split; [ reflexivity | ]. split; [ reflexivity | ].
    now rewrite sleeps_emit_sleep, sleeps_emit_log, sleeps_ask.
Qed.

(** The last attempt: a raised call or a short response ends the run with
    the terminal error; a cleaned text that is only too short is returned. *)
Lemma robust_attempt_last (w : world) :
  is_good (robust_outcome e game_spec (asks w)) = false ->
  exists w',
    run (body 2) e w =
      (match robust_outcome e game_spec (asks w) with
       | Thin html => Ok (Return html)
       | _ => Raise (Exception "Failed to generate game after 3 attempts")
       end, w')
    /\ asks w' = S (asks w)
    /\ sleeps w' = sleeps w.
Proof.
  intros Hfail. unfold robust_outcome in *.
  unfold RobustGameGeneratorAction.attempt_body.
  rewrite run_try, run_bind, run_aask.
  destruct (llm e (asks w) (RobustGamePrompt game_spec)) as [response | x]; simpl.
  - destruct (String.eqb response EmptyString || _) eqn:Hshort; simpl.
    + eexists. split; [ reflexivity | ]. split; [ reflexivity | ].
      now rewrite !sleeps_emit_log, sleeps_ask.
    + destruct (String.length (RobustCodeCleaner.clean_html_response response) <? 200)
        eqn:Hthin; simpl in *; [ | discriminate ].
      eexists. split; [ reflexivity | ]. split; [ reflexivity | ].
      now rewrite sleeps_emit_log, sleeps_ask.
  - eexists. split; [ reflexivity | ]. split; [ reflexivity | ].
    now rewrite !sleeps_emit_log, sleeps_ask.
Qed.

Lemma robust_exhausted (w : world) :
  let n := asks w in
  is_good (robust_outcome e game_spec n) = false ->
  is_good (robust_outcome e game_spec (S n)) = false ->
  is_good (robust_outcome e game_spec (S (S n))) = false ->
  exists w',
    run (RobustGameGeneratorAction.run game_spec) e w =
      (match robust_outcome e game_spec (S (S n)) with
       | Thin html => Ok html
       | _ => Raise (Exception "Failed to generate game after 3 attempts")
       end, w')
    /\ asks w' = 3 + n
    /\ sleeps w' = sleeps w
                   ++ delay_after (gen_raised (robust_outcome e game_spec n))
                   ++ delay_after (gen_raised (robust_outcome e game_spec (S n))).
Proof.
  intros n H0 H1 H2. subst n.
  unfold RobustGameGeneratorAction.run. rewrite attempts_three, !for_attempts_cons.
  destruct (robust_attempt_retry 0 w H0) as (w1 & R1 & A1 & S1); [ lia | ].
  rewrite <- A1 in H1.
  destruct (robust_attempt_retry 1 w1 H1) as (w2 & R2 & A2 & S2); [ lia | ].
  rewrite A1 in *. rewrite <- A2 in H2.
  destruct (robust_attempt_last w2 H2) as (w3 & R3 & A3 & S3).
  rewrite A2 in *.
  rewrite (run_bind_ok _ _ _ _ _ _ R1). rewrite (run_bind_ok _ _ _ _ _ _ R2).
  rewrite run_bind, R3.
  exists w3. split.
  - destruct (robust_outcome e game_spec (S (S (asks w)))); reflexivity.
  - split; [ lia | ]. rewrite S3, S2, S1. now rewrite <- app_assoc.
Qed.

End RobustRetry.

(** C3, as the code has it.  When every attempt fails, the analysis and
    the robust game generator each call the model exactly three times.  A
    delay of one second follows a failed attempt only when that attempt
    raised an exception and was not the last.  The analysis then ends in
    a terminal error: [Failed to analyze content after 3 attempts] when
    the third attempt raised, [All content analysis attempts failed] when
    its result was rejected by the validator.  The robust generator ends
    in [Failed to generate game after 3 attempts] when the third attempt
    raised or answered too short, and hands back the cleaned text when
    that text is the only thing too short. *)
Theorem retries_exhausted (e : env) (content : string) (game_spec : dict) (w : world) :
  let n := asks w in
  let a := RetryFacts.analysis_outcome e content in
  let g := RetryFacts.robust_outcome e game_spec in
  (a n <> RetryFacts.Succeeds -> a (S n) <> RetryFacts.Succeeds ->
   a (S (S n)) <> RetryFacts.Succeeds ->
   exists w',
     run (AdaptiveContentAnalyzer.run content) e w =
       (Raise (Exception
                 (if RetryFacts.raised (a (S (S n)))
                  then "Failed to analyze content after 3 attempts"
                  else "All content analysis attempts failed")), w')
     /\ asks w' = 3 + n
     /\ sleeps w' = sleeps w ++ RetryFacts.delay_after (RetryFacts.raised (a n))
                             ++ RetryFacts.delay_after (RetryFacts.raised (a (S n))))
  /\
  (RetryFacts.is_good (g n) = false -> RetryFacts.is_good (g (S n)) = false ->
   RetryFacts.is_good (g (S (S n))) = false ->
   exists w',
     run (RobustGameGeneratorAction.run game_spec) e w =
       (match g (S (S n)) with
        | RetryFacts.Thin html => Ok html
        | _ => Raise (Exception "Failed to generate game after 3 attempts")
        end, w')
     /\ asks w' = 3 + n
     /\ sleeps w' = sleeps w ++ RetryFacts.delay_after (RetryFacts.gen_raised (g n))
                             ++ RetryFacts.delay_after (RetryFacts.gen_raised (g (S n)))).
Proof.
  intros n a g. split.
  - apply analysis_exhausted.
  - apply robust_exhausted.
Qed.

(** A run of [retries_exhausted]: the model is unreachable, so every
    attempt of the analysis raises; three calls, a delay after the first
    and after the second, and the error that names the attempt count. *)
Lemma retries_exhausted_offline :
  exists w',
    run (AdaptiveContentAnalyzer.run "text") Scenario.env_offline world0 =
      (Raise (Exception "Failed to analyze content after 3 attempts"), w')
    /\ asks w' = 3
    /\ sleeps w' = [Sleep 1; Sleep 1].
Proof.
  refine (proj1 (retries_exhausted Scenario.env_offline "text" [] world0) _ _ _);
    vm_compute; discriminate.
Defined.

(** C3 as stated fails when the attempts fail validation: the model
    answers [{}] three times, no delay separates the attempts, and the
    terminal error does not give the attempt count. *)
Lemma rejected_analyses_are_not_delayed :
  exists w',
    run (AdaptiveContentAnalyzer.run "text") Scenario.env_empty_object world0 =
      (Raise (Exception "All content analysis attempts failed"), w')
    /\ asks w' = 3
    /\ sleeps w' = [].
Proof.
  eexists. vm_compute. repeat split.
Qed.

(** ** What the game generator hands back *)

Section EnhancedRun.
Import RetryFacts.
Context (fallback : dict -> M string) (e : env) (game_spec : dict) (p : prompt).

Local Abbreviation body := (enhanced_attempt fallback game_spec p).

(** An attempt that returns: the text is the cleaned response of a long
    enough answer, of full length unless the attempt is the last, or it
    is what the fallback call produced after a short last answer. *)
Lemma enhanced_attempt_returns (k : nat) (w w' : world) (html : string) :
  run (body k) e w = (Ok (Return html), w') ->
  match enhanced_outcome e p (asks w) with
  | Good h => html = h
  | Thin h => html = h /\ 2 <= k
  | Short => 2 <= k /\ exists w2 w3, run (fallback game_spec) e w2 = (Ok html, w3)
  | Fails => False
  end.
Proof.
  unfold enhanced_outcome, enhanced_attempt.
  rewrite run_try, run_bind, run_aask.
  destruct (llm e (asks w) p) as [response | x]; simpl.
  - destruct (String.eqb response EmptyString || _) eqn:Hshort; simpl.
    + destruct (k <? 2) eqn:Hk; simpl; [ discriminate | ].
      apply Nat.ltb_ge in Hk.
      destruct (run (fallback game_spec) e _) as [[f | x] w3] eqn:Hf; simpl.
      * intros [= <- <-]. split; [ assumption | eauto ].
      * destruct (k =? 2); simpl; discriminate.
    + destruct (String.length (FixedCodeCleaner.clean_html_response response) <? 200)
        eqn:Hthin; simpl.
      * destruct (k <? 2) eqn:Hk; simpl; [ discriminate | ].
        apply Nat.ltb_ge in Hk. intros [= <- <-]. now split.
      * now intros [= <- <-].
  - destruct (k =? 2); simpl; discriminate.
Qed.

(** An attempt before the last that does not return: one call was made. *)
Lemma enhanced_attempt_continues (k : nat) (w w' : world) :
  k < 2 ->
  run (body k) e w = (Ok Continue, w') ->
  asks w' = S (asks w) /\ is_good (enhanced_outcome e p (asks w)) = false.
Proof.
  intros Hk. apply Nat.ltb_lt in Hk.
  unfold enhanced_outcome, enhanced_attempt.
  rewrite run_try, run_bind, run_aask.
  destruct (llm e (asks w) p) as [response | x]; simpl.
  - destruct (String.eqb response EmptyString || _) eqn:Hshort; simpl.
    + rewrite Hk. simpl. now intros [= <-].
    + destruct (String.length (FixedCodeCleaner.clean_html_response response) <? 200)
        eqn:Hthin; simpl.
      * rewrite Hk. simpl. now intros [= <-].
      * discriminate.
  - destruct (k =? 2); simpl; [ discriminate | ]. now intros [= <-].
Qed.

(** An attempt whose answer passes both length bars returns its
    cleaned text, whatever the attempt's number. *)
Lemma enhanced_attempt_good (k : nat) (w : world) (html : string) :
  enhanced_outcome e p (asks w) = Good html ->
  exists w', run (body k) e w = (Ok (Return html), w') /\ asks w' = S (asks w).
Proof.
  unfold enhanced_outcome, enhanced_attempt.
  rewrite run_try, run_bind, run_aask.
  destruct (llm e (asks w) p) as [response | x]; simpl; [ | discriminate ].
  destruct (String.eqb response EmptyString || _) eqn:Hshort; simpl; [ discriminate | ].
  destruct (String.length (FixedCodeCleaner.clean_html_response response) <? 200)
    eqn:Hthin; simpl; [ discriminate | ].
  intros [= <-]. eexists. split; reflexivity.
Qed.

(** An attempt before the last that fails a bar goes on to the next,
    without calling the fallback. *)
Lemma enhanced_attempt_again (k : nat) (w : world) :
  is_good (enhanced_outcome e p (asks w)) = false ->
  k < 2 ->
  exists w', run (body k) e w = (Ok Continue, w') /\ asks w' = S (asks w).
Proof.
  intros Hfail Hk. unfold enhanced_outcome in Hfail. unfold enhanced_attempt.
  rewrite run_try, run_bind, run_aask.
  assert (Hlast : (k =? 2) = false) by (apply Nat.eqb_neq; lia).
  assert (Hlt : (k <? 2) = true) by (apply Nat.ltb_lt; lia).
  destruct (llm e (asks w) p) as [response | x]; simpl.
  - destruct (String.eqb response EmptyString || _) eqn:Hshort; simpl.
    + rewrite Hlt. simpl. eexists. split; reflexivity.
    + destruct (String.length (FixedCodeCleaner.clean_html_response response) <? 200)
        eqn:Hthin; simpl in *; [ | discriminate ].
      rewrite Hlt. simpl. eexists. split; reflexivity.
  - rewrite Hlast. simpl. eexists. split; reflexivity.
Qed.

(** The last attempt returns a cleaned text that is only too short. *)
Lemma enhanced_attempt_thin_last (w : world) (html : string) :
  enhanced_outcome e p (asks w) = Thin html ->
  exists w', run (body 2) e w = (Ok (Return html), w') /\ asks w' = S (asks w).
Proof.
  unfold enhanced_outcome, enhanced_attempt.
  rewrite run_try, run_bind, run_aask.
  destruct (llm e (asks w) p) as [response | x]; simpl; [ | discriminate ].
  destruct (String.eqb response EmptyString || _) eqn:Hshort; simpl; [ discriminate | ].
  destruct (String.length (FixedCodeCleaner.clean_html_response response) <? 200)
    eqn:Hthin; simpl; [ | discriminate ].
  intros [= <-]. eexists. split; reflexivity.
Qed.

End EnhancedRun.

Section EnhancedRunReturns.
Context (fallback : dict -> M string) (e : env) (game_spec : dict)
        (total_games : json) (game_position : nat).

Local Abbreviation p := (EnhancedGamePrompt game_spec total_games game_position).
Local Abbreviation o := (RetryFacts.enhanced_outcome e p).

(** The first answer that passes both bars is returned at once. *)
Lemma enhanced_first_good (w : world) (k : nat) (html : string) :
  k < 3 ->
  (forall j, j < k -> RetryFacts.is_good (o (asks w + j)) = false) ->
  o (asks w + k) = RetryFacts.Good html ->
  exists w',
    run (enhanced_run fallback game_spec total_games game_position) e w = (Ok html, w')
    /\ asks w' = asks w + k + 1.
Proof.
  intros Hk Hfail Hgood. unfold enhanced_run. rewrite attempts_three.
  destruct k as [ | [ | [ | k]]]; [ | | | lia ].
  - rewrite Nat.add_0_r in *.
    destruct (enhanced_attempt_good fallback e game_spec p 0 w html Hgood) as (w1 & R & A).
    exists w1. split; [ | lia ].
    now rewrite for_attempts_cons, (run_bind_ok _ _ _ _ _ _ R).
  - pose proof (Hfail 0 ltac:(lia)) as H0. rewrite Nat.add_0_r in H0.
    destruct (enhanced_attempt_again fallback e game_spec p 0 w H0) as (w1 & R1 & A1);
      [ lia | ].
    replace (asks w + 1) with (asks w1) in * by lia.
    destruct (enhanced_attempt_good fallback e game_spec p 1 w1 html Hgood) as (w2 & R & A).
    exists w2. split; [ | lia ].
    rewrite for_attempts_cons, (run_bind_ok _ _ _ _ _ _ R1).
    now rewrite for_attempts_cons, (run_bind_ok _ _ _ _ _ _ R).
  - pose proof (Hfail 0 ltac:(lia)) as H0. rewrite Nat.add_0_r in H0.
    pose proof (Hfail 1 ltac:(lia)) as H1.
    destruct (enhanced_attempt_again fallback e game_spec p 0 w H0) as (w1 & R1 & A1);
      [ lia | ].
    replace (asks w + 1) with (asks w1) in * by lia.
    destruct (enhanced_attempt_again fallback e game_spec p 1 w1 H1) as (w2 & R2 & A2);
      [ lia | ].
    replace (asks w + 2) with (asks w2) in * by lia.
    destruct (enhanced_attempt_good fallback e game_spec p 2 w2 html Hgood) as (w3 & R & A).
    exists w3. split; [ | lia ].
    rewrite for_attempts_cons, (run_bind_ok _ _ _ _ _ _ R1).
    rewrite for_attempts_cons, (run_bind_ok _ _ _ _ _ _ R2).
    now rewrite for_attempts_cons, (run_bind_ok _ _ _ _ _ _ R).
Qed.

(** After two failed attempts, a third answer whose cleaned text is
    only too short is returned as it is. *)
Lemma enhanced_thin_third (w : world) (html : string) :
  RetryFacts.is_good (o (asks w)) = false ->
  RetryFacts.is_good (o (asks w + 1)) = false ->
  o (asks w + 2) = RetryFacts.Thin html ->
  exists w',
    run (enhanced_run fallback game_spec total_games game_position) e w = (Ok html, w')
    /\ asks w' = asks w + 3.
Proof.
  intros H0 H1 H2. unfold enhanced_run. rewrite attempts_three.
  destruct (enhanced_attempt_again fallback e game_spec p 0 w H0) as (w1 & R1 & A1);
    [ lia | ].
  replace (asks w + 1) with (asks w1) in * by lia.
  destruct (enhanced_attempt_again fallback e game_spec p 1 w1 H1) as (w2 & R2 & A2);
    [ lia | ].
  replace (asks w + 2) with (asks w2) in * by lia.
  destruct (enhanced_attempt_thin_last fallback e game_spec p w2 html H2) as (w3 & R & A).
  exists w3. split; [ | lia ].
  rewrite for_attempts_cons, (run_bind_ok _ _ _ _ _ _ R1).
  rewrite for_attempts_cons, (run_bind_ok _ _ _ _ _ _ R2).
  now rewrite for_attempts_cons, (run_bind_ok _ _ _ _ _ _ R).
Qed.

End EnhancedRunReturns.

(** Whatever the run returns comes from one of its three attempts, all
    earlier attempts having failed a bar. *)
Lemma enhanced_run_sound (fallback : dict -> M string) (e : env)
        (game_spec : dict) (total_games : json) (game_position : nat)
        (w w' : world) (html : string) :
  run (enhanced_run fallback game_spec total_games game_position) e w = (Ok html, w') ->
  let o := RetryFacts.enhanced_outcome e
             (EnhancedGamePrompt game_spec total_games game_position) in
  exists k, k < 3
    /\ (forall j, j < k -> RetryFacts.is_good (o (asks w + j)) = false)
    /\ match o (asks w + k) with
       | RetryFacts.Good h => html = h /\ 200 <= String.length html
       | RetryFacts.Thin h => html = h /\ k = 2
       | RetryFacts.Short =>
           k = 2 /\ exists w2 w3, run (fallback game_spec) e w2 = (Ok html, w3)
       | RetryFacts.Fails => False
       end.
Proof.
  intros Hrun o.
  assert (Hgood : forall n h, o n = RetryFacts.Good h -> 200 <= String.length h).
  { intros n h. unfold o, RetryFacts.enhanced_outcome.
    destruct (llm e n _); [ | discriminate ].
    destruct (String.eqb _ _ || _); [ discriminate | ].
    destruct (String.length _ <? 200) eqn:Hlen; [ discriminate | ].
    intros [= <-]. now apply Nat.ltb_ge in Hlen. }
  unfold enhanced_run in Hrun. rewrite attempts_three, !for_attempts_cons in Hrun.
  set (p := EnhancedGamePrompt game_spec total_games game_position) in *.
  rewrite run_bind in Hrun.
  destruct (run (enhanced_attempt fallback game_spec p 0) e w)
    as [[[h0 | ] | x0] w1] eqn:R0; [ | | discriminate ].
  { (* the first attempt returned *)
    rewrite run_ret in Hrun. injection Hrun as <- <-.
    apply enhanced_attempt_returns in R0.
    exists 0. rewrite Nat.add_0_r. split; [ lia | ]. split; [ intros j Hj; lia | ].
    fold o in R0. destruct (o (asks w)) eqn:Ho; try tauto; try lia.
    split; [ assumption | ]. subst. eauto. }
  apply enhanced_attempt_continues in R0 as [A1 G0]; [ | lia ].
  rewrite run_bind in Hrun.
  destruct (run (enhanced_attempt fallback game_spec p 1) e w1)
    as [[[h1 | ] | x1] w2] eqn:R1; [ | | discriminate ].
  { (* the second attempt returned *)
    rewrite run_ret in Hrun. injection Hrun as <- <-.
    apply enhanced_attempt_returns in R1. rewrite A1 in R1.
    exists 1. replace (asks w + 1) with (S (asks w)) by lia.
    split; [ lia | ]. split.
    - intros j Hj. assert (j = 0) as -> by lia. now rewrite Nat.add_0_r.
    - fold o in R1. destruct (o (S (asks w))) eqn:Ho; try tauto; try lia.
      split; [ assumption | ]. subst. eauto. }
  apply enhanced_attempt_continues in R1 as [A2 G1]; [ | lia ].
  rewrite A1 in *.
  rewrite run_bind in Hrun.
  destruct (run (enhanced_attempt fallback game_spec p 2) e w2)
    as [[[h2 | ] | x2] w3] eqn:R2; [ | discriminate | discriminate ].
  rewrite run_ret in Hrun. injection Hrun as <- <-.
  apply enhanced_attempt_returns in R2. rewrite A2 in R2.
  exists 2. replace (asks w + 2) with (S (S (asks w))) by lia.
  split; [ lia | ]. split.
  - intros j Hj. destruct j as [ | [ | j]]; [ | | lia ].
    + now rewrite Nat.add_0_r.
    + now replace (asks w + 1) with (S (asks w)) by lia.
  - fold o in R2. destruct (o (S (S (asks w)))) eqn:Ho; try tauto.
    split; [ assumption | ]. subst. eauto.
Qed.


(** C6, as the code has it.  [EnhancedGameGenerator.run] hands back the
    cleaned text of an attempt only if the answer is non-empty and at
    least 100 characters long once trimmed.  On the first and on the
    second attempt the cleaned text must also be at least 200 characters
    long; on the third attempt a cleaned text under 200 characters is
    returned as it is.  In full: whatever the run returns comes from one
    of its three attempts, all earlier attempts having failed a bar (or
    is what the fallback call produced after a short third answer); the
    first answer that passes both bars is returned at once, with as many
    calls as attempts; and after two failed attempts a third answer
    whose cleaned text is only too short is returned, with three
    calls. *)
Theorem enhanced_run_returns (fallback : dict -> M string) (e : env)
        (game_spec : dict) (total_games : json) (game_position : nat) (w : world) :
  let o := RetryFacts.enhanced_outcome e
             (EnhancedGamePrompt game_spec total_games game_position) in
  let generator := enhanced_run fallback game_spec total_games game_position in
  (forall html w',
      run generator e w = (Ok html, w') ->
      exists k, k < 3
        /\ (forall j, j < k -> RetryFacts.is_good (o (asks w + j)) = false)
        /\ match o (asks w + k) with
           | RetryFacts.Good h => html = h /\ 200 <= String.length html
           | RetryFacts.Thin h => html = h /\ k = 2
           | RetryFacts.Short =>
               k = 2 /\ exists w2 w3, run (fallback game_spec) e w2 = (Ok html, w3)
           | RetryFacts.Fails => False
           end)
  /\ (forall k html,
        k < 3 ->
        (forall j, j < k -> RetryFacts.is_good (o (asks w + j)) = false) ->
        o (asks w + k) = RetryFacts.Good html ->
        exists w', run generator e w = (Ok html, w') /\ asks w' = asks w + k + 1)
  /\ (forall html,
        RetryFacts.is_good (o (asks w)) = false ->
        RetryFacts.is_good (o (asks w + 1)) = false ->
        o (asks w + 2) = RetryFacts.Thin html ->
        exists w', run generator e w = (Ok html, w') /\ asks w' = asks w + 3).
Proof.
  intros o generator. split; [ | split ].
  - intros html w'. apply enhanced_run_sound.
  - intros k html. apply enhanced_first_good.
  - intros html. apply enhanced_thin_third.
Qed.

(** Runs of [enhanced_run_returns].  The model answers with 240
    letters: the first attempt returns them.  The model answers with
    120 letters every time: the third attempt returns them. *)
Lemma enhanced_run_returns_full_page :
  (exists k, k < 3
     /\ (forall j, j < k ->
         RetryFacts.is_good
           (RetryFacts.enhanced_outcome Scenario.env_full
              (EnhancedGamePrompt [] (JInt 3) 1) (0 + j)) = false)
     /\ match RetryFacts.enhanced_outcome Scenario.env_full
                (EnhancedGamePrompt [] (JInt 3) 1) (0 + k) with
        | RetryFacts.Good h =>
            Scenario.full_page = h /\ 200 <= String.length Scenario.full_page
        | RetryFacts.Thin h => Scenario.full_page = h /\ k = 2
        | RetryFacts.Short =>
            k = 2 /\ exists w2 w3,
              run (missing_fallback []) Scenario.env_full w2 = (Ok Scenario.full_page, w3)
        | RetryFacts.Fails => False
        end)
  /\ (exists w',
        run (enhanced_run missing_fallback [] (JInt 3) 1) Scenario.env_full world0
          = (Ok Scenario.full_page, w')
        /\ asks w' = 0 + 0 + 1)
  /\ (exists w',
        run (enhanced_run missing_fallback [] (JInt 3) 1) Scenario.env_thin world0
          = (Ok Scenario.thin_page, w')
        /\ asks w' = 0 + 3).
Proof.
  split; [ | split ].
  - apply (proj1 (enhanced_run_returns missing_fallback Scenario.env_full [] (JInt 3) 1 world0)
             Scenario.full_page
             (snd (run (enhanced_run missing_fallback [] (JInt 3) 1)
                     Scenario.env_full world0))).
    vm_compute. reflexivity.
  - apply (proj1 (proj2 (enhanced_run_returns missing_fallback Scenario.env_full [] (JInt 3) 1
                           world0)) 0 Scenario.full_page).
    + lia.
    + intros j Hj. lia.
    + vm_compute. reflexivity.
  - apply (proj2 (proj2 (enhanced_run_returns missing_fallback Scenario.env_thin [] (JInt 3) 1
                           world0)) Scenario.thin_page);
      vm_compute; reflexivity.
Defined.

(** C6 as stated fails on the last attempt: the model answers with 120
    letters three times, and the third answer is returned although its
    cleaned text has 120 characters, not 200. *)
Lemma thin_page_is_returned :
  exists w',
    run (enhanced_run missing_fallback [] (JInt 3) 1) Scenario.env_thin world0
      = (Ok Scenario.thin_page, w')
    /\ asks w' = 3
    /\ FixedCodeCleaner.clean_html_response Scenario.thin_page = Scenario.thin_page
    /\ String.length Scenario.thin_page = 120.
Proof.
  eexists. vm_compute. repeat split.
Qed.

Section MissingFallback.
Import RetryFacts.
Context (e : env) (game_spec : dict) (p : prompt).

Local Abbreviation body := (enhanced_attempt missing_fallback game_spec p).

Lemma enhanced_attempt_retry (k : nat) (w : world) :
  is_good (enhanced_outcome e p (asks w)) = false ->
  k < 2 ->
  exists w', run (body k) e w = (Ok Continue, w') /\ asks w' = S (asks w).
Proof.
  intros Hfail Hk. unfold enhanced_outcome in Hfail. unfold enhanced_attempt.
  rewrite run_try, run_bind, run_aask.
  assert (Hlast : (k =? 2) = false) by (apply Nat.eqb_neq; lia).
  assert (Hlt : (k <? 2) = true) by (apply Nat.ltb_lt; lia).
  destruct (llm e (asks w) p) as [response | x]; simpl.
  - destruct (String.eqb response EmptyString || _) eqn:Hshort; simpl.
    + rewrite Hlt. simpl. eexists. split; reflexivity.
    + destruct (String.length (FixedCodeCleaner.clean_html_response response) <? 200)
        eqn:Hthin; simpl in *; [ | discriminate ].
      rewrite Hlt. simpl. eexists. split; reflexivity.
  - rewrite Hlast. simpl. eexists. split; reflexivity.
Qed.

Lemma enhanced_attempt_short_last (w : world) :
  enhanced_outcome e p (asks w) = Short ->
  exists w',
    run (body 2) e w = (Raise (Exception "Failed to generate game after 3 attempts"), w').
Proof.
  unfold enhanced_outcome, enhanced_attempt.
  rewrite run_try, run_bind, run_aask.
  destruct (llm e (asks w) p) as [response | x]; simpl; [ | discriminate ].
  destruct (String.eqb response EmptyString || _) eqn:Hshort; simpl.
  - intros _. eexists. reflexivity.
  - destruct (String.length _ <? 200); discriminate.
Qed.

End MissingFallback.

(** With the class as it is written, a third answer that is empty or
    under 100 characters does not lead to a fallback page: the call of
    [_create_enhanced_fallback] raises, the handler of the same [try]
    catches it, and the run ends in the terminal error. *)
Theorem short_third_answer_raises (e : env) (game_spec : dict) (total_games : json)
        (game_position : nat) (w : world) :
  let o := RetryFacts.enhanced_outcome e
             (EnhancedGamePrompt game_spec total_games game_position) in
  RetryFacts.is_good (o (asks w)) = false ->
  RetryFacts.is_good (o (S (asks w))) = false ->
  o (S (S (asks w))) = RetryFacts.Short ->
  exists w',
    run (enhanced_run missing_fallback game_spec total_games game_position) e w
      = (Raise (Exception "Failed to generate game after 3 attempts"), w').
Proof.
  intros o H0 H1 H2. unfold enhanced_run.
  rewrite attempts_three, !for_attempts_cons.
  destruct (enhanced_attempt_retry e game_spec _ 0 w H0) as (w1 & R1 & A1); [ lia | ].
  unfold o in H1. rewrite <- A1 in H1.
  destruct (enhanced_attempt_retry e game_spec _ 1 w1 H1) as (w2 & R2 & A2); [ lia | ].
  unfold o in H2. rewrite A1 in A2. rewrite <- A2 in H2.
  destruct (enhanced_attempt_short_last e game_spec _ w2 H2) as (w3 & R3).
  rewrite (run_bind_ok _ _ _ _ _ _ R1), (run_bind_ok _ _ _ _ _ _ R2).
  rewrite run_bind, R3. eauto.
Qed.

(** A run of [short_third_answer_raises]: the model answers with three
    letters every time. *)
Lemma short_third_answer_raises_run :
  exists w',
    run (enhanced_run missing_fallback [] (JInt 3) 1) Scenario.env_short world0
      = (Raise (Exception "Failed to generate game after 3 attempts"), w').
Proof.
  apply (short_third_answer_raises Scenario.env_short [] (JInt 3) 1 world0);
    vm_compute; reflexivity.
Defined.

(** ** Input that is too short *)

Section ShortInput.

Lemma nonspace_le_lstrip (s : string) :
  Claimed.nonspace_count (PyStr.lstrip s) = Claimed.nonspace_count s.
Proof.
  unfold Claimed.nonspace_count.
  induction s as [ | c s IH]; simpl; [ reflexivity | ].
  destruct (PyChar.isspace c) eqn:Hc; simpl; [ assumption | ].
  now rewrite Hc.
Qed.

Lemma filter_length_le (p : ascii -> bool) (s : string) :
  String.length (PyStr.filter p s) <= String.length s.
Proof.
  induction s as [ | c s IH]; simpl; [ lia | ].
  destruct (p c); simpl; lia.
Qed.

Lemma nonspace_rstrip (s : string) :
  Claimed.nonspace_count (PyStr.rstrip s) = Claimed.nonspace_count s.
Proof.
  unfold Claimed.nonspace_count. f_equal.
  induction s as [ | c s IH]; simpl; [ reflexivity | ].
  destruct (PyStr.rstrip s) as [ | c' r] eqn:Hr.
  - simpl in IH. rewrite <- IH.
    destruct (PyChar.isspace c) eqn:Hc; simpl; [ reflexivity | now rewrite Hc ].
  - rewrite <- IH. simpl. reflexivity.
Qed.

(** Trimming removes blanks only, so a text has at most as many
    non-whitespace characters as its trimmed form has characters. *)
Lemma nonspace_le_strip (s : string) :
  Claimed.nonspace_count s <= String.length (PyStr.strip s).
Proof.
  unfold PyStr.strip.
  rewrite <- (nonspace_le_lstrip s), <- (nonspace_rstrip (PyStr.lstrip s)).
  apply filter_length_le.
Qed.

End ShortInput.

(** C8, as the code has it.  When the input file holds a text whose
    length after trimming is below 50 characters (so it has fewer than 50
    non-whitespace characters), the run logs the error and returns at
    once: the model is not called, nothing is retried, no delay is taken,
    and no file or directory is written. *)
Theorem short_input_is_rejected (fallback : dict -> M string) (e : env)
        (content_file output_dir content : string) (w : world) :
  read_text e content_file = Ok content ->
  String.length (PyStr.strip content) < 50 ->
  Claimed.nonspace_count content < 50
  /\ run (generate_adaptive_games fallback content_file output_dir) e w =
       (Ok tt,
        {| asks := asks w;
           opens := opens w;
           trace := trace w ++ [ Log INFO "Starting adaptive game generation" [];
                                 Log INFO "Stage 1: Loading content" [];
                                 Log ERROR "Content too short for analysis" [] ];
           fs := fs w |}).
Proof.
  intros Hread Hshort. split.
  - pose proof (nonspace_le_strip content). lia.
  - unfold generate_adaptive_games.
    rewrite run_bind, run_log, run_try, run_bind, run_log, run_bind.
    unfold read_file at 1. simpl run at 1. rewrite Hread.
    apply Nat.ltb_lt in Hshort. rewrite Hshort. rewrite run_log.
    unfold emit. simpl. now rewrite <- !app_assoc.
Qed.

(** A run of [short_input_is_rejected]: the input file holds the word
    [short]. *)
Lemma short_input_is_rejected_run :
  run (generate_adaptive_games missing_fallback "extract.txt" "adaptive_games")
      Scenario.env_short_input world0 =
    (Ok tt,
     {| asks := 0; opens := 0;
        trace := [ Log INFO "Starting adaptive game generation" [];
                   Log INFO "Stage 1: Loading content" [];
                   Log ERROR "Content too short for analysis" [] ];
        fs := ∅ |}).
Proof.
  refine (proj2 (short_input_is_rejected missing_fallback Scenario.env_short_input
                   "extract.txt" "adaptive_games" "short" world0 _ _)).
  - reflexivity.
  - vm_compute. lia.
Defined.

(** C8 as stated fails on a text with few characters spread wide: two
    letters with 48 blanks between them count 50 characters after
    trimming, so the run goes on to the analysis and calls the model,
    three times. *)
Lemma sparse_input_reaches_the_model :
  Claimed.nonspace_count Scenario.sparse_text = 2
  /\ String.length (PyStr.strip Scenario.sparse_text) = 50
  /\ exists w',
       run (generate_adaptive_games missing_fallback "extract.txt" "adaptive_games")
           Scenario.env_sparse world0 = (Ok tt, w')
       /\ asks w' = 3
       /\ List.filter Scenario.is_ask (trace w')
          = [ Ask (AnalysisPrompt Scenario.sparse_text);
              Ask (AnalysisPrompt Scenario.sparse_text);
              Ask (AnalysisPrompt Scenario.sparse_text) ].
Proof.
  split; [ vm_compute; reflexivity | ].
  split; [ vm_compute; reflexivity | ].
  eexists. vm_compute. repeat split.
Qed.

(** ** Partial failure *)

Section GamesLoop.
Context (one_game : nat -> dict -> M dict) (total : json) (e : env).



End GamesLoop.

Section RobustDriver.
Context (e : env) (json_file output_dir : string).


End RobustDriver.

Section AdaptiveDriver.
Context (fallback : dict -> M string) (e : env).











End AdaptiveDriver.

Section FailuresAreLogged.

Lemma monotone_enhanced_run (fallback : dict -> M string) (game_spec : dict)
      (total_games : json) (game_position : nat) :
  (forall spec, monotone (fallback spec)) ->
  monotone (enhanced_run fallback game_spec total_games game_position).
Proof.
  intros Hf. unfold enhanced_run, enhanced_attempt. monotone_steps.
Qed.

Lemma monotone_adaptive_game (fallback : dict -> M string) (output_dir : string)
      (optimal : json) (i : nat) (game_spec : dict) :
  (forall spec, monotone (fallback spec)) ->
  monotone (adaptive_game fallback output_dir optimal i game_spec).
Proof.
  intros Hf. unfold adaptive_game.
  apply monotone_bind; [ now apply monotone_enhanced_run | intros ].
  monotone_steps.
Qed.

Lemma monotone_robust_game (output_dir : string) (i : nat) (game_spec : dict) :
  monotone (RobustGameGenerator.robust_game output_dir i game_spec).
Proof.
  unfold RobustGameGenerator.robust_game, RobustGameGeneratorAction.run,
    RobustGameGeneratorAction.attempt_body.
  monotone_steps.
Qed.

Lemma monotone_missing_fallback (spec : dict) : monotone (missing_fallback spec).
Proof. apply monotone_raise. Qed.

Context (one_game : nat -> dict -> M dict) (total : json) (e : env).
Hypothesis one_game_monotone : forall i spec, monotone (one_game i spec).



End FailuresAreLogged.




(** ** Validation results without a verdict *)

Section SaveGames.
Context (e : env) (output_dir : string).

Lemma monotone_save_one (result : json) (acc : list dict) :
  monotone (MultiAgent.save_one output_dir result acc).
Proof. unfold MultiAgent.save_one. monotone_steps. Qed.

(** Saving never drops an entry already collected. *)
Lemma save_one_keeps (result : json) (acc games : list dict) (w w' : world) :
  run (MultiAgent.save_one output_dir result acc) e w = (Ok games, w') ->
  exists more, games = acc ++ more.
Proof.
  unfold MultiAgent.save_one.
  repeat lift_step.
  destruct (Py.truthy _).
  - repeat lift_step.
    rewrite run_bind.
    match goal with
    | |- context [ run (write_json ?path ?data) e w ] =>
        destruct (run (write_json path data) e w) as [[[] | x] w1]; [ | discriminate ]
    end.
    repeat lift_step.
    rewrite run_bind, run_log, run_ret. intros [= <- <-]. eauto.
  - rewrite run_ret. intros [= <- <-]. exists []. now rewrite app_nil_r.
Qed.

(** A result without a verdict goes down the saving branch: when the
    step raises nothing, the page was written and the entry appended. *)
Lemma save_one_without_verdict (result : json) (acc games : list dict) (w w' : world) :
  lacks_verdict result ->
  run (MultiAgent.save_one output_dir result acc) e w = (Ok games, w') ->
  exists entry, games = acc ++ [entry]
    /\ saved_and_listed output_dir result [entry] (trace w').
Proof.
  intros (item & validation & -> & Hval & Hkey).
  unfold MultiAgent.save_one.
  rewrite run_bind, run_lift. cbn [Fmt.get_method].
  rewrite run_bind, run_lift. cbn [Fmt.get_method]. rewrite Hval.
  rewrite run_bind, run_lift. cbn [Fmt.get_method]. unfold Py.get at 1. rewrite Hkey.
  cbn [Py.truthy].
  destruct (Py.get item "game_data" (JDict [])) as [ | | | | | | game_data ] eqn:Hdata;
    try (rewrite run_bind, run_lift; discriminate).
  rewrite run_bind, run_lift. cbn [Fmt.get_method].
  rewrite run_bind, run_lift. cbn [Fmt.get_method].
  rewrite run_bind, run_lift.
  destruct (Fmt.safe_title_of _) as [safe_title | x]; [ | discriminate ].
  rewrite run_bind, run_lift. cbn [Fmt.get_method].
  rewrite run_bind, run_lift.
  destruct (Fmt.format_02d _) as [formatted | x]; [ | discriminate ].
  rewrite run_bind, run_lift. cbn [Fmt.get_method].
  rewrite run_bind.
  destruct (Py.get game_data "html" (JStr EmptyString)) as [ | | | | html | | ] eqn:Hhtml;
    try (unfold write_json; rewrite run_bind, run_write_file;
         destruct (open_ok e (opens w) _); discriminate).
  unfold write_json. rewrite run_write_file.
  destruct (open_ok e (opens w) _); [ | discriminate ].
  rewrite run_bind, run_lift. cbn [Fmt.get_method].
  rewrite run_bind, run_lift. cbn [Fmt.get_method].
  rewrite run_bind, run_log, run_ret.
  intros [= <- <-]. eexists. split; [ reflexivity | ].
  exists item, game_data. do 3 eexists.
  split; [ reflexivity | ]. split; [ exact Hdata | ]. split; [ exact Hhtml | ].
  split; [ now left | ]. split; [ reflexivity | ]. split; [ reflexivity | ].
  unfold emit. simpl. apply in_or_app. left. apply in_or_app. right. now left.
Qed.

Lemma saved_and_listed_later (result : json) (games games' : list dict)
      (w w' : world) :
  saved_and_listed output_dir result games (trace w) ->
  (forall entry, In entry games -> In entry games') ->
  extends w w' ->
  saved_and_listed output_dir result games' (trace w').
Proof.
  intros (item & game_data & entry & filename & html & H1 & H2 & H3 & H4 & H5 & H6 & H7)
         Hsub Hext.
  exists item, game_data, entry, filename, html.
  repeat (split; [ assumption | ]).
  split; [ now apply Hsub | ]. repeat (split; [ assumption | ]).
  eapply extends_In; eassumption.
Qed.

(** The loop over the results: when it raises nothing, every result
    without a verdict is saved and listed. *)
Lemma save_loop_lists (results : list json) (acc games : list dict) (w w' : world) :
  run (MultiAgent.save_loop output_dir results acc) e w = (Ok games, w') ->
  extends w w'
  /\ (exists more, games = acc ++ more)
  /\ forall result, In result results -> lacks_verdict result ->
       saved_and_listed output_dir result games (trace w').
Proof.
  revert acc w. induction results as [ | result results IH]; intros acc w.
  - simpl. intros [= <- <-]. split; [ apply extends_refl | ].
    split; [ exists []; now rewrite app_nil_r | intros ? [] ].
  - cbn [MultiAgent.save_loop]. rewrite run_bind.
    pose proof (monotone_save_one result acc e w) as Hmono.
    destruct (run (MultiAgent.save_one output_dir result acc) e w) as [[acc1 | x] w1] eqn:Hone;
      [ | discriminate ].
    simpl in Hmono. intros Hloop.
    destruct (IH _ _ Hloop) as (Hext & (more & ->) & Hrest).
    destruct (save_one_keeps _ _ _ _ _ Hone) as (more1 & ->).
    split; [ eapply extends_trans; eassumption | ].
    split; [ exists (more1 ++ more); now rewrite app_assoc | ].
    intros r [<- | Hin] Hlacks; [ | now apply Hrest ].
    destruct (save_one_without_verdict _ _ _ _ _ Hlacks Hone) as (entry & Heq & Hsaved).
    eapply saved_and_listed_later; [ exact Hsaved | | exact Hext ].
    intros entry' [<- | []]. rewrite Heq. apply in_or_app. left. apply in_or_app.
    right. now left.
Qed.

End SaveGames.

(** C10.  In the save step of the multi-agent variant a game whose
    validation result has no [passes_validation] field is treated as
    having passed: whenever the step runs through without an exception,
    the game's page is written to its file and its entry is on the index
    page.  A validation answer that does not parse as JSON is such a
    result, because [parse_json_response] then returns an object with
    the two fields [error] and [raw_response] only. *)
Theorem missing_verdict_is_saved :
  (forall (e : env) (rsp : string) (w : world) (msg : string),
      json_loads e (MultiAgent.json_text_of rsp) = Raise (Exn "JSONDecodeError" msg) ->
      exists fallback,
        run (MultiAgent.parse_json_response rsp) e w = (Ok (JDict fallback), w)
        /\ List.map fst fallback = ["error"; "raw_response"]
        /\ Py.lookup "passes_validation" fallback = None)
  /\ (forall (e : env) (results_json output_dir : string) (w w2 : world)
             (items : list json) (games : list dict),
        json_loads e results_json = Ok (JList items) ->
        mkdir_ok e output_dir = true ->
        run (MultiAgent.save_loop output_dir items []) e (emit (Mkdir output_dir) w)
          = (Ok games, w2) ->
        open_ok e (opens w2) (Fmt.path_join output_dir "index.html") = true ->
        exists w',
          run (MultiAgent._save_games results_json output_dir) e w = (Ok tt, w')
          /\ In (Written (Fmt.path_join output_dir "index.html") (IndexPage games))
                (trace w')
          /\ forall result, In result items -> lacks_verdict result ->
               saved_and_listed output_dir result games (trace w')).
Proof.
  split.
  - intros e rsp w msg Hloads. eexists.
    unfold MultiAgent.parse_json_response. rewrite run_try, run_loads, Hloads.
    simpl. repeat split.
  - intros e results_json output_dir w w2 items games Hloads Hmkdir Hloop Hopen.
    unfold MultiAgent._save_games.
    rewrite run_try, run_bind, run_loads, Hloads.
    rewrite run_bind, run_mkdir, Hmkdir.
    rewrite run_bind, run_lift. cbn [Fmt.iter_items].
    rewrite run_bind, Hloop.
    unfold MultiAgent._create_index. rewrite run_bind, run_write_file, Hopen, run_log.
    eexists. split; [ reflexivity | ].
    destruct (save_loop_lists _ _ _ _ _ _ _ Hloop) as (Hext & _ & Hall).
    split.
    + unfold emit. simpl. apply in_or_app. left. apply in_or_app. right. now left.
    + intros result Hin Hlacks.
      destruct (Hall result Hin Hlacks)
        as (item & game_data & entry & filename & html & H1 & H2 & H3 & H4 & H5 & H6 & H7).
      exists item, game_data, entry, filename, html.
      repeat (split; [ assumption | ]).
      unfold emit. simpl. apply in_or_app. left. apply in_or_app. now left.
Qed.

(** A run of [missing_verdict_is_saved]: of two results the first has the
    error object as its validation and the second was rejected.  The
    first is saved as [game_01_Shapes.html] and is the one entry of the
    index page. *)
Lemma unparsed_validation_run :
  let entry : dict :=
    [ ("title", JStr "Shapes"); ("filename", JStr "game_01_Shapes.html");
      ("validation_score", JInt 0) ] in
  exists w',
    run (MultiAgent._save_games "RESULTS" "out") Scenario.env_results world0 = (Ok tt, w')
    /\ In (Written "out/index.html" (IndexPage [entry])) (trace w')
    /\ In (Written "out/game_01_Shapes.html" (Text "<html><body>Shapes</body></html>"))
          (trace w').
Proof.
  intros entry.
  destruct (proj2 missing_verdict_is_saved Scenario.env_results "RESULTS" "out" world0
              (snd (run (MultiAgent.save_loop "out"
                           [Scenario.unparsed_result; Scenario.rejected_result] [])
                        Scenario.env_results (emit (Mkdir "out") world0)))
              [Scenario.unparsed_result; Scenario.rejected_result] [entry])
    as (w' & Hrun & Hindex & Hsaved); try reflexivity.
  exists w'. split; [ exact Hrun | ]. split; [ exact Hindex | ].
  destruct (Hsaved Scenario.unparsed_result) as
    (item & game_data & entry' & filename & html & H1 & H2 & H3 & H4 & H5 & H6 & H7).
  - now left.
  - eexists _, _. split; [ reflexivity | ]. split; reflexivity.
  - injection H1 as <-. vm_compute in H2. injection H2 as <-.
    vm_compute in H3. injection H3 as <-.
    destruct H4 as [<- | []]. vm_compute in H5. injection H5 as <-.
    exact H7.
Defined.

(** * Further properties of the code *)

(** ** [_format_html] *)

Section FormatNormalForm.
Import Lines.

Lemma filter_app (p : ascii -> bool) (a b : string) :
  PyStr.filter p (a +:+ b) = PyStr.filter p a +:+ PyStr.filter p b.
Proof.
  induction a as [ | x a IH]; [ reflexivity | ].
  rewrite append_cons. simpl. destruct (p x); [ | exact IH ].
  now rewrite append_cons, IH.
Qed.

Lemma filter_nonspace_blank (s : string) :
  blank s -> PyStr.filter nonspace s = EmptyString.
Proof.
  unfold blank, nonspace. induction s as [ | c s IH]; simpl; [ reflexivity | ].
  intros H. apply andb_prop in H as [Hc Hs]. rewrite Hc. simpl. now apply IH.
Qed.

Lemma filter_nonspace_rstrip (s : string) :
  PyStr.filter nonspace (PyStr.rstrip s) = PyStr.filter nonspace s.
Proof.
  destruct (rstrip_prefix s) as (ws & Hws & Heq).
  rewrite Heq at 2. rewrite filter_app, (filter_nonspace_blank ws Hws).
  now rewrite append_nil_r.
Qed.

Lemma filter_tail_text (ls : list string) :
  PyStr.filter nonspace (tail_text ls) = solid_text ls.
Proof.
  induction ls as [ | l ls IH]; [ reflexivity | ].
  cbn [tail_text solid_text]. simpl PyStr.filter.
  now rewrite filter_app, IH.
Qed.

Lemma filter_join_lines (ls : list string) :
  PyStr.filter nonspace (PyStr.join_lines ls) = solid_text ls.
Proof.
  destruct ls as [ | l ls]; [ reflexivity | ].
  rewrite join_tail, filter_app, filter_tail_text. reflexivity.
Qed.

Lemma solid_text_kept (ls : list string) : solid_text (kept ls) = solid_text ls.
Proof.
  induction ls as [ | l ls IH]; [ reflexivity | ].
  unfold kept in *. cbn [List.filter].
  destruct (String.eqb (PyStr.strip l) EmptyString) eqn:Hl; cbn [negb List.map solid_text].
  - apply String.eqb_eq, strip_empty_iff_blank in Hl.
    rewrite (filter_nonspace_blank l Hl), append_nil_l. exact IH.
  - now rewrite filter_nonspace_rstrip, IH.
Qed.

End FormatNormalForm.

(** X2.  [_format_html] gives a normal form: formatting its output again
    changes nothing, the output has no blanks at its end, and unless it
    is empty each of its lines is non-blank and free of trailing
    blanks. *)
Theorem format_html_normal_form (html : string) :
  let out := FixedCodeCleaner._format_html html in
  FixedCodeCleaner._format_html out = out
  /\ PyStr.rstrip out = out
  /\ (out = EmptyString \/ Forall Lines.tidy (PyStr.split_lines out)).
Proof.
  intros out. split; [ apply format_html_idempotent | ].
  split; [ apply format_html_rstrip | ].
  subst out. unfold FixedCodeCleaner._format_html.
  change (List.map PyStr.rstrip (List.filter _ (PyStr.split_lines html)))
    with (Lines.kept (PyStr.split_lines html)).
  pose proof (kept_tidy _ (split_lines_one_line html)) as Htidy.
  destruct (Lines.kept (PyStr.split_lines html)) as [ | l ls]; [ now left | ].
  right. rewrite split_join; [ assumption | discriminate | now apply tidy_one_line ].
Qed.

(** X3.  [_format_html] removes blanks only: the non-blank characters of
    the text come out unchanged and in the same order. *)
Theorem format_html_keeps_solid_text (html : string) :
  PyStr.filter nonspace (FixedCodeCleaner._format_html html)
  = PyStr.filter nonspace html.
Proof.
  rewrite <- (join_split html) at 2.
  unfold FixedCodeCleaner._format_html.
  change (List.map PyStr.rstrip (List.filter _ (PyStr.split_lines html)))
    with (Lines.kept (PyStr.split_lines html)).
  now rewrite !filter_join_lines, solid_text_kept.
Qed.

(** ** What the analysis returns *)

Section AnalyzerSuccess.
Import RetryFacts AnalyzerPure.
Context (e : env) (content : string).

Local Abbreviation body := (AdaptiveContentAnalyzer.attempt_body (AnalysisPrompt content)).

(** What passed the validator is what the specification accepts. *)
Lemma validated_accepts (data : json) :
  _validate_analysis data = true -> spec_accepts data.
Proof.
  destruct data as [ | b | v | f | s | l | d ];
    try (unfold _validate_analysis, validate_try; simpl; discriminate).
  - unfold _validate_analysis, validate_try. simpl.
    destruct (PyStr.contains _ s); simpl; [ | discriminate ].
    destruct (PyStr.contains _ s); simpl; discriminate.
  - unfold _validate_analysis, validate_try. simpl.
    destruct (existsb _ l); simpl; [ | discriminate ].
    destruct (existsb _ l); simpl; discriminate.
  - intros H. apply validate_dict_unfold in H
      as (analysis & games & declared & n & Ha & Hg & Hc & Hd & Hlo & Hhi & Hn & Hne).
    assert (Hsec : section analysis "optimal_game_count" declared).
    { destruct analysis; simpl in Hd; try discriminate.
      destruct (Py.lookup _ _) eqn:Hl in Hd; [ | discriminate ].
      injection Hd as <-. now apply section_lookup. }
    apply int_ne_false_denotes in Hne.
    destruct (range_of_denotes _ _ Hne) as [Hlo' Hhi'].
    rewrite Hlo' in Hlo. rewrite Hhi' in Hhi.
    injection Hlo as Hlo. injection Hhi as Hhi.
    apply Z.leb_le in Hlo, Hhi.
    exists analysis, games, declared, n.
    repeat split; try (now apply section_lookup); try assumption.
    now apply len_has_length.
Qed.

(** An attempt whose answer parses and passes the validator returns it,
    whatever the attempt's number. *)
Lemma analysis_attempt_succeeds (k : nat) (w : world) :
  analysis_outcome e content (asks w) = Succeeds ->
  exists response data w',
    llm e (asks w) (AnalysisPrompt content) = Ok response
    /\ json_loads e (_clean_json_response response) = Ok data
    /\ _validate_analysis data = true
    /\ run (body k) e w = (Ok (Return data), w')
    /\ asks w' = S (asks w)
    /\ sleeps w' = sleeps w.
Proof.
  unfold analysis_outcome. unfold AdaptiveContentAnalyzer.attempt_body.
  rewrite run_try, run_bind, run_aask.
  destruct (llm e (asks w) (AnalysisPrompt content)) as [response | x];
    [ | discriminate ].
  cbv beta iota. rewrite run_bind, run_loads.
  destruct (json_loads e _) as [data | x] eqn:Hloads; [ | discriminate ].
  cbv beta iota.
  destruct (_validate_analysis data) eqn:Hv; [ | discriminate ].
  intros _. exists response, data.
  destruct data as [ | | | | | | d ];
    try (unfold _validate_analysis, validate_try in Hv; simpl in Hv;
         repeat (match type of Hv with
                 | context [ if ?b then _ else _ ] => destruct b; simpl in Hv
                 end); discriminate).
  destruct (validate_dict_unfold d Hv)
    as (analysis & games & declared & n & Ha & Hg & Hc & Hd & _).
  rewrite run_bind, run_lift. simpl Py.getitem. rewrite Ha. cbv beta iota.
  rewrite run_bind, run_lift, Hd. cbv beta iota.
  rewrite run_bind, run_log. cbv beta iota. rewrite run_ret.
  eexists. split; [ reflexivity | ]. split; [ assumption | ].
  split; [ assumption | ]. split; [ reflexivity | ]. split; [ reflexivity | ].
  now rewrite sleeps_emit_log, sleeps_ask.
Qed.

Lemma analysis_first_valid (w : world) (k : nat) :
  k < 3 ->
  (forall j, j < k -> analysis_outcome e content (asks w + j) <> Succeeds) ->
  analysis_outcome e content (asks w + k) = Succeeds ->
  exists response data w',
    llm e (asks w + k) (AnalysisPrompt content) = Ok response
    /\ json_loads e (_clean_json_response response) = Ok data
    /\ _validate_analysis data = true
    /\ run (AdaptiveContentAnalyzer.run content) e w = (Ok data, w')
    /\ asks w' = asks w + k + 1
    /\ sleeps w' = sleeps w ++ delays_before e content (asks w) k.
Proof.
  intros Hk Hfail Hgood.
  unfold AdaptiveContentAnalyzer.run. rewrite attempts_three.
  destruct k as [ | [ | [ | k]]]; [ | | | lia ].
  - rewrite Nat.add_0_r in *.
    destruct (analysis_attempt_succeeds 0 w Hgood)
      as (response & data & w1 & Hl & Hj & Hv & R & A & S).
    exists response, data, w1. repeat split; try assumption.
    + now rewrite for_attempts_cons, (run_bind_ok _ _ _ _ _ _ R).
    + lia.
    + unfold delays_before. simpl. now rewrite app_nil_r.
  - pose proof (Hfail 0 ltac:(lia)) as H0. rewrite Nat.add_0_r in H0.
    destruct (analysis_attempt_retry e content 0 w H0) as (w1 & R1 & A1 & S1); [ lia | ].
    replace (asks w + 1) with (asks w1) in * by lia.
    destruct (analysis_attempt_succeeds 1 w1 Hgood)
      as (response & data & w2 & Hl & Hj & Hv & R & A & S).
    exists response, data, w2. repeat split; try assumption.
    + rewrite for_attempts_cons, (run_bind_ok _ _ _ _ _ _ R1).
      now rewrite for_attempts_cons, (run_bind_ok _ _ _ _ _ _ R).
    + lia.
    + unfold delays_before. simpl. rewrite Nat.add_0_r, app_nil_r. congruence.
  - pose proof (Hfail 0 ltac:(lia)) as H0. rewrite Nat.add_0_r in H0.
    pose proof (Hfail 1 ltac:(lia)) as H1.
    destruct (analysis_attempt_retry e content 0 w H0) as (w1 & R1 & A1 & S1); [ lia | ].
    replace (asks w + 1) with (asks w1) in * by lia.
    destruct (analysis_attempt_retry e content 1 w1 H1) as (w2 & R2 & A2 & S2); [ lia | ].
    replace (asks w + 2) with (asks w2) in * by lia.
    destruct (analysis_attempt_succeeds 2 w2 Hgood)
      as (response & data & w3 & Hl & Hj & Hv & R & A & S).
    exists response, data, w3. repeat split; try assumption.
    + rewrite for_attempts_cons, (run_bind_ok _ _ _ _ _ _ R1).
      rewrite for_attempts_cons, (run_bind_ok _ _ _ _ _ _ R2).
      now rewrite for_attempts_cons, (run_bind_ok _ _ _ _ _ _ R).
    + lia.
    + unfold delays_before. simpl. rewrite Nat.add_0_r, app_nil_r.
      replace (asks w + 1) with (asks w1) by lia.
      rewrite S, S2, S1. now rewrite <- app_assoc.
Qed.

(** Which attempt comes first with a valid answer, if any. *)
Lemma first_valid_or_none (n : nat) :
  (exists k, k < 3
             /\ (forall j, j < k -> analysis_outcome e content (n + j) <> Succeeds)
             /\ analysis_outcome e content (n + k) = Succeeds)
  \/ (analysis_outcome e content n <> Succeeds
      /\ analysis_outcome e content (S n) <> Succeeds
      /\ analysis_outcome e content (S (S n)) <> Succeeds).
Proof.
  assert (Hdec : forall o : outcome, o = Succeeds \/ o <> Succeeds)
    by (intros []; [ now left | now right | now right ]).
  destruct (Hdec (analysis_outcome e content n)) as [H0 | H0].
  { left. exists 0. rewrite Nat.add_0_r. repeat split; [ lia | lia | assumption ]. }
  destruct (Hdec (analysis_outcome e content (S n))) as [H1 | H1].
  { left. exists 1. replace (n + 1) with (S n) by lia.
    repeat split; [ lia | | assumption ].
    intros j Hj. replace (n + j) with n by lia. assumption. }
  destruct (Hdec (analysis_outcome e content (S (S n)))) as [H2 | H2].
  { left. exists 2. replace (n + 2) with (S (S n)) by lia.
    repeat split; [ lia | | assumption ].
    intros j Hj. destruct j as [ | [ | j]]; [ | | lia ].
    - now rewrite Nat.add_0_r.
    - now replace (n + 1) with (S n) by lia. }
  right. tauto.
Qed.

End AnalyzerSuccess.

(** X4.  Whatever [AdaptiveContentAnalyzer.run] returns has passed the
    validator: it is the parsed answer of one of at most three model
    calls, it has a content analysis whose declared game count lies
    between 3 and 15, and it has as many game specifications as
    declared. *)
Theorem analysis_result_is_validated (e : env) (content : string)
        (w w' : world) (data : json) :
  run (AdaptiveContentAnalyzer.run content) e w = (Ok data, w') ->
  AnalyzerPure.spec_accepts data
  /\ exists k response,
       k < 3
       /\ llm e (asks w + k) (AnalysisPrompt content) = Ok response
       /\ json_loads e (AnalyzerPure._clean_json_response response) = Ok data
       /\ asks w' = asks w + k + 1.
Proof.
  intros Hrun.
  destruct (first_valid_or_none e content (asks w)) as [(k & Hk & Hfail & Hgood) | (H0 & H1 & H2)].
  - destruct (analysis_first_valid e content w k Hk Hfail Hgood)
      as (response & data' & w1 & Hl & Hj & Hv & R & A & _).
    rewrite R in Hrun. injection Hrun as -> ->.
    split; [ now apply validated_accepts | ].
    exists k, response. tauto.
  - destruct (analysis_exhausted e content w H0 H1 H2) as (w1 & R & _).
    rewrite R in Hrun. discriminate.
Qed.

(** A run of [analysis_result_is_validated]: the model answers with a
    plan of four games. *)
Lemma analysis_result_is_validated_run :
  AnalyzerPure.spec_accepts (JDict Scenario.four_game_analysis)
  /\ exists k response,
       k < 3
       /\ llm Cases.env_second_plan (0 + k) (AnalysisPrompt "text") = Ok response
       /\ json_loads Cases.env_second_plan (AnalyzerPure._clean_json_response response)
          = Ok (JDict Scenario.four_game_analysis)
       /\ 2 = 0 + k + 1.
Proof.
  refine (analysis_result_is_validated Cases.env_second_plan "text" world0
            {| asks := 2; opens := 0; trace := _; fs := ∅ |}
            (JDict Scenario.four_game_analysis) _).
  vm_compute. reflexivity.
Defined.

(** X5.  [AdaptiveContentAnalyzer.run] returns the first answer that
    parses and passes the validator: when that is the answer of attempt
    [k + 1], the run makes [k + 1] calls, and its only delays are the
    one-second delays after those earlier attempts that raised. *)
Theorem analysis_returns_first_valid (e : env) (content : string) (w : world) (k : nat) :
  k < 3 ->
  (forall j, j < k ->
     RetryFacts.analysis_outcome e content (asks w + j) <> RetryFacts.Succeeds) ->
  RetryFacts.analysis_outcome e content (asks w + k) = RetryFacts.Succeeds ->
  exists response data w',
    llm e (asks w + k) (AnalysisPrompt content) = Ok response
    /\ json_loads e (AnalyzerPure._clean_json_response response) = Ok data
    /\ AnalyzerPure._validate_analysis data = true
    /\ run (AdaptiveContentAnalyzer.run content) e w = (Ok data, w')
    /\ asks w' = asks w + k + 1
    /\ sleeps w' = sleeps w ++ delays_before e content (asks w) k.
Proof. apply analysis_first_valid. Qed.

(** A run of [analysis_returns_first_valid]: the first answer is [{}],
    which the validator rejects, the second is a plan of four games. *)
Lemma analysis_returns_first_valid_run :
  exists response data w',
    llm Cases.env_second_plan (0 + 1) (AnalysisPrompt "text") = Ok response
    /\ json_loads Cases.env_second_plan (AnalyzerPure._clean_json_response response) = Ok data
    /\ AnalyzerPure._validate_analysis data = true
    /\ run (AdaptiveContentAnalyzer.run "text") Cases.env_second_plan world0 = (Ok data, w')
    /\ asks w' = 0 + 1 + 1
    /\ sleeps w' = sleeps world0 ++ delays_before Cases.env_second_plan "text" 0 1.
Proof.
  apply (analysis_returns_first_valid Cases.env_second_plan "text" world0 1).
  - lia.
  - intros [ | j] Hj; [ vm_compute; discriminate | lia ].
  - vm_compute. reflexivity.
Defined.

(** ** What the game generators return *)

Section RobustSuccess.
Import RetryFacts.
Context (e : env) (game_spec : dict).

Local Abbreviation body := (RobustGameGeneratorAction.attempt_body (RobustGamePrompt game_spec)).
Local Abbreviation o := (robust_outcome e game_spec).

Lemma robust_attempt_good (k : nat) (w : world) (html : string) :
  o (asks w) = Good html ->
  exists w',
    run (body k) e w = (Ok (Return html), w')
    /\ asks w' = S (asks w)
    /\ sleeps w' = sleeps w.
Proof.
  unfold robust_outcome, RobustGameGeneratorAction.attempt_body.
  rewrite run_try, run_bind, run_aask.
  destruct (llm e (asks w) (RobustGamePrompt game_spec)) as [response | x]; simpl;
    [ | discriminate ].
  destruct (String.eqb response EmptyString || _) eqn:Hshort; simpl; [ discriminate | ].
  destruct (String.length (RobustCodeCleaner.clean_html_response response) <? 200)
    eqn:Hthin; simpl; [ discriminate | ].
  intros [= <-]. eexists. split; [ reflexivity | ]. split; [ reflexivity | ].
  now rewrite sleeps_ask.
Qed.

Lemma robust_good_length (n : nat) (html : string) :
  o n = Good html -> 200 <= String.length html.
Proof.
  unfold robust_outcome. destruct (llm e n _); [ | discriminate ].
  destruct (String.eqb _ _ || _); [ discriminate | ].
  destruct (String.length _ <? 200) eqn:Hlen; [ discriminate | ].
  intros [= <-]. now apply Nat.ltb_ge in Hlen.
Qed.

Lemma robust_first_good (w : world) (k : nat) (html : string) :
  k < 3 ->
  (forall j, j < k -> is_good (o (asks w + j)) = false) ->
  o (asks w + k) = Good html ->
  exists w',
    run (RobustGameGeneratorAction.run game_spec) e w = (Ok html, w')
    /\ asks w' = asks w + k + 1
    /\ sleeps w' = sleeps w ++ gen_delays_before o (asks w) k.
Proof.
  intros Hk Hfail Hgood.
  unfold RobustGameGeneratorAction.run. rewrite attempts_three.
  destruct k as [ | [ | [ | k]]]; [ | | | lia ].
  - rewrite Nat.add_0_r in *.
    destruct (robust_attempt_good 0 w html Hgood) as (w1 & R & A & S).
    exists w1. repeat split.
    + now rewrite for_attempts_cons, (run_bind_ok _ _ _ _ _ _ R).
    + lia.
    + unfold gen_delays_before. simpl. now rewrite app_nil_r.
  - pose proof (Hfail 0 ltac:(lia)) as H0. rewrite Nat.add_0_r in H0.
    destruct (robust_attempt_retry e game_spec 0 w H0) as (w1 & R1 & A1 & S1); [ lia | ].
    replace (asks w + 1) with (asks w1) in * by lia.
    destruct (robust_attempt_good 1 w1 html Hgood) as (w2 & R & A & S).
    exists w2. repeat split.
    + rewrite for_attempts_cons, (run_bind_ok _ _ _ _ _ _ R1).
      now rewrite for_attempts_cons, (run_bind_ok _ _ _ _ _ _ R).
    + lia.
    + unfold gen_delays_before. simpl. rewrite Nat.add_0_r, app_nil_r. congruence.
  - pose proof (Hfail 0 ltac:(lia)) as H0. rewrite Nat.add_0_r in H0.
    pose proof (Hfail 1 ltac:(lia)) as H1.
    destruct (robust_attempt_retry e game_spec 0 w H0) as (w1 & R1 & A1 & S1); [ lia | ].
    replace (asks w + 1) with (asks w1) in * by lia.
    destruct (robust_attempt_retry e game_spec 1 w1 H1) as (w2 & R2 & A2 & S2); [ lia | ].
    replace (asks w + 2) with (asks w2) in * by lia.
    destruct (robust_attempt_good 2 w2 html Hgood) as (w3 & R & A & S).
    exists w3. repeat split.
    + rewrite for_attempts_cons, (run_bind_ok _ _ _ _ _ _ R1).
      rewrite for_attempts_cons, (run_bind_ok _ _ _ _ _ _ R2).
      now rewrite for_attempts_cons, (run_bind_ok _ _ _ _ _ _ R).
    + lia.
    + unfold gen_delays_before. simpl. rewrite Nat.add_0_r, app_nil_r.
      replace (asks w + 1) with (asks w1) by lia.
      rewrite S, S2, S1. now rewrite <- app_assoc.
Qed.

End RobustSuccess.

(** Which attempt comes first with an adequate answer, if any. *)
Lemma first_good_or_none (o : nat -> RetryFacts.gen_outcome) (n : nat) :
  (exists k html, k < 3
     /\ (forall j, j < k -> RetryFacts.is_good (o (n + j)) = false)
     /\ o (n + k) = RetryFacts.Good html)
  \/ (RetryFacts.is_good (o n) = false
      /\ RetryFacts.is_good (o (S n)) = false
      /\ RetryFacts.is_good (o (S (S n))) = false).
Proof.
  assert (Hdec : forall x : RetryFacts.gen_outcome,
             (exists html, x = RetryFacts.Good html) \/ RetryFacts.is_good x = false).
  { intros [html | html | | ]; [ left; now exists html | now right .. ]. }
  destruct (Hdec (o n)) as [[h H0] | H0].
  { left. exists 0, h. rewrite Nat.add_0_r. repeat split; [ lia | lia | assumption ]. }
  destruct (Hdec (o (S n))) as [[h H1] | H1].
  { left. exists 1, h. replace (n + 1) with (S n) by lia.
    repeat split; [ lia | | assumption ].
    intros j Hj. replace (n + j) with n by lia. assumption. }
  destruct (Hdec (o (S (S n)))) as [[h H2] | H2].
  { left. exists 2, h. replace (n + 2) with (S (S n)) by lia.
    repeat split; [ lia | | assumption ].
    intros j Hj. destruct j as [ | [ | j]]; [ | | lia ].
    - now rewrite Nat.add_0_r.
    - now replace (n + 1) with (S n) by lia. }
  right. tauto.
Qed.

(** X6.  [RobustGameGeneratorAction.run] returns the cleaned text of the
    first answer that is at least 100 characters long once trimmed and
    at least 200 once cleaned: when that is the answer of attempt
    [k + 1], the run makes [k + 1] calls, and its only delays are the
    one-second delays after those earlier attempts that raised. *)
Theorem robust_returns_first_good (e : env) (game_spec : dict) (w : world)
        (k : nat) (html : string) :
  let o := RetryFacts.robust_outcome e game_spec in
  k < 3 ->
  (forall j, j < k -> RetryFacts.is_good (o (asks w + j)) = false) ->
  o (asks w + k) = RetryFacts.Good html ->
  exists w',
    run (RobustGameGeneratorAction.run game_spec) e w = (Ok html, w')
    /\ asks w' = asks w + k + 1
    /\ sleeps w' = sleeps w ++ gen_delays_before o (asks w) k.
Proof. intros o. apply robust_first_good. Qed.

(** A run of [robust_returns_first_good]: the first answer has three
    letters, the second 240. *)
Lemma robust_returns_first_good_run :
  exists w',
    run (RobustGameGeneratorAction.run []) Cases.env_second_full world0
      = (Ok Scenario.full_page, w')
    /\ asks w' = 0 + 1 + 1
    /\ sleeps w' = sleeps world0
                   ++ gen_delays_before (RetryFacts.robust_outcome Cases.env_second_full [])
                        0 1.
Proof.
  apply (robust_returns_first_good Cases.env_second_full [] world0 1 Scenario.full_page).
  - lia.
  - intros [ | j] Hj; [ vm_compute; reflexivity | lia ].
  - vm_compute. reflexivity.
Defined.

(** X7.  Whatever [RobustGameGeneratorAction.run] returns is the cleaned
    text of an answer that was non-empty and at least 100 characters
    long once trimmed, all earlier attempts having failed the bar: of at
    least 200 characters when it comes from the first or second attempt,
    of any length when it comes from the third.  The count of calls is
    the number of that attempt. *)
Theorem robust_run_returns (e : env) (game_spec : dict) (w w' : world) (html : string) :
  run (RobustGameGeneratorAction.run game_spec) e w = (Ok html, w') ->
  let o := RetryFacts.robust_outcome e game_spec in
  exists k, k < 3
    /\ (forall j, j < k -> RetryFacts.is_good (o (asks w + j)) = false)
    /\ match o (asks w + k) with
       | RetryFacts.Good h => html = h /\ 200 <= String.length html
       | RetryFacts.Thin h => html = h /\ k = 2
       | _ => False
       end
    /\ asks w' = asks w + k + 1.
Proof.
  intros Hrun o.
  destruct (first_good_or_none o (asks w)) as [(k & h & Hk & Hfail & Hgood) | (H0 & H1 & H2)].
  - destruct (robust_first_good e game_spec w k h Hk Hfail Hgood) as (w1 & R & A & _).
    rewrite R in Hrun. injection Hrun as <- <-.
    exists k. repeat split; try assumption.
    rewrite Hgood. split; [ reflexivity | ].
    now apply (robust_good_length e game_spec (asks w + k)).
  - destruct (robust_exhausted e game_spec w H0 H1 H2) as (w1 & R & A & _).
    rewrite R in Hrun.
    exists 2. replace (asks w + 2) with (S (S (asks w))) by lia.
    split; [ lia | ]. split.
    { intros j Hj. destruct j as [ | [ | j]]; [ | | lia ].
      - now rewrite Nat.add_0_r.
      - now replace (asks w + 1) with (S (asks w)) by lia. }
    fold o in Hrun. destruct (o (S (S (asks w)))) eqn:Ho; try discriminate.
    injection Hrun as <- <-. split; [ now split | lia ].
Qed.

(** A run of [robust_run_returns]: the model answers with 120 letters
    every time, and the third attempt hands them back. *)
Lemma robust_run_returns_thin_page :
  exists k, k < 3
    /\ (forall j, j < k ->
          RetryFacts.is_good (RetryFacts.robust_outcome Scenario.env_thin [] (0 + j)) = false)
    /\ match RetryFacts.robust_outcome Scenario.env_thin [] (0 + k) with
       | RetryFacts.Good h => Scenario.thin_page = h /\ 200 <= String.length Scenario.thin_page
       | RetryFacts.Thin h => Scenario.thin_page = h /\ k = 2
       | _ => False
       end
    /\ 3 = 0 + k + 1.
Proof.
  refine (robust_run_returns Scenario.env_thin [] world0
            {| asks := 3; opens := 0; trace := _; fs := ∅ |} Scenario.thin_page _).
  vm_compute. reflexivity.
Defined.

(** ** Computations that leave the files alone *)

Lemma same_files_refl (w : world) : same_files w w.
Proof. now repeat split. Qed.

Lemma same_files_trans (w1 w2 w3 : world) :
  same_files w1 w2 -> same_files w2 w3 -> same_files w1 w3.
Proof.
  intros (F1 & O1 & E1) (F2 & O2 & E2). repeat split; congruence.
Qed.

Lemma same_files_emit (ev : event) (w : world) :
  is_file_event ev = false -> same_files w (emit ev w).
Proof.
  intros Hev. repeat split. unfold file_events, emit. simpl.
  rewrite List.filter_app. simpl. rewrite Hev. apply app_nil_r.
Qed.

Lemma hands_off_ret {A} (a : A) : hands_off (mret a).
Proof. intros e w. apply same_files_refl. Qed.

Lemma hands_off_raise {A} (x : exn) : hands_off (raise x : M A).
Proof. intros e w. apply same_files_refl. Qed.

Lemma hands_off_lift {A} (r : result A) : hands_off (lift r).
Proof. intros e w. apply same_files_refl. Qed.

Lemma hands_off_log (lv : level) (msg : string) (args : list json) :
  hands_off (log lv msg args).
Proof. intros e w. now apply same_files_emit. Qed.

Lemma hands_off_sleep (n : nat) : hands_off (sleep n).
Proof. intros e w. now apply same_files_emit. Qed.

Lemma hands_off_aask (p : prompt) : hands_off (aask p).
Proof.
  intros e w. repeat split. unfold file_events. simpl.
  rewrite List.filter_app. simpl. apply app_nil_r.
Qed.

Lemma hands_off_loads (s : string) : hands_off (loads s).
Proof. intros e w. apply same_files_refl. Qed.

Lemma hands_off_read_file (path : string) : hands_off (read_file path).
Proof. intros e w. apply same_files_refl. Qed.

Lemma hands_off_bind {A B} (m : M A) (f : A -> M B) :
  hands_off m -> (forall a, hands_off (f a)) -> hands_off (m ≫= f).
Proof.
  intros Hm Hf e w. rewrite run_bind. specialize (Hm e w).
  destruct (run m e w) as [[a | x] w1]; simpl in *; [ | assumption ].
  eapply same_files_trans; [ eassumption | apply Hf ].
Qed.

Lemma hands_off_try {A} (body : M A) (handler : exn -> M A) :
  hands_off body -> (forall x, hands_off (handler x)) -> hands_off (try_except body handler).
Proof.
  intros Hm Hf e w. rewrite run_try. specialize (Hm e w).
  destruct (run body e w) as [[a | x] w1]; simpl in *; [ assumption | ].
  eapply same_files_trans; [ eassumption | apply Hf ].
Qed.

Lemma hands_off_for_attempts {A} (body : nat -> M (step A)) (ks : list nat) (after : M A) :
  (forall k, hands_off (body k)) -> hands_off after -> hands_off (for_attempts body ks after).
Proof.
  intros Hb Ha. induction ks as [ | k ks IH]; [ exact Ha | ].
  rewrite for_attempts_cons. apply hands_off_bind; [ apply Hb | ].
  intros [a | ]; [ apply hands_off_ret | exact IH ].
Qed.

Create HintDb hands_off.
#[export] Hint Resolve hands_off_ret hands_off_raise hands_off_lift hands_off_log
  hands_off_sleep hands_off_aask hands_off_loads hands_off_read_file : hands_off.

Ltac hands_off_steps :=
  repeat first
    [ progress auto with hands_off
    | apply hands_off_bind; [ | intros ]
    | apply hands_off_try; [ | intros ]
    | apply hands_off_for_attempts; [ intros | ]
    | match goal with
      | |- hands_off (if ?b then _ else _) => destruct b
      | |- hands_off (match ?x with _ => _ end) => destruct x
      end ].

(** The analysis and the robust generator talk to the model and to the
    log only. *)
Lemma hands_off_analysis (content : string) :
  hands_off (AdaptiveContentAnalyzer.run content).
Proof.
  unfold AdaptiveContentAnalyzer.run, AdaptiveContentAnalyzer.attempt_body.
  hands_off_steps.
Qed.

Lemma hands_off_robust_run (game_spec : dict) :
  hands_off (RobustGameGeneratorAction.run game_spec).
Proof.
  unfold RobustGameGeneratorAction.run, RobustGameGeneratorAction.attempt_body.
  hands_off_steps.
Qed.

(** ** The drivers at their edges *)

Section AdaptiveEdges.
Import RetryFacts.
Context (fallback : dict -> M string) (e : env) (content_file output_dir : string).

Lemma at_analysis_files (w : world) : same_files w (at_analysis w).
Proof.
  unfold at_analysis.
  repeat (eapply same_files_trans; [ | now apply same_files_emit ]).
  apply same_files_refl.
Qed.

Lemma adaptive_reaches_analysis (w : world) (content : string) :
  read_text e content_file = Ok content ->
  50 <= String.length (PyStr.strip content) ->
  run (generate_adaptive_games fallback content_file output_dir) e w =
  match run (AdaptiveContentAnalyzer.run content) e (at_analysis w) with
  | (Raise x, w') =>
      (Ok tt, emit (Log ERROR "Critical error in adaptive system: {}" [JStr (exn_msg x)]) w')
  | (Ok analysis, w') =>
      run (try_except
             (content_analysis ← lift (Py.getitem analysis "content_analysis");
              optimal_games ← lift (Py.getitem content_analysis "optimal_game_count");
              _ ← log INFO "Analysis complete: {} games recommended" [optimal_games];
              learning_time ← lift (Py.getitem content_analysis "estimated_learning_time");
              _ ← log INFO "Estimated learning time: {}" [learning_time];
              _ ← log INFO "Stage 3: Setting up output directory" [];
              _ ← mkdir output_dir;
              _ ← log INFO "Stage 4-7: Generating {} adaptive games" [optimal_games];
              specs_json ← lift (Py.getitem analysis "game_specifications");
              specs ← lift (Fmt.iter_items specs_json);
              successful_games ←
                games_loop (adaptive_game fallback output_dir optimal_games)
                  optimal_games 1 specs [];
              _ ← log INFO "Stage 8: Creating index and reports" [];
              _ ← _create_enhanced_index successful_games analysis output_dir;
              _ ← _save_analysis_report analysis successful_games output_dir;
              _ ← log INFO "Adaptive generation complete!" [];
              _ ← log INFO "Generated {}/{} games" [jnat (length successful_games); optimal_games];
              _ ← log INFO "Files saved to: {}" [JStr output_dir];
              log INFO "Perfectly adapted to content complexity!" [])
             (fun x => log ERROR "Critical error in adaptive system: {}" [JStr (exn_msg x)]))
        e w'
  end.
Proof.
  intros Hread Hlen. apply Nat.ltb_ge in Hlen.
  unfold generate_adaptive_games.
  rewrite run_bind, run_log, !run_try, run_bind, run_log, run_bind, run_read_file, Hread.
  cbv beta iota. rewrite Hlen, run_bind, run_log, run_bind.
  fold (at_analysis w).
  destruct (run (AdaptiveContentAnalyzer.run content) e (at_analysis w)) as [[analysis | x] w'];
    [ | reflexivity ].
  now rewrite run_try.
Qed.

End AdaptiveEdges.

(** ** Runs that stop before the games *)

(** X9.  When the three attempts of the analysis all fail,
    [generate_adaptive_games] stops there: it has called the model
    three times, made no directory, opened no file, and the last thing
    it does is to log the critical error with the terminal message of
    the analysis. *)
Theorem failed_analysis_writes_nothing (fallback : dict -> M string) (e : env)
        (content_file output_dir content : string) (w : world) :
  let a := RetryFacts.analysis_outcome e content in
  read_text e content_file = Ok content ->
  50 <= String.length (PyStr.strip content) ->
  a (asks w) <> RetryFacts.Succeeds ->
  a (S (asks w)) <> RetryFacts.Succeeds ->
  a (S (S (asks w))) <> RetryFacts.Succeeds ->
  exists w' evs,
    run (generate_adaptive_games fallback content_file output_dir) e w = (Ok tt, w')
    /\ asks w' = 3 + asks w
    /\ same_files w w'
    /\ trace w' =
       evs ++ [Log ERROR "Critical error in adaptive system: {}"
                 [JStr (if RetryFacts.raised (a (S (S (asks w))))
                        then "Failed to analyze content after 3 attempts"
                        else "All content analysis attempts failed")]].
Proof.
  intros a Hread Hlen H0 H1 H2.
  rewrite (adaptive_reaches_analysis fallback e content_file output_dir w content Hread Hlen).
  destruct (analysis_exhausted e content (at_analysis w) H0 H1 H2) as (w3 & R & A & _).
  pose proof (hands_off_analysis content e (at_analysis w)) as Hfiles.
  rewrite R in *. simpl in Hfiles.
  eexists. exists (trace w3). split; [ reflexivity | ].
  split; [ exact A | ]. split.
  - eapply same_files_trans; [ apply at_analysis_files | ].
    eapply same_files_trans; [ exact Hfiles | now apply same_files_emit ].
  - simpl. fold a. change (asks (at_analysis w)) with (asks w).
    now destruct (RetryFacts.raised (a (S (S (asks w))))).
Qed.

(** A run of [failed_analysis_writes_nothing]: the input has 60
    letters and every answer of the model is [{}]. *)
Lemma failed_analysis_writes_nothing_run :
  exists w' evs,
    run (generate_adaptive_games missing_fallback "extract.txt" "out")
        Cases.env_rejected_plan world0 = (Ok tt, w')
    /\ asks w' = 3 + asks world0
    /\ same_files world0 w'
    /\ trace w' =
       evs ++ [Log ERROR "Critical error in adaptive system: {}"
                 [JStr (if RetryFacts.raised
                             (RetryFacts.analysis_outcome Cases.env_rejected_plan
                                (Scenario.replicate_char 60 "x"%char) (S (S (asks world0))))
                        then "Failed to analyze content after 3 attempts"
                        else "All content analysis attempts failed")]].
Proof.
  apply (failed_analysis_writes_nothing missing_fallback Cases.env_rejected_plan
           "extract.txt" "out" (Scenario.replicate_char 60 "x"%char) world0).
  - reflexivity.
  - vm_compute. lia.
  - vm_compute. discriminate.
  - vm_compute. discriminate.
  - vm_compute. discriminate.
Defined.

(** X10.  The validator does not ask for a learning time, the driver
    does: when the analysis that comes back has no
    [estimated_learning_time] in its content analysis,
    [generate_adaptive_games] stops with a critical error before it
    makes the output directory or generates any game. *)
Theorem missing_learning_time_aborts (fallback : dict -> M string) (e : env)
        (content_file output_dir content response : string) (w : world)
        (k : nat) (analysis content_analysis : dict) :
  read_text e content_file = Ok content ->
  50 <= String.length (PyStr.strip content) ->
  k < 3 ->
  (forall j, j < k ->
     RetryFacts.analysis_outcome e content (asks w + j) <> RetryFacts.Succeeds) ->
  llm e (asks w + k) (AnalysisPrompt content) = Ok response ->
  json_loads e (AnalyzerPure._clean_json_response response) = Ok (JDict analysis) ->
  AnalyzerPure._validate_analysis (JDict analysis) = true ->
  Py.lookup "content_analysis" analysis = Some (JDict content_analysis) ->
  Py.lookup "estimated_learning_time" content_analysis = None ->
  exists w' evs msg,
    run (generate_adaptive_games fallback content_file output_dir) e w = (Ok tt, w')
    /\ asks w' = asks w + k + 1
    /\ same_files w w'
    /\ trace w' = evs ++ [Log ERROR "Critical error in adaptive system: {}" [JStr msg]].
Proof.
  intros Hread Hlen Hk Hfail Hllm Hloads Hvalid Hca Htime.
  rewrite (adaptive_reaches_analysis fallback e content_file output_dir w content Hread Hlen).
  assert (Hgood : RetryFacts.analysis_outcome e content (asks (at_analysis w) + k)
                  = RetryFacts.Succeeds).
  { change (asks (at_analysis w)) with (asks w).
    unfold RetryFacts.analysis_outcome. now rewrite Hllm, Hloads, Hvalid. }
  destruct (analysis_first_valid e content (at_analysis w) k Hk Hfail Hgood)
    as (response' & data & w2 & Hl & Hj & _ & R & A & _).
  change (asks (at_analysis w)) with (asks w) in Hl, A.
  rewrite Hllm in Hl. injection Hl as <-. rewrite Hloads in Hj. injection Hj as <-.
  pose proof (hands_off_analysis content e (at_analysis w)) as Hfiles.
  rewrite R in *. simpl in Hfiles.
  destruct (validate_dict_unfold analysis Hvalid)
    as (ca & games & declared & n & Ha & _ & _ & Hd & _).
  rewrite Hca in Ha. injection Ha as <-.
  rewrite run_try, run_bind, run_lift. cbn [Py.getitem]. rewrite Hca. cbv beta iota.
  rewrite run_bind, run_lift, Hd. cbv beta iota.
  rewrite run_bind, run_log. cbv beta iota.
  rewrite run_bind, run_lift. cbn [Py.getitem]. rewrite Htime. cbv beta iota.
  rewrite run_log.
  eexists. eexists. eexists. split; [ reflexivity | ].
  split; [ exact A | ]. split; [ | reflexivity ].
  eapply same_files_trans; [ apply at_analysis_files | ].
  eapply same_files_trans; [ exact Hfiles | ].
  eapply same_files_trans; now apply same_files_emit.
Qed.

(** A run of [missing_learning_time_aborts]: the first answer is a plan
    of four games without a learning time. *)
Lemma missing_learning_time_aborts_run :
  exists w' evs msg,
    run (generate_adaptive_games missing_fallback "extract.txt" "out")
        Cases.env_plan_without_time world0 = (Ok tt, w')
    /\ asks w' = asks world0 + 0 + 1
    /\ same_files world0 w'
    /\ trace w' = evs ++ [Log ERROR "Critical error in adaptive system: {}" [JStr msg]].
Proof.
  apply (missing_learning_time_aborts missing_fallback Cases.env_plan_without_time
           "extract.txt" "out" (Scenario.replicate_char 60 "x"%char) "PLAN" world0 0
           Cases.plan_without_time [("optimal_game_count", JInt 4)]).
  - reflexivity.
  - vm_compute. lia.
  - lia.
  - intros j Hj. lia.
  - reflexivity.
  - vm_compute. reflexivity.
  - vm_compute. reflexivity.
  - reflexivity.
  - reflexivity.
Defined.

(** X11.  A plan file without games ends the robust driver at once:
    when the parsed file is an object whose [mini_games] is missing or
    is empty, null, zero or false, [generate_games_from_json] logs
    that no games were found and does nothing else: no model call, no
    directory, no file. *)
Theorem no_games_found (e : env) (json_file output_dir text : string)
        (system_data : dict) (w : world) :
  read_text e json_file = Ok text ->
  json_loads e text = Ok (JDict system_data) ->
  Py.truthy (Py.get system_data "mini_games" (JList [])) = false ->
  run (RobustGameGenerator.generate_games_from_json json_file output_dir) e w =
    (Ok tt,
     emit (Log ERROR "No games found in JSON file" [])
       (emit (Log INFO "Starting robust game generation" []) w)).
Proof.
  intros Hread Hloads Hempty.
  unfold RobustGameGenerator.generate_games_from_json.
  rewrite run_bind, run_log, run_try.
  rewrite run_bind, run_read_file, Hread.
  rewrite run_bind, run_loads, Hloads.
  rewrite run_bind, run_lift. cbn [Fmt.get_method]. cbv beta iota.
  rewrite Hempty. cbn [negb]. now rewrite run_log.
Qed.

(** A run of [no_games_found]: the plan file is an object with a title
    only. *)
Lemma no_games_found_run :
  run (RobustGameGenerator.generate_games_from_json "games.json" "out")
      Cases.env_no_games world0 =
    (Ok tt,
     emit (Log ERROR "No games found in JSON file" [])
       (emit (Log INFO "Starting robust game generation" []) world0)).
Proof.
  apply (no_games_found Cases.env_no_games "games.json" "out" "GAMES"
           [("title", JStr "Plan")] world0); reflexivity.
Defined.

(** ** Saving validated games *)

Section SaveRejected.
Context (e : env) (output_dir : string).

Lemma save_one_rejected (result : json) (acc : list dict) (w : world) :
  is_rejected result = true ->
  run (MultiAgent.save_one output_dir result acc) e w = (Ok acc, w).
Proof.
  unfold is_rejected. destruct result as [ | | | | | | item]; try discriminate.
  destruct (Py.get item "validation" (JDict [])) as [ | | | | | | validation] eqn:Hv;
    try discriminate.
  intros Hp. apply negb_true_iff in Hp.
  unfold MultiAgent.save_one.
  rewrite run_bind, run_lift. cbn [Fmt.get_method]. cbv beta iota.
  rewrite run_bind, run_lift. cbn [Fmt.get_method]. cbv beta iota. rewrite Hv.
  rewrite run_bind, run_lift. cbn [Fmt.get_method]. cbv beta iota.
  now rewrite Hp.
Qed.

Lemma save_loop_skips_rejected (results : list json) (acc : list dict) (w : world) :
  run (MultiAgent.save_loop output_dir results acc) e w =
  run (MultiAgent.save_loop output_dir
         (List.filter (fun r => negb (is_rejected r)) results) acc) e w.
Proof.
  revert acc w. induction results as [ | result results IH]; intros acc w; [ reflexivity | ].
  cbn [List.filter]. destruct (is_rejected result) eqn:Hrej; cbn [negb].
  - cbn [MultiAgent.save_loop]. rewrite run_bind, (save_one_rejected result acc w Hrej).
    apply IH.
  - cbn [MultiAgent.save_loop]. rewrite !run_bind.
    destruct (run (MultiAgent.save_one output_dir result acc) e w) as [[acc' | x] w1];
      [ apply IH | reflexivity ].
Qed.

End SaveRejected.

(** X12.  [_save_games] passes over every result whose validation says
    [passes_validation] is false: such results leave no file, no index
    entry and no log line, so saving a list of results does exactly
    what saving the list without them does. *)
Theorem rejected_results_are_skipped (e : env) (all_results kept_results output_dir : string)
        (results : list json) (w : world) :
  json_loads e all_results = Ok (JList results) ->
  json_loads e kept_results
    = Ok (JList (List.filter (fun r => negb (is_rejected r)) results)) ->
  run (MultiAgent._save_games all_results output_dir) e w
  = run (MultiAgent._save_games kept_results output_dir) e w.
Proof.
  intros Hall Hkept. unfold MultiAgent._save_games.
  rewrite !run_try, !run_bind, !run_loads, Hall, Hkept. cbv beta iota.
  rewrite !run_bind, !run_mkdir. destruct (mkdir_ok e output_dir); [ | reflexivity ].
  cbv beta iota. rewrite !run_bind, !run_lift. cbn [Fmt.iter_items]. cbv beta iota.
  rewrite !run_bind. now rewrite save_loop_skips_rejected.
Qed.

(** A run of [rejected_results_are_skipped]: of the two results the
    second is rejected. *)
Lemma rejected_results_are_skipped_run :
  run (MultiAgent._save_games "RESULTS" "out") Cases.env_two_lists world0
  = run (MultiAgent._save_games "KEPT" "out") Cases.env_two_lists world0.
Proof.
  apply (rejected_results_are_skipped Cases.env_two_lists "RESULTS" "KEPT" "out"
           [Scenario.unparsed_result; Scenario.rejected_result] world0); reflexivity.
Defined.

(** ** Plan items that are not objects *)

Section LoopStops.
Context (one_game : nat -> dict -> M dict) (total : json) (e : env).

(** The loop plays the games before the first item that is not an
    object and raises at that item. *)
Lemma games_loop_stops (pre : list dict) (x : json) (rest : list json)
      (i : nat) (acc : list dict) (w : world) :
  is_dict x = false ->
  run (games_loop one_game total i (List.map JDict pre ++ x :: rest) acc) e w =
    (Raise (AttributeError "object has no attribute 'get'"),
     snd (Replay.play one_game total e i pre w)).
Proof.
  intros Hx. revert i acc w. induction pre as [ | game_spec pre IH]; intros i acc w.
  - destruct x; try discriminate; reflexivity.
  - change (List.map JDict (game_spec :: pre) ++ x :: rest)
      with (JDict game_spec :: (List.map JDict pre ++ x :: rest)).
    cbn [games_loop Replay.play].
    rewrite run_bind, run_log, run_bind, run_try, run_bind.
    destruct (run (one_game i game_spec) e _) as [[entry | y] w1] eqn:Hgame.
    + rewrite run_ret, IH.
      destruct (Replay.play one_game total e (S i) pre w1) as [played w3]. reflexivity.
    + rewrite run_bind, run_log, run_ret, IH.
      destruct (Replay.play one_game total e (S i) pre _) as [played w3]. reflexivity.
Qed.

End LoopStops.

(** X13.  A plan item that is not an object stops the robust driver at
    that item: the games before it have been generated as in any run,
    the items after it are never looked at, no index page is written,
    and the run ends with the critical error. *)
Theorem non_object_item_stops_run (e : env) (json_file output_dir text : string)
        (system_data : dict) (pre : list dict) (x : json) (rest : list json) (w : world) :
  read_text e json_file = Ok text ->
  json_loads e text = Ok (JDict system_data) ->
  Py.get system_data "mini_games" (JList []) = JList (List.map JDict pre ++ x :: rest) ->
  is_dict x = false ->
  mkdir_ok e output_dir = true ->
  let total := JInt (Z.of_nat (length (List.map JDict pre ++ x :: rest))) in
  let w1 := emit (Mkdir output_dir)
              (emit (Log INFO "Starting robust game generation" []) w) in
  let played := Replay.play (RobustGameGenerator.robust_game output_dir) total e 1 pre w1 in
  exists msg,
    run (RobustGameGenerator.generate_games_from_json json_file output_dir) e w =
      (Ok tt, emit (Log ERROR "Critical error: {}" [JStr msg]) (snd played)).
Proof.
  intros Hread Hloads Hgames Hx Hmkdir total w1 played.
  unfold RobustGameGenerator.generate_games_from_json.
  rewrite run_bind, run_log, run_try.
  rewrite run_bind, run_read_file, Hread.
  rewrite run_bind, run_loads, Hloads.
  rewrite run_bind, run_lift. cbn [Fmt.get_method]. rewrite Hgames.
  assert (Htruthy : Py.truthy (JList (List.map JDict pre ++ x :: rest)) = true)
    by (destruct pre; reflexivity).
  rewrite Htruthy. cbn [negb].
  rewrite run_bind, run_mkdir, Hmkdir.
  rewrite run_bind, run_lift. cbn [Fmt.iter_items].
  rewrite run_bind, run_lift. cbn [Py.len].
  rewrite run_bind, games_loop_stops by assumption.
  fold total. fold w1. fold played.
  rewrite run_log. eexists. reflexivity.
Qed.

(** A run of [non_object_item_stops_run]: the second of three items is
    a string.  The first game is saved, the third is never requested. *)
Lemma non_object_item_stops_run_second :
  let played := Replay.play (RobustGameGenerator.robust_game "out") (JInt 3)
                  Cases.env_bad_item 1 [[("title", JStr "One")]]
                  (emit (Mkdir "out")
                     (emit (Log INFO "Starting robust game generation" []) world0)) in
  exists msg,
    run (RobustGameGenerator.generate_games_from_json "games.json" "out")
        Cases.env_bad_item world0 =
      (Ok tt, emit (Log ERROR "Critical error: {}" [JStr msg]) (snd played)).
Proof.
  apply (non_object_item_stops_run Cases.env_bad_item "games.json" "out" "GAMES"
           [("mini_games", JList [JDict [("title", JStr "One")]; JStr "Two";
                                  JDict [("title", JStr "Three")]])]
           [[("title", JStr "One")]] (JStr "Two") [JDict [("title", JStr "Three")]] world0);
    reflexivity.
Defined.

(** ** The script check *)

Section JsFacts.
Import JsCheck.

Lemma mismatched_false_iff (a b : nat) :
  mismatched a b = false <-> (Z.abs (Z.of_nat a - Z.of_nat b) <= 2)%Z.
Proof. unfold mismatched. now rewrite Z.ltb_ge. Qed.

Lemma block_issues_nil (i : nat) (js_block : string) :
  block_issues i js_block = [] <-> tolerated js_block.
Proof.
  unfold block_issues, tolerated. rewrite <- !mismatched_false_iff.
  destruct (mismatched (PyStr.count_at "{" js_block) (PyStr.count_at "}" js_block));
    destruct (mismatched (PyStr.count_at "(" js_block) (PyStr.count_at ")" js_block));
    simpl; split; try discriminate; try tauto; intros [? ?]; discriminate.
Qed.

Lemma block_issues_length (i : nat) (js_block : string) :
  length (block_issues i js_block) <= 2.
Proof.
  unfold block_issues.
  destruct (mismatched _ _); destruct (mismatched _ _); simpl; lia.
Qed.

Lemma issues_from_nil (i : nat) (js_blocks : list string) :
  issues_from i js_blocks = [] <-> Forall tolerated js_blocks.
Proof.
  revert i. induction js_blocks as [ | b bs IH]; intros i.
  - split; [ constructor | reflexivity ].
  - cbn [issues_from]. split.
    + intros H. apply app_eq_nil in H as [Hb Hbs]. constructor.
      * now apply (block_issues_nil i).
      * now apply (IH (S i)).
    + intros H. inversion H as [ | ? ? Hb Hbs]; subst.
      apply (block_issues_nil i) in Hb. apply (IH (S i)) in Hbs.
      now rewrite Hb, Hbs.
Qed.

Lemma issues_from_length (i : nat) (js_blocks : list string) :
  length (issues_from i js_blocks) <= 2 * length js_blocks.
Proof.
  revert i. induction js_blocks as [ | b bs IH]; intros i; [ simpl; lia | ].
  cbn [issues_from]. rewrite length_app. simpl length.
  pose proof (block_issues_length i b). specialize (IH (S i)). lia.
Qed.

(** The pattern starts with [<]: where the text has another character,
    no script block starts. *)
Lemma lower_lt (c : ascii) :
  PyChar.eqb (PyChar.lower c) (PyChar.lower "<"%char) = PyChar.eqb c "<"%char.
Proof. destruct c as [[] [] [] [] [] [] [] []]; reflexivity. Qed.

Lemma script_block_needs_lt (prev : option ascii) (s : string) :
  Lines.has "<"%char s = false ->
  PyRe.match_here FixedCodeCleaner.I script_block prev s = None.
Proof.
  destruct s as [ | c s]; [ reflexivity | ].
  cbn [Lines.has]. intros H. apply orb_false_elim in H as [Hc _].
  unfold PyRe.match_here, script_block. cbn [PyRe.lits PyRe.exec PyRe.rest].
  unfold PyRe.lit_matches. cbn [PyRe.IGNORECASE FixedCodeCleaner.I].
  now rewrite lower_lt, Hc.
Qed.

Lemma findall_without_lt (prev : option ascii) (s : string) :
  Lines.has "<"%char s = false ->
  findall_from FixedCodeCleaner.I script_block prev s 0 = [].
Proof.
  revert prev. induction s as [ | c s IH]; intros prev H.
  - cbn [findall_from]. now rewrite script_block_needs_lt.
  - cbn [findall_from]. rewrite (script_block_needs_lt prev (String c s) H).
    cbn [Lines.has] in H. apply orb_false_elim in H as [_ Hs]. now apply IH.
Qed.

End JsFacts.

(** X14.  [validate_javascript_basics] reports nothing exactly when, in
    every script block it finds, the counts of opening and closing
    braces differ by at most 2 and so do the counts of opening and
    closing parentheses; it reports at most two issues per block; and a
    text without the character [<] has no issue at all. *)
Theorem js_issues_tolerance (html : string) :
  let js_blocks := JsCheck.findall FixedCodeCleaner.I JsCheck.script_block html in
  (JsCheck.validate_javascript_basics html = [] <-> Forall JsCheck.tolerated js_blocks)
  /\ length (JsCheck.validate_javascript_basics html) <= 2 * length js_blocks
  /\ (Lines.has "<"%char html = false -> JsCheck.validate_javascript_basics html = []).
Proof.
  intros js_blocks. unfold JsCheck.validate_javascript_basics. fold js_blocks.
  split; [ apply issues_from_nil | ]. split; [ apply issues_from_length | ].
  intros H. unfold js_blocks, JsCheck.findall. now rewrite findall_without_lt.
Qed.

(** A run of [js_issues_tolerance]: a script block with three braces
    left open is reported, the same block with one left open is not, and
    a plain sentence has no issue. *)
Lemma js_issues_tolerance_run :
  JsCheck.validate_javascript_basics "<script>f(){{{</script>"
    = ["Script block 1: Significantly mismatched braces"]
  /\ JsCheck.validate_javascript_basics "<SCRIPT type=x>f(){</script>" = []
  /\ JsCheck.validate_javascript_basics "no markup here" = [].
Proof.
  split; [ vm_compute; reflexivity | ]. split; [ vm_compute; reflexivity | ].
  apply (proj2 (proj2 (js_issues_tolerance "no markup here"))).
  vm_compute. reflexivity.
Defined.

(** ** The robust cleaner *)

Lemma inside_here (c t : string) :
  exists before after, c +:+ t = before +:+ c +:+ after.
Proof. exists EmptyString, t. now rewrite append_nil_l. Qed.

Lemma inside_later (a c r : string) :
  (exists before after, r = before +:+ c +:+ after) ->
  exists before after, a +:+ r = before +:+ c +:+ after.
Proof.
  intros (before & after & ->). exists (a +:+ before), after.
  now rewrite append_assoc.
Qed.

(** X15.  [RobustCodeCleaner.clean_html_response] never drops text:
    what is left of the response after trimming and fence removal
    stands unchanged inside the result, which is that text alone, or the
    text after a doctype line, or the text inside the document shell.
    The result is empty exactly when that text is empty. *)
Theorem robust_cleaner_keeps_text (raw_response : string) :
  let cleaned :=
    PyStr.strip (RobustCodeCleaner.remove_markdown (PyStr.strip raw_response)) in
  let out := RobustCodeCleaner.clean_html_response raw_response in
  (out = cleaned
   \/ out = "<!DOCTYPE html>" +:+ RobustCodeCleaner.nl +:+ cleaned
   \/ out = RobustCodeCleaner.shell cleaned)
  /\ (exists before after, out = before +:+ cleaned +:+ after)
  /\ (out = EmptyString <-> cleaned = EmptyString).
Proof.
  intros cleaned out.
  assert (Hcases : out = cleaned
                   \/ out = "<!DOCTYPE html>" +:+ RobustCodeCleaner.nl +:+ cleaned
                   \/ out = RobustCodeCleaner.shell cleaned).
  { subst out. unfold RobustCodeCleaner.clean_html_response,
      RobustCodeCleaner.clean_html_try. fold cleaned.
    destruct (negb (PyStr.startswith (PyStr.upper cleaned) "<!DOCTYPE")); [ | now left ].
    destruct (PyStr.contains "<html" (PyStr.lower cleaned)); [ right; now left | ].
    destruct (existsb _ _); [ right; now right | now left ]. }
  assert (Hempty : cleaned = EmptyString -> out = EmptyString).
  { intros Hc. subst out. unfold RobustCodeCleaner.clean_html_response,
      RobustCodeCleaner.clean_html_try. fold cleaned. rewrite Hc. reflexivity. }
  clearbody out cleaned.
  split; [ exact Hcases | ]. split.
  - destruct Hcases as [-> | [-> | ->]].
    + exists EmptyString, EmptyString. now rewrite append_nil_l, append_nil_r.
    + exists ("<!DOCTYPE html>" +:+ RobustCodeCleaner.nl), EmptyString.
      now rewrite append_nil_r, append_assoc.
    + unfold RobustCodeCleaner.shell.
      repeat first [ apply inside_here | apply inside_later ].
  - split; [ | exact Hempty ].
    destruct Hcases as [-> | [-> | ->]]; [ tauto | discriminate | discriminate ].
Qed.

(** ** File names of one run *)

Section NumberedNames.

Lemma number_of_str_nat (n : nat) : number_of (Fmt.str_nat n) = Some n.
Proof.
  unfold Fmt.str_nat, NilZero.string_of_uint, number_of.
  pose proof (DecimalNat.Unsigned.of_to n) as Hn.
  destruct (Nat.to_uint n) eqn:E;
    try (rewrite NilEmpty.usu; simpl option_map; now rewrite Hn).
  simpl in Hn. now subst n.
Qed.

Lemma number_of_leading_zero (s : string) :
  number_of (String "0"%char s) = number_of s.
Proof.
  unfold number_of. simpl. destruct (NilEmpty.uint_of_string s); reflexivity.
Qed.

Lemma number_of_pad2 (n : nat) : number_of (Fmt.pad2 n) = Some n.
Proof.
  unfold Fmt.pad2. destruct (n <? 10).
  - rewrite append_cons, append_nil_l, number_of_leading_zero. apply number_of_str_nat.
  - apply number_of_str_nat.
Qed.

Lemma digits_of_uint (d : Decimal.uint) :
  PyStr.all isdigit (NilEmpty.string_of_uint d) = true.
Proof. induction d; simpl; try assumption; reflexivity. Qed.

Lemma digits_str_nat (n : nat) : PyStr.all isdigit (Fmt.str_nat n) = true.
Proof.
  unfold Fmt.str_nat, NilZero.string_of_uint.
  destruct (Nat.to_uint n) eqn:E; try (rewrite <- E; apply digits_of_uint).
  reflexivity.
Qed.

Lemma digits_pad2 (n : nat) : PyStr.all isdigit (Fmt.pad2 n) = true.
Proof.
  unfold Fmt.pad2. destruct (n <? 10); [ | apply digits_str_nat ].
  rewrite append_cons, append_nil_l. simpl. apply digits_str_nat.
Qed.

(** Two texts of digits, each followed by an underscore: where the
    wholes agree, the digits agree. *)
Lemma digits_before_underscore (a b x y : string) :
  PyStr.all isdigit a = true -> PyStr.all isdigit b = true ->
  a +:+ String "_"%char x = b +:+ String "_"%char y -> a = b.
Proof.
  revert b. induction a as [ | c a IH]; intros [ | d b] Ha Hb H.
  - reflexivity.
  - rewrite append_nil_l, append_cons in H. injection H as <- _.
    simpl in Hb. discriminate.
  - rewrite append_nil_l, append_cons in H. injection H as -> _.
    simpl in Ha. discriminate.
  - rewrite !append_cons in H. injection H as -> H.
    simpl in Ha, Hb. apply andb_prop in Ha as [_ Ha]. apply andb_prop in Hb as [_ Hb].
    f_equal. now apply IH.
Qed.

End NumberedNames.

(** X16.  The file names that the adaptive and the robust driver give
    to the games of one run differ whenever the game numbers differ,
    whatever the titles are: no game of a run overwrites another. *)
Theorem numbered_filenames_differ (i j : nat) (safe_title safe_title' : string) :
  i <> j ->
  Fmt.filename_of (Fmt.pad2 i) safe_title <> Fmt.filename_of (Fmt.pad2 j) safe_title'.
Proof.
  intros Hij Heq. apply Hij. unfold Fmt.filename_of in Heq.
  rewrite !(append_cons _ _ (Fmt.pad2 _ +:+ _)), !append_nil_l in Heq.
  injection Heq as Heq.
  rewrite !(append_cons "_"%char), !append_nil_l in Heq.
  apply digits_before_underscore in Heq; try apply digits_pad2.
  pose proof (number_of_pad2 i) as Hi. rewrite Heq, number_of_pad2 in Hi.
  now injection Hi.
Qed.

(** A run of [numbered_filenames_differ]: two games with the same
    title. *)
Lemma numbered_filenames_differ_same_title :
  Fmt.filename_of (Fmt.pad2 1) "Fractions" <> Fmt.filename_of (Fmt.pad2 2) "Fractions".
Proof. apply (numbered_filenames_differ 1 2 "Fractions" "Fractions"). lia. Defined.

(** ** parse_html_response on a response without fences *)

Section ParseHtml.
Import Lines MultiAgentHtml.

Lemma lower_backtick (c : ascii) :
  PyChar.eqb (PyChar.lower c) (PyChar.lower "`"%char) = PyChar.eqb c "`"%char.
Proof. destruct c as [[] [] [] [] [] [] [] []]; reflexivity. Qed.

(** The pattern starts with a backtick: where the text has another
    character, no fenced block starts. *)
Lemma html_block_needs_backtick (prev : option ascii) (s : string) :
  has "`"%char s = false ->
  PyRe.match_here MultiAgent.I html_block prev s = None.
Proof.
  destruct s as [ | c s]; [ reflexivity | ].
  cbn [has]. intros H. apply orb_false_elim in H as [Hc _].
  unfold PyRe.match_here, html_block, PyRe.fence. cbn [PyRe.lits PyRe.exec PyRe.rest].
  unfold PyRe.lit_matches. cbn [PyRe.IGNORECASE MultiAgent.I].
  now rewrite lower_backtick, Hc.
Qed.

Lemma search_without_backtick (prev : option ascii) (s : string) (i : nat) :
  has "`"%char s = false ->
  PyRe.search_from MultiAgent.I html_block prev s i = None.
Proof.
  revert prev i. induction s as [ | c s IH]; intros prev i H.
  - cbn [PyRe.search_from]. now rewrite html_block_needs_backtick.
  - cbn [PyRe.search_from]. rewrite (html_block_needs_backtick prev (String c s) H).
    cbn [has] in H. apply orb_false_elim in H as [_ Hs]. now apply IH.
Qed.

Lemma lstrip_trimmed (u : string) : trimmed_left u -> PyStr.lstrip u = u.
Proof. destruct u as [ | c u]; [ reflexivity | ]. simpl. now intros ->. Qed.

Lemma strip_idempotent (s : string) : PyStr.strip (PyStr.strip s) = PyStr.strip s.
Proof.
  unfold PyStr.strip at 1. rewrite (lstrip_trimmed _ (strip_trimmed_left s)).
  unfold PyStr.strip. apply rstrip_idempotent.
Qed.

Lemma has_strip (c : ascii) (s : string) :
  has c s = false -> has c (PyStr.strip s) = false.
Proof.
  intros H. unfold PyStr.strip.
  destruct (lstrip_suffix s) as (ws & _ & Hs).
  destruct (rstrip_prefix (PyStr.lstrip s)) as (ws' & _ & Hl).
  rewrite Hs, has_app in H. apply orb_false_elim in H as [_ H].
  rewrite Hl, has_app in H. now apply orb_false_elim in H as [H _].
Qed.

(** Without a backtick there is no fenced block, and the response is
    judged by its own first characters. *)
Lemma parse_html_plain (rsp : string) :
  has "`"%char rsp = false ->
  parse_html_response rsp =
    if PyStr.startswith (PyStr.strip rsp) "<!DOCTYPE html>"
       || PyStr.startswith (PyStr.strip rsp) "<html"
    then PyStr.strip rsp
    else rsp.
Proof.
  intros H. unfold parse_html_response, PyRe.search.
  now rewrite search_without_backtick.
Qed.

End ParseHtml.

(** X17.  On a response without any backtick [parse_html_response]
    finds no fenced block: it returns the trimmed response when that
    starts with [<!DOCTYPE html>] or with [<html] (in exactly this
    spelling), and the response untouched, blanks included, otherwise.
    Parsing its result again changes nothing. *)
Theorem parse_html_without_fence (rsp : string) :
  Lines.has "`"%char rsp = false ->
  MultiAgentHtml.parse_html_response rsp =
    (if PyStr.startswith (PyStr.strip rsp) "<!DOCTYPE html>"
        || PyStr.startswith (PyStr.strip rsp) "<html"
     then PyStr.strip rsp
     else rsp)
  /\ MultiAgentHtml.parse_html_response (MultiAgentHtml.parse_html_response rsp)
     = MultiAgentHtml.parse_html_response rsp.
Proof.
  intros H. pose proof (parse_html_plain rsp H) as Hp.
  split; [ exact Hp | ].
  rewrite Hp at 1 2.
  destruct (PyStr.startswith (PyStr.strip rsp) "<!DOCTYPE html>"
            || PyStr.startswith (PyStr.strip rsp) "<html") eqn:Hc.
  - rewrite (parse_html_plain _ (has_strip _ _ H)), strip_idempotent, Hc. reflexivity.
  - exact Hp.
Qed.

(** A run of [parse_html_without_fence]: a page with blanks around it
    is trimmed; the same page in capitals is not recognised and comes
    back with its blanks. *)
Lemma parse_html_without_fence_run :
  MultiAgentHtml.parse_html_response "  <html><body>Hi</body></html>  "
    = "<html><body>Hi</body></html>"
  /\ MultiAgentHtml.parse_html_response "  <HTML><body>Hi</body></HTML>  "
     = "  <HTML><body>Hi</body></HTML>  ".
Proof.
  split.
  - rewrite (proj1 (parse_html_without_fence "  <html><body>Hi</body></html>  "
                      ltac:(vm_compute; reflexivity))).
    vm_compute. reflexivity.
  - rewrite (proj1 (parse_html_without_fence "  <HTML><body>Hi</body></HTML>  "
                      ltac:(vm_compute; reflexivity))).
    vm_compute. reflexivity.
Defined.
